(** * SSD1306 OLED driver (Core/Src/hardware/screen): shallow embedding

    The driver of [SSD1306.c] and the font table of [numbersVerdana16.c]
    are embedded as Rocq functions over an explicit machine state: the
    driver's file-scope variables, the three GPIO lines, and the log of
    every call made to the SPI/GPIO layer.  What the HAL answers (the
    status of a transmission, the state of the peripheral) is not decided
    by the driver; it is read from an environment [hal_env].

    Angles are IEEE-754 binary32 values ([float] on the target), taken from
    the parametric specification of floating-point arithmetic of the
    Standard Library at precision 24 and maximal exponent 128. *)

From Stdlib Require Import ZArith List Bool Lia.
From Stdlib Require Import Floats.SpecFloat.
From stdpp Require Import base list.
Import ListNotations.
Local Open Scope Z_scope.

(** ** Machine integers *)

Definition to_uint8 (z : Z) : Z := z mod 256.
Definition to_uint16 (z : Z) : Z := z mod 65536.

(** ** binary32 arithmetic *)

Module F32.

Definition prec : Z := 24.
Definition emax : Z := 128.

(** A well-formed binary32 datum: canonical mantissa, exponent in range. *)
Definition valid (x : spec_float) : bool := valid_binary prec emax x.

Definition of_Z (z : Z) : spec_float := binary_normalize prec emax z 0 false.
Definition mul : spec_float -> spec_float -> spec_float := SFmul prec emax.
Definition div : spec_float -> spec_float -> spec_float := SFdiv prec emax.
Definition opp : spec_float -> spec_float := SFopp.
Definition abs : spec_float -> spec_float := SFabs.
Definition ltb : spec_float -> spec_float -> bool := SFltb.
Definition leb : spec_float -> spec_float -> bool := SFleb.

(** The decimal literal [num / den] (den a power of ten), rounded to the
    nearest binary32 as the compiler does for a literal such as [0.05f].
    Both operands are exact in binary32, so the correctly rounded quotient
    is the nearest binary32 to the decimal value. *)
Definition literal (num den : Z) : spec_float := div (of_Z num) (of_Z den).

(** Integer part of the magnitude [m * 2^e]. *)
Definition trunc_mag (m : positive) (e : Z) : Z :=
  if 0 <=? e then Z.pos m * 2 ^ e else Z.pos m / 2 ^ (- e).

(** Conversion of a binary32 to an integer: the fractional part is
    discarded (truncation toward zero).  C gives no meaning to the
    conversion of an infinity or of a NaN; the model returns 0 there. *)
Definition trunc (x : spec_float) : Z :=
  match x with
  | S754_finite s m e => if s then - trunc_mag m e else trunc_mag m e
  | _ => 0
  end.

(** Largest integer not above the value of [x] (the mathematical floor). *)
Definition floor (x : spec_float) : Z :=
  match x with
  | S754_finite false m e => trunc_mag m e
  | S754_finite true m e =>
      if 0 <=? e then - (Z.pos m * 2 ^ e) else - ((Z.pos m + 2 ^ (- e) - 1) / 2 ^ (- e))
  | _ => 0
  end.

End F32.

(** [(uint8_t)x] and [(uint16_t)x] for a binary32 [x].  The conversion is
    undefined in C when the integer part does not fit the target type; the
    model reduces it modulo the width.  [charIndexes_range] shows that no
    angle accepted by [SSD1306_printAngle] reaches that case. *)
Definition float_to_uint8 (x : spec_float) : Z := to_uint8 (F32.trunc x).
Definition float_to_uint16 (x : spec_float) : Z := to_uint16 (F32.trunc x).

(** ** Constants of SSD1306.c *)

Definition SPI_TIMEOUT_MS : Z := 10.
Definition MAX_PARAMETERS : Z := 6.
Definition MAX_DATA_SIZE : Z := 1024.
Definition MIN_ANGLE_DEG : spec_float := F32.opp (F32.of_Z 90).
Definition MAX_ANGLE_DEG : spec_float := F32.of_Z 90.
Definition FLOAT_FACTOR_10 : spec_float := F32.of_Z 10.
Definition INT_FACTOR_10 : Z := 10.
Definition NEG_THRESHOLD : spec_float := F32.opp (F32.literal 5 100).
Definition INDEX_SIGN : nat := 0.
Definition INDEX_TENS : nat := 1.
Definition INDEX_UNITS : nat := 2.
Definition INDEX_TENTHS : nat := 4.
Definition ANGLE_NB_CHARS : Z := 6.
Definition NB_INIT_REGISERS : Z := 8.

(** ** Font table (numbersVerdana16.c) *)

(** Modelled from the spec: the header numbersVerdana16.h is not among the
    sources.  Section 3 gives the glyph index set (0..9 digits, 10 '.',
    11 '+', 12 '-', 13 degree) and the glyph geometry (11 columns, two
    pages, 22 bytes per glyph, 14 glyphs). *)
Definition VERDANA_CHAR_WIDTH : Z := 11.
Definition VERDANA_NB_PAGES : Z := 2.
Definition VERDANA_NB_BYTES_CHAR : Z := 22.
Definition NB_NUMBERS : Z := 14.
Definition INDEX_DOT : Z := 10.
Definition INDEX_PLUS : Z := 11.
Definition INDEX_MINUS : Z := 12.
Definition INDEX_DEG : Z := 13.

Definition verdana_16ptNumbers : list (list Z) :=
  [ (* INDEX_0 *)
    [ 0XF0; 0XFC; 0X0E; 0X07; 0X03; 0X03; 0X03; 0X07; 0X0E; 0XFC; 0XF0;
      0X0F; 0X3F; 0X70; 0XE0; 0XC0; 0XC0; 0XC0; 0XE0; 0X70; 0X3F; 0X0F ];
    (* INDEX_1 *)
    [ 0X00; 0X00; 0X0C; 0X0C; 0X0C; 0XFF; 0XFF; 0X00; 0X00; 0X00; 0X00;
      0X00; 0X00; 0XC0; 0XC0; 0XC0; 0XFF; 0XFF; 0XC0; 0XC0; 0XC0; 0X00 ];
    (* INDEX_2 *)
    [ 0X00; 0X06; 0X03; 0X03; 0X03; 0X03; 0X03; 0X87; 0XFE; 0X7C; 0X00;
      0X00; 0XE0; 0XF0; 0XF8; 0XDC; 0XCE; 0XC7; 0XC3; 0XC0; 0XC0; 0XC0 ];
    (* INDEX_3 *)
    [ 0X00; 0X06; 0X03; 0X03; 0XC3; 0XC3; 0XC3; 0XE7; 0X3E; 0X1C; 0X00;
      0X00; 0X60; 0XC0; 0XC0; 0XC0; 0XC0; 0XC0; 0X61; 0X7F; 0X1E; 0X00 ];
    (* INDEX_4 *)
    [ 0X00; 0X80; 0XC0; 0XF0; 0X38; 0X1C; 0X0E; 0XFF; 0XFF; 0X00; 0X00;
      0X07; 0X07; 0X07; 0X06; 0X06; 0X06; 0X06; 0XFF; 0XFF; 0X06; 0X06 ];
    (* INDEX_5 *)
    [ 0X00; 0X00; 0XFF; 0XFF; 0XC3; 0XC3; 0XC3; 0XC3; 0XC3; 0X83; 0X03;
      0X00; 0X60; 0XC0; 0XC0; 0XC0; 0XC0; 0XC0; 0XC0; 0X61; 0X7F; 0X1F ];
    (* INDEX_6 *)
    [ 0XE0; 0XF8; 0X9C; 0XC6; 0XC7; 0XC3; 0XC3; 0XC3; 0X83; 0X80; 0X00;
      0X0F; 0X3F; 0X71; 0XE0; 0XC0; 0XC0; 0XC0; 0XC0; 0X61; 0X3F; 0X1F ];
    (* INDEX_7 *)
    [ 0X00; 0X03; 0X03; 0X03; 0X03; 0X03; 0X03; 0XC3; 0XF3; 0X3F; 0X0F;
      0X00; 0X00; 0X80; 0XE0; 0XF8; 0X3E; 0X0F; 0X03; 0X00; 0X00; 0X00 ];
    (* INDEX_8 *)
    [ 0X3C; 0X7E; 0X66; 0XC3; 0XC3; 0X83; 0X83; 0XC3; 0X46; 0X7E; 0X3C;
      0X3E; 0X7F; 0X61; 0XC0; 0XC0; 0XC0; 0XC1; 0XC1; 0X63; 0X7F; 0X1E ];
    (* INDEX_9 *)
    [ 0XF8; 0XFC; 0X86; 0X03; 0X03; 0X03; 0X03; 0X07; 0X8E; 0XFC; 0XF0;
      0X00; 0X01; 0XC1; 0XC3; 0XC3; 0XC3; 0XE3; 0X63; 0X39; 0X1F; 0X07 ];
    (* INDEX_DOT *)
    [ 0X00; 0X00; 0X00; 0X00; 0X00; 0X00; 0X00; 0X00; 0X00; 0X00; 0X00;
      0X00; 0X00; 0X00; 0X00; 0X00; 0XE0; 0XE0; 0X00; 0X00; 0X00; 0X00 ];
    (* INDEX_PLUS *)
    [ 0X00; 0X00; 0X00; 0X00; 0XC0; 0XC0; 0X00; 0X00; 0X00; 0X00; 0X00;
      0X0C; 0X0C; 0X0C; 0X0C; 0XFF; 0XFF; 0X0C; 0X0C; 0X0C; 0X0C; 0X00 ];
    (* INDEX_MINUS *)
    [ 0X00; 0X00; 0X00; 0X00; 0X00; 0X00; 0X00; 0X00; 0X00; 0X00; 0X00;
      0X00; 0X00; 0X00; 0X03; 0X03; 0X03; 0X03; 0X03; 0X03; 0X00; 0X00 ];
    (* INDEX_DEG *)
    [ 0X00; 0X00; 0X3C; 0X7E; 0XE7; 0XC3; 0XC3; 0XE7; 0X7E; 0X3C; 0X00;
      0X00; 0X00; 0X00; 0X00; 0X00; 0X00; 0X00; 0X00; 0X00; 0X00; 0X00 ] ].

(** [verdana_16ptNumbers[glyph][k]].  Reading outside the table has no
    meaning in C; the model returns 0 there. *)
Definition glyph_byte (glyph k : Z) : Z :=
  if (0 <=? glyph) && (0 <=? k)
  then nth (Z.to_nat k) (nth (Z.to_nat glyph) verdana_16ptNumbers []) 0
  else 0.

(** ** Types of the HAL and of the error facility *)

Inductive HAL_StatusTypeDef := HAL_OK | HAL_ERROR | HAL_BUSY | HAL_TIMEOUT.

Inductive HAL_SPI_StateTypeDef :=
| HAL_SPI_STATE_RESET | HAL_SPI_STATE_READY | HAL_SPI_STATE_BUSY
| HAL_SPI_STATE_BUSY_TX | HAL_SPI_STATE_BUSY_RX | HAL_SPI_STATE_BUSY_TX_RX
| HAL_SPI_STATE_ERROR | HAL_SPI_STATE_ABORT.

Inductive GPIO_PinState := GPIO_PIN_RESET | GPIO_PIN_SET.

Inductive pin := SSD1306_CS_Pin | SSD1306_DC_Pin | SSD1306_RST_Pin.

Definition HAL_StatusTypeDef_eqb (a b : HAL_StatusTypeDef) : bool :=
  match a, b with
  | HAL_OK, HAL_OK | HAL_ERROR, HAL_ERROR
  | HAL_BUSY, HAL_BUSY | HAL_TIMEOUT, HAL_TIMEOUT => true
  | _, _ => false
  end.

Definition HAL_SPI_StateTypeDef_eqb (a b : HAL_SPI_StateTypeDef) : bool :=
  match a, b with
  | HAL_SPI_STATE_RESET, HAL_SPI_STATE_RESET
  | HAL_SPI_STATE_READY, HAL_SPI_STATE_READY
  | HAL_SPI_STATE_BUSY, HAL_SPI_STATE_BUSY
  | HAL_SPI_STATE_BUSY_TX, HAL_SPI_STATE_BUSY_TX
  | HAL_SPI_STATE_BUSY_RX, HAL_SPI_STATE_BUSY_RX
  | HAL_SPI_STATE_BUSY_TX_RX, HAL_SPI_STATE_BUSY_TX_RX
  | HAL_SPI_STATE_ERROR, HAL_SPI_STATE_ERROR
  | HAL_SPI_STATE_ABORT, HAL_SPI_STATE_ABORT => true
  | _, _ => false
  end.

(** The registers of SSD1306_registers.h that the driver writes.  The header
    is not among the sources: a register is kept as its name, and the byte
    sent for it is the value the header gives to that name. *)
Inductive SSD1306register_e :=
| SCAN_DIRECTION_N1_0 | HARDWARE_CONFIG | SEGMENT_REMAP_127 | MEMORY_ADDR_MODE
| CONTRAST_CONTROL | CLOCK_DIVIDE_RATIO | CHG_PUMP_REGULATOR | DISPLAY_ON
| COLUMN_ADDRESS | PAGE_ADDRESS.

(** The option bytes of SSD1306_registers.h used by the initialisation
    table, taken as parameters. *)
Record SSD1306_options := {
  SSD_PIN_CONFIG_ALT : Z;
  SSD_COM_REMAP_DISABLE : Z;
  SSD_HORIZONTAL_ADDR : Z;
  SSD_CONTRAST_HIGHEST : Z;
  SSD_CLOCK_FREQ_MID : Z;
  SSD_CLOCK_DIVIDER_1 : Z;
  SSD_ENABLE_CHG_PUMP : Z
}.

Inductive _SSD1306functionCodes_e :=
| INIT | SEND_CMD | SEND_DATA | CLR_SCREEN | PRT_ANGLE | PRINTING_ANGLE
| WAITING_DMA_RDY.

Inductive errorLevel_e := ERR_WARNING | ERR_ERROR.

(** Modelled from the spec: the error-code wrapper (errorCode_u and its
    helpers) is an external facility, not among the sources.  Section 7:
    an error is tagged with the originating function code and a site
    index, carries a severity, and is returned upward with one more tag
    per layer; a transport failure keeps the status of the HAL call. *)
Inductive errorCode_u :=
| ERR_SUCCESS
| ERR_CODE (level : errorLevel_e) (layer1 : option HAL_StatusTypeDef)
           (stack : list (_SSD1306functionCodes_e * Z)).

Definition createErrorCode (f : _SSD1306functionCodes_e) (id : Z)
    (level : errorLevel_e) : errorCode_u :=
  ERR_CODE level None [(f, id)].

Definition createErrorCodeLayer1 (f : _SSD1306functionCodes_e) (id : Z)
    (status : HAL_StatusTypeDef) (level : errorLevel_e) : errorCode_u :=
  ERR_CODE level (Some status) [(f, id)].

Definition pushErrorCode (old : errorCode_u) (f : _SSD1306functionCodes_e)
    (id : Z) : errorCode_u :=
  match old with
  | ERR_SUCCESS => ERR_SUCCESS
  | ERR_CODE level layer1 stack => ERR_CODE level layer1 ((f, id) :: stack)
  end.

Definition IS_ERROR (code : errorCode_u) : bool :=
  match code with
  | ERR_SUCCESS => false
  | ERR_CODE _ _ _ => true
  end.

(** The error kinds named by the spec (section 7), as the codes the driver
    builds for them. *)
Definition AngleOutOfRange : errorCode_u := createErrorCode PRT_ANGLE 1 ERR_WARNING.
Definition TooManyParameters : errorCode_u := createErrorCode SEND_CMD 1 ERR_WARNING.
Definition SizeTooLarge : errorCode_u := createErrorCode SEND_DATA 1 ERR_WARNING.
Definition DmaTimeout : errorCode_u := createErrorCode WAITING_DMA_RDY 1 ERR_ERROR.
Definition CommandTxFailed (status : HAL_StatusTypeDef) : errorCode_u :=
  createErrorCodeLayer1 SEND_CMD 2 status ERR_ERROR.
Definition ParameterTxFailed (status : HAL_StatusTypeDef) : errorCode_u :=
  createErrorCodeLayer1 SEND_CMD 3 status ERR_ERROR.
Definition DataTxFailed (status : HAL_StatusTypeDef) : errorCode_u :=
  createErrorCodeLayer1 SEND_DATA 2 status ERR_ERROR.
Definition DmaLaunchFailed (status : HAL_StatusTypeDef) : errorCode_u :=
  createErrorCodeLayer1 PRINTING_ANGLE 3 status ERR_ERROR.

(** ** Machine state *)

(** The value of the function pointer [_state]. *)
Inductive screenState := StIdle | StPrintingAngle | StWaitingForTXdone.

(** What a call to [HAL_SPI_Transmit] or [HAL_SPI_Transmit_DMA] is given to
    send: the register byte of a command, or bytes of a buffer. *)
Inductive tx_buffer :=
| TxRegister (reg : SSD1306register_e)
| TxBytes (bytes : list Z).

(** The calls the driver makes that act on the SPI peripheral or on a GPIO
    line, with the status the HAL returned.  Two arguments are the same in
    every call and are left out: the SPI handle [_SSD_SPIhandle], stored
    once by [SSD1306initialise], and the timeout of a blocking
    transmission, always [SPI_TIMEOUT_MS]. *)
Inductive hal_call :=
| GPIO_WritePin (p : pin) (level : GPIO_PinState)
| SPI_Transmit (data : tx_buffer) (size : Z) (status : HAL_StatusTypeDef)
| SPI_Transmit_DMA (data : tx_buffer) (size : Z) (status : HAL_StatusTypeDef)
| SPI_DMAStop.

Record machine := {
  (* file-scope variables of SSD1306.c *)
  screenTimer_ms : Z;
  _state : screenState;
  _screenBuffer : list Z;
  _nextAngle : spec_float;
  _nextPage : Z;
  _nextColumn : Z;
  (* output level of the three GPIO lines *)
  CS : GPIO_PinState;
  DC : GPIO_PinState;
  RST : GPIO_PinState;
  (* calls made so far, oldest first *)
  calls : list hal_call;
  (* number of answers already taken from the environment *)
  nb_Transmit : nat;
  nb_Transmit_DMA : nat;
  nb_GetState : nat
}.

(** What the HAL answers: the status of the n-th blocking transmission, of
    the n-th DMA launch, and the peripheral state seen by the n-th query. *)
Record hal_env := {
  Transmit_status : nat -> HAL_StatusTypeDef;
  Transmit_DMA_status : nat -> HAL_StatusTypeDef;
  GetState_value : nat -> HAL_SPI_StateTypeDef
}.

Definition set_screenTimer_ms (v : Z) (m : machine) : machine :=
  {| screenTimer_ms := v; _state := _state m; _screenBuffer := _screenBuffer m;
     _nextAngle := _nextAngle m; _nextPage := _nextPage m;
     _nextColumn := _nextColumn m; CS := CS m; DC := DC m; RST := RST m;
     calls := calls m; nb_Transmit := nb_Transmit m;
     nb_Transmit_DMA := nb_Transmit_DMA m; nb_GetState := nb_GetState m |}.

Definition set_state (v : screenState) (m : machine) : machine :=
  {| screenTimer_ms := screenTimer_ms m; _state := v;
     _screenBuffer := _screenBuffer m;
     _nextAngle := _nextAngle m; _nextPage := _nextPage m;
     _nextColumn := _nextColumn m; CS := CS m; DC := DC m; RST := RST m;
     calls := calls m; nb_Transmit := nb_Transmit m;
     nb_Transmit_DMA := nb_Transmit_DMA m; nb_GetState := nb_GetState m |}.

Definition set_screenBuffer (v : list Z) (m : machine) : machine :=
  {| screenTimer_ms := screenTimer_ms m; _state := _state m;
     _screenBuffer := v;
     _nextAngle := _nextAngle m; _nextPage := _nextPage m;
     _nextColumn := _nextColumn m; CS := CS m; DC := DC m; RST := RST m;
     calls := calls m; nb_Transmit := nb_Transmit m;
     nb_Transmit_DMA := nb_Transmit_DMA m; nb_GetState := nb_GetState m |}.

Definition set_nextAngle (v : spec_float) (m : machine) : machine :=
  {| screenTimer_ms := screenTimer_ms m; _state := _state m;
     _screenBuffer := _screenBuffer m;
     _nextAngle := v; _nextPage := _nextPage m;
     _nextColumn := _nextColumn m; CS := CS m; DC := DC m; RST := RST m;
     calls := calls m; nb_Transmit := nb_Transmit m;
     nb_Transmit_DMA := nb_Transmit_DMA m; nb_GetState := nb_GetState m |}.

Definition set_nextPage (v : Z) (m : machine) : machine :=
  {| screenTimer_ms := screenTimer_ms m; _state := _state m;
     _screenBuffer := _screenBuffer m;
     _nextAngle := _nextAngle m; _nextPage := v;
     _nextColumn := _nextColumn m; CS := CS m; DC := DC m; RST := RST m;
     calls := calls m; nb_Transmit := nb_Transmit m;
     nb_Transmit_DMA := nb_Transmit_DMA m; nb_GetState := nb_GetState m |}.

Definition set_nextColumn (v : Z) (m : machine) : machine :=
  {| screenTimer_ms := screenTimer_ms m; _state := _state m;
     _screenBuffer := _screenBuffer m;
     _nextAngle := _nextAngle m; _nextPage := _nextPage m;
     _nextColumn := v; CS := CS m; DC := DC m; RST := RST m;
     calls := calls m; nb_Transmit := nb_Transmit m;
     nb_Transmit_DMA := nb_Transmit_DMA m; nb_GetState := nb_GetState m |}.

(** The machine after a call: the call is logged, the GPIO level it sets
    is recorded, and the environment counters are advanced. *)
Definition after_call (c : hal_call) (m : machine) : machine :=
  {| screenTimer_ms := screenTimer_ms m; _state := _state m;
     _screenBuffer := _screenBuffer m;
     _nextAngle := _nextAngle m; _nextPage := _nextPage m;
     _nextColumn := _nextColumn m;
     CS := match c with GPIO_WritePin SSD1306_CS_Pin l => l | _ => CS m end;
     DC := match c with GPIO_WritePin SSD1306_DC_Pin l => l | _ => DC m end;
     RST := match c with GPIO_WritePin SSD1306_RST_Pin l => l | _ => RST m end;
     calls := calls m ++ [c];
     nb_Transmit :=
       match c with SPI_Transmit _ _ _ => S (nb_Transmit m) | _ => nb_Transmit m end;
     nb_Transmit_DMA :=
       match c with
       | SPI_Transmit_DMA _ _ _ => S (nb_Transmit_DMA m)
       | _ => nb_Transmit_DMA m
       end;
     nb_GetState := nb_GetState m |}.

Definition after_GetState (m : machine) : machine :=
  {| screenTimer_ms := screenTimer_ms m; _state := _state m;
     _screenBuffer := _screenBuffer m;
     _nextAngle := _nextAngle m; _nextPage := _nextPage m;
     _nextColumn := _nextColumn m; CS := CS m; DC := DC m; RST := RST m;
     calls := calls m; nb_Transmit := nb_Transmit m;
     nb_Transmit_DMA := nb_Transmit_DMA m; nb_GetState := S (nb_GetState m) |}.

(** The state at power-on: the static initialisers of SSD1306.c (the frame
    buffer is zero-initialised), no call made yet, and the three lines at
    the level the board leaves them in. *)
Definition power_on (cs dc rst : GPIO_PinState) : machine :=
  {| screenTimer_ms := 0; _state := StIdle;
     _screenBuffer := repeat 0 (Z.to_nat MAX_DATA_SIZE);
     _nextAngle := S754_zero false; _nextPage := 0; _nextColumn := 0;
     CS := cs; DC := dc; RST := rst;
     calls := []; nb_Transmit := 0; nb_Transmit_DMA := 0; nb_GetState := 0 |}.

(** ** State monad of the driver *)

Definition M (A : Type) : Type := machine -> A * machine.

Definition ret {A : Type} (a : A) : M A := fun m => (a, m).

Definition bind {A B : Type} (c : M A) (k : A -> M B) : M B :=
  fun m => let (a, m') := c m in k a m'.

Declare Scope drv_scope.
Delimit Scope drv_scope with drv.
Notation "'let*' x ':=' c 'in' k" := (bind c (fun x => k))
  (at level 10, x name, c at level 100, k at level 200) : drv_scope.
Notation "c1 ';;;' c2" := (bind c1 (fun _ => c2))
  (at level 100, c2 at level 200, right associativity) : drv_scope.
Local Open Scope drv_scope.

Definition get {A : Type} (field : machine -> A) : M A := fun m => (field m, m).
Definition modify (f : machine -> machine) : M unit := fun m => (tt, f m).

(** [for (init; cond; step) body] with the loop variables held in a state
    of type [S].  The counters of the driver's loops are bytes compared
    with a constant, so a loop runs fewer than 256 times; [for_fuel] is
    above that, and [fill_buffer_loops] shows that each loop of the driver
    is left through its condition. *)
Fixpoint while_loop {S : Type} (fuel : nat) (cond : S -> bool) (body : S -> S)
    (s : S) : S :=
  match fuel with
  | O => s
  | Datatypes.S k => if cond s then while_loop k cond body (body s) else s
  end.

Definition for_fuel : nat := 256.

(** ** The driver (SSD1306.c) *)

Section Driver.

Variable hal : hal_env.
Variable opts : SSD1306_options.

(** *** HAL entry points used by the driver *)

Definition HAL_GPIO_WritePin (p : pin) (level : GPIO_PinState) : M unit :=
  modify (after_call (GPIO_WritePin p level)).

Definition HAL_SPI_Transmit (data : tx_buffer) (size : Z) : M HAL_StatusTypeDef :=
  fun m =>
    let status := Transmit_status hal (nb_Transmit m) in
    (status, after_call (SPI_Transmit data size status) m).

Definition HAL_SPI_Transmit_DMA (data : tx_buffer) (size : Z) : M HAL_StatusTypeDef :=
  fun m =>
    let status := Transmit_DMA_status hal (nb_Transmit_DMA m) in
    (status, after_call (SPI_Transmit_DMA data size status) m).

Definition HAL_SPI_DMAStop : M unit := modify (after_call SPI_DMAStop).

Definition HAL_SPI_GetState : M HAL_SPI_StateTypeDef :=
  fun m => (GetState_value hal (nb_GetState m), after_GetState m).

(** *** Macros *)

Definition SSD1306_ENABLE_SPI : M unit := HAL_GPIO_WritePin SSD1306_CS_Pin GPIO_PIN_RESET.
Definition SSD1306_DISABLE_SPI : M unit := HAL_GPIO_WritePin SSD1306_CS_Pin GPIO_PIN_SET.
Definition SSD1306_SET_COMMAND : M unit := HAL_GPIO_WritePin SSD1306_DC_Pin GPIO_PIN_RESET.
Definition SSD1306_SET_DATA : M unit := HAL_GPIO_WritePin SSD1306_DC_Pin GPIO_PIN_SET.

(** *** Initialisation table *)

Record SSD1306init_t := {
  reg : SSD1306register_e;
  nbParameters : Z;
  value : Z
}.

Definition initCommands : list SSD1306init_t :=
  [ {| reg := SCAN_DIRECTION_N1_0; nbParameters := 0; value := 0 |};
    {| reg := HARDWARE_CONFIG; nbParameters := 1;
       value := Z.lor (SSD_PIN_CONFIG_ALT opts) (SSD_COM_REMAP_DISABLE opts) |};
    {| reg := SEGMENT_REMAP_127; nbParameters := 0; value := 0 |};
    {| reg := MEMORY_ADDR_MODE; nbParameters := 1; value := SSD_HORIZONTAL_ADDR opts |};
    {| reg := CONTRAST_CONTROL; nbParameters := 1; value := SSD_CONTRAST_HIGHEST opts |};
    {| reg := CLOCK_DIVIDE_RATIO; nbParameters := 1;
       value := Z.lor (SSD_CLOCK_FREQ_MID opts) (SSD_CLOCK_DIVIDER_1 opts) |};
    {| reg := CHG_PUMP_REGULATOR; nbParameters := 1; value := SSD_ENABLE_CHG_PUMP opts |};
    {| reg := DISPLAY_ON; nbParameters := 0; value := 0 |} ].

(** *** Communication with the SSD1306 *)

(** [parameters] is [None] for a null pointer.  Of the array it points to,
    [nbParameters] bytes are handed to the HAL. *)
Definition SSD1306sendCommand (regNumber : SSD1306register_e)
    (parameters : option (list Z)) (nbParameters : Z) : M errorCode_u :=
  if MAX_PARAMETERS <? nbParameters then
    ret (createErrorCode SEND_CMD 1 ERR_WARNING)
  else
    SSD1306_SET_COMMAND ;;;
    SSD1306_ENABLE_SPI ;;;
    let* HALresult := HAL_SPI_Transmit (TxRegister regNumber) 1 in
    if negb (HAL_StatusTypeDef_eqb HALresult HAL_OK) then
      SSD1306_DISABLE_SPI ;;;
      ret (createErrorCodeLayer1 SEND_CMD 2 HALresult ERR_ERROR)
    else
      let* result :=
        match parameters with
        | Some params =>
            if negb (nbParameters =? 0) then
              let* HALresult :=
                HAL_SPI_Transmit (TxBytes (take (Z.to_nat nbParameters) params))
                                 nbParameters in
              if negb (HAL_StatusTypeDef_eqb HALresult HAL_OK) then
                ret (createErrorCodeLayer1 SEND_CMD 3 HALresult ERR_ERROR)
              else ret ERR_SUCCESS
            else ret ERR_SUCCESS
        | None => ret ERR_SUCCESS
        end in
      SSD1306_DISABLE_SPI ;;;
      ret result.

(** [values] is [None] for a null pointer. *)
Definition SSD1306sendData (values : option (list Z)) (size : Z) : M errorCode_u :=
  match values with
  | None => ret ERR_SUCCESS
  | Some bytes =>
      if size =? 0 then ret ERR_SUCCESS
      else if MAX_DATA_SIZE <? size then
        ret (createErrorCode SEND_DATA 1 ERR_WARNING)
      else
        SSD1306_SET_DATA ;;;
        SSD1306_ENABLE_SPI ;;;
        let* HALresult :=
          HAL_SPI_Transmit (TxBytes (take (Z.to_nat size) bytes)) size in
        let result :=
          if negb (HAL_StatusTypeDef_eqb HALresult HAL_OK)
          then createErrorCodeLayer1 SEND_DATA 2 HALresult ERR_ERROR
          else ERR_SUCCESS in
        SSD1306_DISABLE_SPI ;;;
        ret result
  end.

Definition SSD1306clearScreen : M errorCode_u :=
  let limitColumns := [0; 127] in
  let limitPages := [0; 31] in
  let* result := SSD1306sendCommand COLUMN_ADDRESS (Some limitColumns) 2 in
  if IS_ERROR result then ret (pushErrorCode result CLR_SCREEN 1)
  else
    let* result := SSD1306sendCommand PAGE_ADDRESS (Some limitPages) 2 in
    if IS_ERROR result then ret (pushErrorCode result CLR_SCREEN 2)
    else
      let* buffer := get _screenBuffer in
      let* result := SSD1306sendData (Some buffer) MAX_DATA_SIZE in
      if IS_ERROR result then ret (pushErrorCode result CLR_SCREEN 3)
      else ret ERR_SUCCESS.

(** The loop over [initCommands], from entry [i] on: the first failing
    command ends it. *)
Fixpoint init_registers (commands : list SSD1306init_t) : M errorCode_u :=
  match commands with
  | [] => ret ERR_SUCCESS
  | c :: rest =>
      let* result := SSD1306sendCommand (reg c) (Some [value c]) (nbParameters c) in
      if IS_ERROR result then ret (pushErrorCode result INIT 1)
      else init_registers rest
  end.

Definition SSD1306initialise : M errorCode_u :=
  SSD1306_DISABLE_SPI ;;;
  HAL_GPIO_WritePin SSD1306_RST_Pin GPIO_PIN_RESET ;;;
  HAL_GPIO_WritePin SSD1306_RST_Pin GPIO_PIN_SET ;;;
  let* result := init_registers initCommands in
  if IS_ERROR result then ret result
  else
    let* result := SSD1306clearScreen in
    if IS_ERROR result then ret (pushErrorCode result INIT 2)
    else ret ERR_SUCCESS.

Definition isScreenReady (m : machine) : bool :=
  match _state m with StIdle => true | _ => false end.

Definition SSD1306_printAngle (angle : spec_float) (page column : Z) : M errorCode_u :=
  if F32.ltb angle MIN_ANGLE_DEG || F32.ltb MAX_ANGLE_DEG angle then
    ret (createErrorCode PRT_ANGLE 1 ERR_WARNING)
  else
    modify (set_nextAngle angle) ;;;
    modify (set_nextPage page) ;;;
    modify (set_nextColumn column) ;;;
    modify (set_state StPrintingAngle) ;;;
    ret ERR_SUCCESS.

(** *** State machine *)

Definition stIdle : M errorCode_u := ret ERR_SUCCESS.

(** Lines 310 and 317-326 of [stPrintingAngle]: the local array
    [charIndexes], the sign test (which rewrites [_nextAngle]) and the
    three digits. *)
Definition angle_charIndexes : M (list Z) :=
  let charIndexes := [INDEX_PLUS; 0; 0; INDEX_DOT; 0; INDEX_DEG] in
  let* angle := get _nextAngle in
  let* charIndexes :=
    if F32.ltb angle NEG_THRESHOLD then
      modify (set_nextAngle (F32.opp angle)) ;;;
      ret (<[INDEX_SIGN := INDEX_MINUS]> charIndexes)
    else ret charIndexes in
  let* angle := get _nextAngle in
  let charIndexes :=
    <[INDEX_TENS := float_to_uint8 (F32.div angle FLOAT_FACTOR_10)]> charIndexes in
  let charIndexes :=
    <[INDEX_UNITS := to_uint8 (float_to_uint8 angle mod INT_FACTOR_10)]> charIndexes in
  let charIndexes :=
    <[INDEX_TENTHS :=
        to_uint8 (float_to_uint16 (F32.mul angle FLOAT_FACTOR_10) mod INT_FACTOR_10)]>
      charIndexes in
  ret charIndexes.

(** Lines 331-334: the loop on [_nextColumn].  [iterator] is the offset
    of the pointer of that name from the start of [_screenBuffer]. *)
Definition fill_columns (charIndexes : list Z) (character : Z)
    (s : machine * nat) : machine * nat :=
  let '(m, iterator) := s in
  while_loop for_fuel
    (fun '(m, _) => _nextColumn m <? VERDANA_CHAR_WIDTH)
    (fun '(m, iterator) =>
       let byte :=
         glyph_byte (nth (Z.to_nat character) charIndexes 0)
                    (VERDANA_CHAR_WIDTH * _nextPage m + _nextColumn m) in
       let m := set_screenBuffer (<[iterator := byte]> (_screenBuffer m)) m in
       (set_nextColumn (to_uint8 (_nextColumn m + 1)) m, S iterator))
    (set_nextColumn 0 m, iterator).

(** Lines 330-335: the loop on the local [character]. *)
Definition fill_characters (charIndexes : list Z) (s : machine * nat) : machine * nat :=
  let '(m, iterator) := s in
  let '(m, iterator, _) :=
    while_loop for_fuel
      (fun '(_, _, character) => character <? ANGLE_NB_CHARS)
      (fun '(m, iterator, character) =>
         (fill_columns charIndexes character (m, iterator), to_uint8 (character + 1)))
      (m, iterator, 0) in
  (m, iterator).

(** Lines 313 and 329-336: the loop on [_nextPage]. *)
Definition fill_buffer (charIndexes : list Z) : M unit :=
  fun m =>
    let '(m, _) :=
      while_loop for_fuel
        (fun '(m, _) => _nextPage m <? VERDANA_NB_PAGES)
        (fun s =>
           let '(m, iterator) := fill_characters charIndexes s in
           (set_nextPage (to_uint8 (_nextPage m + 1)) m, iterator))
        (set_nextPage 0 m, 0%nat) in
    (tt, m).

Definition stPrintingAngle : M errorCode_u :=
  let* column := get _nextColumn in
  let* page := get _nextPage in
  let limitColumns := [column; to_uint8 (column + VERDANA_CHAR_WIDTH * 6 - 1)] in
  let limitPages := [page; to_uint8 (page + 1)] in
  let* charIndexes := angle_charIndexes in
  fill_buffer charIndexes ;;;
  let* result := SSD1306sendCommand COLUMN_ADDRESS (Some limitColumns) 2 in
  if IS_ERROR result then
    modify (set_state StIdle) ;;;
    ret (pushErrorCode result PRINTING_ANGLE 1)
  else
    (* the result of this call is not stored: [result] keeps its value *)
    SSD1306sendCommand PAGE_ADDRESS (Some limitPages) 2 ;;;
    if IS_ERROR result then
      modify (set_state StIdle) ;;;
      ret (pushErrorCode result PRINTING_ANGLE 2)
    else
      SSD1306_SET_DATA ;;;
      SSD1306_ENABLE_SPI ;;;
      modify (set_screenTimer_ms SPI_TIMEOUT_MS) ;;;
      let* buffer := get _screenBuffer in
      let size := ANGLE_NB_CHARS * VERDANA_NB_BYTES_CHAR in
      let* HALresult :=
        HAL_SPI_Transmit_DMA (TxBytes (take (Z.to_nat size) buffer)) size in
      if negb (HAL_StatusTypeDef_eqb HALresult HAL_OK) then
        modify (set_state StIdle) ;;;
        ret (createErrorCodeLayer1 PRINTING_ANGLE 3 HALresult ERR_ERROR)
      else
        modify (set_state StWaitingForTXdone) ;;;
        ret ERR_SUCCESS.

Definition stWaitingForTXdone : M errorCode_u :=
  let* timer := get screenTimer_ms in
  if timer =? 0 then
    SSD1306_DISABLE_SPI ;;;
    HAL_SPI_DMAStop ;;;
    modify (set_state StIdle) ;;;
    ret (createErrorCode WAITING_DMA_RDY 1 ERR_ERROR)
  else
    let* state := HAL_SPI_GetState in
    if negb (HAL_SPI_StateTypeDef_eqb state HAL_SPI_STATE_READY) then
      ret ERR_SUCCESS
    else
      SSD1306_DISABLE_SPI ;;;
      modify (set_state StIdle) ;;;
      ret ERR_SUCCESS.

(** The call through the pointer [_state]. *)
Definition SSD1306update : M errorCode_u :=
  fun m =>
    match _state m with
    | StIdle => stIdle m
    | StPrintingAngle => stPrintingAngle m
    | StWaitingForTXdone => stWaitingForTXdone m
    end.

End Driver.

(** Modelled from the spec: the interrupt handler that counts
    [screenTimer_ms] down is not among the sources.  Sections 3 and 6: a
    1 ms tick decrements the deadline toward zero. *)
Definition tick_1ms (m : machine) : machine :=
  if 0 <? screenTimer_ms m then set_screenTimer_ms (screenTimer_ms m - 1) m else m.

(** The application super-loop (section 5) polls the driver between the
    ticks of the 1 ms timer.  [updates hal n] is [n] calls to
    [SSD1306update] in a row, with the codes returned, oldest first. *)
Fixpoint updates (hal : hal_env) (n : nat) : M (list errorCode_u) :=
  match n with
  | O => ret []
  | S k =>
      let* code := SSD1306update hal in
      let* codes := updates hal k in
      ret (code :: codes)
  end.

(** One round: the 1 ms tick, then the call to [SSD1306update] for that
    tick and [extra] more calls before the next tick. *)
Definition round (hal : hal_env) (extra : nat) : M (list errorCode_u) :=
  fun m => updates hal (S extra) (tick_1ms m).

(** The rounds of a schedule, one entry of [extras] per round; the codes
    returned, round by round. *)
Fixpoint rounds (hal : hal_env) (extras : list nat) : M (list (list errorCode_u)) :=
  match extras with
  | [] => ret []
  | extra :: rest =>
      let* codes := round hal extra in
      let* others := rounds hal rest in
      ret (codes :: others)
  end.

(** The codes of a quiet round. *)
Definition quiet (extra : nat) : list errorCode_u := repeat ERR_SUCCESS (S extra).

(** ** Environments and requests used in examples *)

(** Every transmission succeeds and the peripheral is always ready. *)
Definition hal_all_ok : hal_env :=
  {| Transmit_status := fun _ => HAL_OK;
     Transmit_DMA_status := fun _ => HAL_OK;
     GetState_value := fun _ => HAL_SPI_STATE_READY |}.

(** The third blocking transmission (the register byte of PAGE_ADDRESS in
    [stPrintingAngle]) fails, everything else succeeds. *)
Definition hal_page_address_fails : hal_env :=
  {| Transmit_status := fun n => if Nat.eqb n 2 then HAL_ERROR else HAL_OK;
     Transmit_DMA_status := fun _ => HAL_OK;
     GetState_value := fun _ => HAL_SPI_STATE_READY |}.

(** The DMA launch is refused, the blocking transmissions succeed. *)
Definition hal_dma_refused : hal_env :=
  {| Transmit_status := fun _ => HAL_OK;
     Transmit_DMA_status := fun _ => HAL_ERROR;
     GetState_value := fun _ => HAL_SPI_STATE_READY |}.

(** The DMA is launched and the peripheral stays busy for ever. *)
Definition hal_dma_stalled : hal_env :=
  {| Transmit_status := fun _ => HAL_OK;
     Transmit_DMA_status := fun _ => HAL_OK;
     GetState_value := fun _ => HAL_SPI_STATE_BUSY_TX |}.

(** The driver after a successful initialisation: idle, lines released. *)
Definition idle_machine : machine :=
  power_on GPIO_PIN_SET GPIO_PIN_SET GPIO_PIN_SET.

(** ** Requests *)

(** The closed interval of accepted angles, and the machine once a request
    is latched. *)
Definition angle_in_range (a : spec_float) : bool :=
  F32.leb MIN_ANGLE_DEG a && F32.leb a MAX_ANGLE_DEG.

Definition latch (a : spec_float) (page column : Z) (m : machine) : machine :=
  set_state StPrintingAngle (set_nextColumn column (set_nextPage page (set_nextAngle a m))).

(** A null pointer argument. *)
Definition is_null {A : Type} (p : option A) : bool :=
  match p with None => true | Some _ => false end.

(** ** What the rasterization loops write *)

(** The bytes written by the first [n] rounds of the loop on
    [_nextColumn], for one glyph and one page. *)
Definition page_columns (glyph page n : Z) : list Z :=
  map (fun column => glyph_byte glyph (VERDANA_CHAR_WIDTH * page + column)) (seqZ 0 n).

(** The bytes written by the first [n] rounds of the loop on [character]. *)
Definition page_characters (charIndexes : list Z) (page n : Z) : list Z :=
  flat_map
    (fun character =>
       page_columns (nth (Z.to_nat character) charIndexes 0) page VERDANA_CHAR_WIDTH)
    (seqZ 0 n).

(** The bytes written by the first [n] rounds of the loop on [_nextPage]. *)
Definition buffer_pages (charIndexes : list Z) (n : Z) : list Z :=
  flat_map (fun page => page_characters charIndexes page ANGLE_NB_CHARS) (seqZ 0 n).

Arguments page_columns : simpl never.
Arguments page_characters : simpl never.
Arguments buffer_pages : simpl never.

(** The machine when [fill_buffer] returns: the two loop counters are left
    at their bounds and the payload is at the start of the buffer. *)
Definition filled (charIndexes : list Z) (m : machine) : machine :=
  set_nextPage VERDANA_NB_PAGES
    (set_nextColumn VERDANA_CHAR_WIDTH
       (set_screenBuffer
          (list_inserts 0 (buffer_pages charIndexes VERDANA_NB_PAGES) (_screenBuffer m)) m)).

(** ** Summaries of the transport functions *)

(** The machine after a sequence of calls. *)
Definition after_calls (cs : list hal_call) (m : machine) : machine :=
  fold_left (fun m c => after_call c m) cs m.

Definition is_HAL_OK (status : HAL_StatusTypeDef) : bool :=
  HAL_StatusTypeDef_eqb status HAL_OK.

(** The calls made by [SSD1306sendCommand] for a non-null parameter array,
    when the HAL answers [s1] to the transmission of the register byte and
    [s2] to the transmission of the parameters, and the code it returns. *)
Definition command_calls (regNumber : SSD1306register_e) (params : list Z)
    (nbParameters : Z) (s1 s2 : HAL_StatusTypeDef) : list hal_call :=
  [ GPIO_WritePin SSD1306_DC_Pin GPIO_PIN_RESET;
    GPIO_WritePin SSD1306_CS_Pin GPIO_PIN_RESET;
    SPI_Transmit (TxRegister regNumber) 1 s1 ]
  ++ (if is_HAL_OK s1 && negb (nbParameters =? 0)
      then [ SPI_Transmit (TxBytes (take (Z.to_nat nbParameters) params)) nbParameters s2 ]
      else [])
  ++ [ GPIO_WritePin SSD1306_CS_Pin GPIO_PIN_SET ].

Definition command_code (nbParameters : Z) (s1 s2 : HAL_StatusTypeDef) : errorCode_u :=
  if negb (is_HAL_OK s1) then CommandTxFailed s1
  else if negb (nbParameters =? 0) && negb (is_HAL_OK s2) then ParameterTxFailed s2
  else ERR_SUCCESS.

(** ** Summary of the digit extraction *)

(** The angle the digits are taken from: the latched angle, negated when it
    is below the threshold. *)
Definition sign_normalized (a : spec_float) : spec_float :=
  if F32.ltb a NEG_THRESHOLD then F32.opp a else a.

(** The array [charIndexes] that [stPrintingAngle] builds for the latched
    angle [a]. *)
Definition charIndexes_of (a : spec_float) : list Z :=
  [ if F32.ltb a NEG_THRESHOLD then INDEX_MINUS else INDEX_PLUS;
    float_to_uint8 (F32.div (sign_normalized a) FLOAT_FACTOR_10);
    to_uint8 (float_to_uint8 (sign_normalized a) mod INT_FACTOR_10);
    INDEX_DOT;
    to_uint8 (float_to_uint16 (F32.mul (sign_normalized a) FLOAT_FACTOR_10)
              mod INT_FACTOR_10);
    INDEX_DEG ].

(** The machine of [stPrintingAngle] when the buffer is filled, before the
    first command is sent. *)
Definition rasterized (m : machine) : machine :=
  filled (charIndexes_of (_nextAngle m))
         (set_nextAngle (sign_normalized (_nextAngle m)) m).

(** The number of payload bytes handed to the DMA. *)
Definition payload_size : Z := ANGLE_NB_CHARS * VERDANA_NB_BYTES_CHAR.

(** ** Request sequences *)

(** What the application does to the driver: a request, a call to
    [SSD1306update], or the passing of one millisecond. *)
Inductive request :=
| PrintAngle (angle : spec_float) (page column : Z)
| Update
| Tick.

Definition serve (hal : hal_env) (r : request) (m : machine) : machine :=
  match r with
  | PrintAngle angle page column => snd (SSD1306_printAngle angle page column m)
  | Update => snd (SSD1306update hal m)
  | Tick => tick_1ms m
  end.

Definition serve_all (hal : hal_env) (rs : list request) (m : machine) : machine :=
  fold_left (fun m r => serve hal r m) rs m.

(** The chip-select line is released whenever the driver is idle. *)
Definition idle_released (m : machine) : Prop :=
  _state m = StIdle -> CS m = GPIO_PIN_SET.

(** ** Transactions on the bus *)

(** A command transaction that goes through: D/C low, chip selected, the
    register byte, the parameter bytes if there are any, chip released. *)
Definition command_transaction (regNumber : SSD1306register_e) (params : list Z)
    : list hal_call :=
  [ GPIO_WritePin SSD1306_DC_Pin GPIO_PIN_RESET;
    GPIO_WritePin SSD1306_CS_Pin GPIO_PIN_RESET;
    SPI_Transmit (TxRegister regNumber) 1 HAL_OK ]
  ++ match params with
     | [] => []
     | _ => [ SPI_Transmit (TxBytes params) (Z.of_nat (length params)) HAL_OK ]
     end
  ++ [ GPIO_WritePin SSD1306_CS_Pin GPIO_PIN_SET ].

(** A blocking data transaction that goes through: D/C high, chip selected,
    the bytes in one transmission, chip released. *)
Definition data_transaction (bytes : list Z) : list hal_call :=
  [ GPIO_WritePin SSD1306_DC_Pin GPIO_PIN_SET;
    GPIO_WritePin SSD1306_CS_Pin GPIO_PIN_RESET;
    SPI_Transmit (TxBytes bytes) (Z.of_nat (length bytes)) HAL_OK;
    GPIO_WritePin SSD1306_CS_Pin GPIO_PIN_SET ].

(** Option bytes used in examples (the values of the SSD1306 datasheet). *)
Definition example_options : SSD1306_options :=
  {| SSD_PIN_CONFIG_ALT := 18; SSD_COM_REMAP_DISABLE := 2;
     SSD_HORIZONTAL_ADDR := 0; SSD_CONTRAST_HIGHEST := 255;
     SSD_CLOCK_FREQ_MID := 128; SSD_CLOCK_DIVIDER_1 := 0;
     SSD_ENABLE_CHG_PUMP := 20 |}.

(** ** The six glyph slots, in the words of the specification *)

(** Section 4.3: the sign slot is '+' if the angle is at least -0.05 (the
    constant [NEG_THRESHOLD]), else '-'; if '-' the angle is negated. *)
Definition sign_slot (a : spec_float) : Z :=
  if F32.leb NEG_THRESHOLD a then INDEX_PLUS else INDEX_MINUS.

Definition normalized (a : spec_float) : spec_float :=
  if F32.leb NEG_THRESHOLD a then a else F32.opp a.

(** The slots [sign, tens, units, '.', tenths, degree], the integer part
    of a binary32 being taken by [to_int]. *)
Definition slots_with (to_int : spec_float -> Z) (a : spec_float) : list Z :=
  [ sign_slot a;
    to_int (F32.div (normalized a) FLOAT_FACTOR_10);
    to_int (normalized a) mod 10;
    INDEX_DOT;
    to_int (F32.mul (normalized a) FLOAT_FACTOR_10) mod 10;
    INDEX_DEG ].

(** The slots as the claim words them, with the mathematical floor. *)
Definition slots_floor : spec_float -> list Z := slots_with F32.floor.

(** The slots with the integer part taken by truncation toward zero. *)
Definition slots_trunc : spec_float -> list Z := slots_with F32.trunc.

(** The payload of section 4.3:
    [for page in 0..2: for char_idx in 0..6: for col in 0..11:
       out[i++] = glyph_table[slot[char_idx]][page*11 + col]]. *)
Definition glyph_table_payload (slot : list Z) : list Z :=
  flat_map
    (fun page =>
       flat_map
         (fun char_idx =>
            map (fun col => glyph_byte (nth (Z.to_nat char_idx) slot 0) (page * 11 + col))
                (seqZ 0 11))
         (seqZ 0 6))
    (seqZ 0 2).

(** ** Sequences of blocking transmissions *)

(** [c1], and [c2] after it unless [c1] failed; a failure of [c1] is
    returned through [wrap].  This is the shape of every step of
    [SSD1306clearScreen] and [SSD1306initialise]:
    [result = c1; if(IS_ERROR(result)) return wrap(result); c2]. *)
Definition and_then (c1 : M errorCode_u) (wrap : errorCode_u -> errorCode_u)
    (c2 : M errorCode_u) : M errorCode_u :=
  let* result := c1 in
  if IS_ERROR result then ret (wrap result) else c2.

(** The HAL answers [HAL_OK] to the [n] blocking transmissions that follow
    the first [from] ones. *)
Definition transmissions_ok (hal : hal_env) (from n : nat) : bool :=
  forallb (fun k => is_HAL_OK (Transmit_status hal k)) (seq from n).

(** The number of blocking transmissions that a command asks for: the
    register byte, and the parameter bytes when there are any. *)
Definition command_transmissions (nbParameters : Z) : nat :=
  if nbParameters =? 0 then 1%nat else 2%nat.

Definition table_transmissions (commands : list SSD1306init_t) : nat :=
  fold_right (fun c n => (command_transmissions (nbParameters c) + n)%nat) 0%nat commands.

(** [c] makes [t] blocking transmissions when all of them go through and
    then returns success; it stops at the first one that fails and returns
    an error. *)
Definition blocking (hal : hal_env) (c : M errorCode_u) (t : nat) : Prop :=
  forall m : machine,
    (transmissions_ok hal (nb_Transmit m) t = true ->
       fst (c m) = ERR_SUCCESS /\ nb_Transmit (snd (c m)) = (nb_Transmit m + t)%nat)
    /\ (forall j : nat,
          (j < t)%nat ->
          transmissions_ok hal (nb_Transmit m) j = true ->
          Transmit_status hal (nb_Transmit m + j) <> HAL_OK ->
          IS_ERROR (fst (c m)) = true
          /\ nb_Transmit (snd (c m)) = S (nb_Transmit m + j)).

(** The variables of the driver, without the lines and the call log. *)
Definition driver_variables (m : machine)
    : Z * screenState * list Z * spec_float * Z * Z :=
  (screenTimer_ms m, _state m, _screenBuffer m, _nextAngle m, _nextPage m, _nextColumn m).

(** The calls of a blocking transaction: a write to the D/C or to the
    chip-select line, or a blocking transmission. *)
Definition blocking_call (c : hal_call) : bool :=
  match c with
  | GPIO_WritePin SSD1306_CS_Pin _ | GPIO_WritePin SSD1306_DC_Pin _
  | SPI_Transmit _ _ _ => true
  | _ => false
  end.

(** All that [c] does to the machine is a sequence of such calls, which
    leaves the chip released if it was. *)
Definition keeps_released (c : M errorCode_u) : Prop :=
  forall m : machine,
    exists cs : list hal_call,
      snd (c m) = after_calls cs m
      /\ forallb blocking_call cs = true
      /\ (CS m = GPIO_PIN_SET -> CS (after_calls cs m) = GPIO_PIN_SET).

(** The DMA is launched; the peripheral is busy at the first [k] queries
    of its state and ready from then on. *)
Definition hal_dma_ready_from (k : nat) : hal_env :=
  {| Transmit_status := fun _ => HAL_OK;
     Transmit_DMA_status := fun _ => HAL_OK;
     GetState_value := fun n => if (n <? k)%nat then HAL_SPI_STATE_BUSY_TX
                                else HAL_SPI_STATE_READY |}.

(** A polling schedule of [n] rounds with one call to [SSD1306update] after
    each tick. *)
Definition every_tick (n : nat) : list nat := repeat 0%nat n.

(** * Properties *)

(** ** Comparison of binary32 values *)

Lemma SFcompare_antisym (x y : spec_float) :
  SFcompare y x = option_map CompOpp (SFcompare x y).
Proof.
  destruct x as [sx|sx| |sx mx ex], y as [sy|sy| |sy my ey]; simpl;
    try reflexivity; try (destruct sx; reflexivity); try (destruct sy; reflexivity);
    try (destruct sx, sy; reflexivity).
  destruct sx, sy; try reflexivity; f_equal;
    rewrite (Z.compare_antisym ex ey); destruct (ex ?= ey) eqn:E; simpl;
    try reflexivity.
  all: rewrite Pos.compare_cont_antisym; simpl.
  - now rewrite CompOpp_involutive.
  - reflexivity.
Qed.

Lemma SFltb_negb_SFleb (x y : spec_float) :
  x <> S754_nan -> y <> S754_nan -> SFltb y x = negb (SFleb x y).
Proof.
  intros Hx Hy. unfold SFltb, SFleb. rewrite (SFcompare_antisym x y).
  destruct (SFcompare x y) as [[]|] eqn:E; simpl; try reflexivity.
  exfalso. destruct x, y; simpl in E; try discriminate; congruence.
Qed.

Lemma SFleb_not_SFltb (x y : spec_float) : SFleb x y = true -> SFltb y x = false.
Proof.
  unfold SFltb, SFleb. rewrite (SFcompare_antisym x y).
  destruct (SFcompare x y) as [[]|]; simpl; congruence.
Qed.

Lemma SFleb_not_nan_r (x y : spec_float) : SFleb x y = true -> y <> S754_nan.
Proof. intros H ->. destruct x; discriminate. Qed.

Lemma angle_in_range_test (a : spec_float) :
  a <> S754_nan ->
  F32.ltb a MIN_ANGLE_DEG || F32.ltb MAX_ANGLE_DEG a = negb (angle_in_range a).
Proof.
  intros Ha. unfold angle_in_range, F32.ltb, F32.leb.
  rewrite (SFltb_negb_SFleb MIN_ANGLE_DEG a), (SFltb_negb_SFleb a MAX_ANGLE_DEG);
    try assumption; try discriminate.
  now rewrite negb_andb.
Qed.

(** ** Requests: [SSD1306_printAngle] *)

(** The two outcomes of a request. *)
Lemma printAngle_cases (a : spec_float) (page column : Z) (m : machine) :
  a <> S754_nan ->
  SSD1306_printAngle a page column m =
    if angle_in_range a then (ERR_SUCCESS, latch a page column m)
    else (AngleOutOfRange, m).
Proof.
  intros Ha. unfold SSD1306_printAngle. rewrite (angle_in_range_test a Ha).
  destruct (angle_in_range a); reflexivity.
Qed.

(** What holds of the range test for every angle that is a number, the
    infinities included: [SSD1306_printAngle] succeeds when the angle lies
    in the closed interval [-90.0, +90.0] and latches the request; for
    every number outside the interval it returns the AngleOutOfRange
    warning and leaves the whole machine as it was: same driver state,
    same latched request, no call to the SPI or GPIO layer. *)
Theorem printAngle_range (a : spec_float) (page column : Z) (m : machine) :
  a <> S754_nan ->
  (angle_in_range a = true ->
     SSD1306_printAngle a page column m = (ERR_SUCCESS, latch a page column m))
  /\ (angle_in_range a = false ->
        SSD1306_printAngle a page column m = (AngleOutOfRange, m)).
Proof.
  intros Ha. rewrite (printAngle_cases a page column m Ha).
  split; intros ->; reflexivity.
Qed.

(** The boundary cases of section 8: +90.0 and -90.0 are accepted, +90.01
    and -90.01 are rejected. *)
Lemma printAngle_range_witness :
  SSD1306_printAngle (F32.of_Z 90) 0 0 idle_machine
    = (ERR_SUCCESS, latch (F32.of_Z 90) 0 0 idle_machine)
  /\ SSD1306_printAngle (F32.opp (F32.of_Z 90)) 0 0 idle_machine
    = (ERR_SUCCESS, latch (F32.opp (F32.of_Z 90)) 0 0 idle_machine)
  /\ SSD1306_printAngle (F32.literal 9001 100) 0 0 idle_machine
    = (AngleOutOfRange, idle_machine)
  /\ SSD1306_printAngle (F32.opp (F32.literal 9001 100)) 0 0 idle_machine
    = (AngleOutOfRange, idle_machine).
Proof.
  split; [|split; [|split]].
  - exact (proj1 (printAngle_range (F32.of_Z 90) 0 0 idle_machine ltac:(discriminate))
             eq_refl).
  - exact (proj1 (printAngle_range (F32.opp (F32.of_Z 90)) 0 0 idle_machine
                    ltac:(discriminate)) eq_refl).
  - exact (proj2 (printAngle_range (F32.literal 9001 100) 0 0 idle_machine
                    ltac:(discriminate)) eq_refl).
  - exact (proj2 (printAngle_range (F32.opp (F32.literal 9001 100)) 0 0 idle_machine
                    ltac:(discriminate)) eq_refl).
Defined.

(** C6. Every angle that is not in [-90.0, +90.0] is to be refused with
    the AngleOutOfRange warning, the driver left as it was.  A NaN is a
    value of the parameter's type [float] and it is not in the interval;
    but the range test is written as two comparisons, [angle < MIN_ANGLE_DEG]
    and [angle > MAX_ANGLE_DEG], and both are false for a NaN.  The call
    returns success, not the warning; it latches the NaN and puts the
    driver in the rasterizing state, where the conversions of
    [stPrintingAngle] to [uint8_t] and [uint16_t] (which the range test is
    there to keep in range) have no defined result. *)
Theorem printAngle_accepts_nan :
  let r := SSD1306_printAngle S754_nan 2 10 idle_machine in
  angle_in_range S754_nan = false
  /\ F32.ltb S754_nan MIN_ANGLE_DEG = false
  /\ F32.ltb MAX_ANGLE_DEG S754_nan = false
  /\ fst r = ERR_SUCCESS
  /\ fst r <> AngleOutOfRange
  /\ _state idle_machine = StIdle
  /\ _state (snd r) = StPrintingAngle
  /\ _nextAngle (snd r) = S754_nan
  /\ snd r <> idle_machine.
Proof.
  cbv zeta. change (SSD1306_printAngle S754_nan 2 10 idle_machine)
    with (ERR_SUCCESS, latch S754_nan 2 10 idle_machine).
  repeat split; discriminate.
Qed.

(** C10. Whatever the state of the driver (idle, rasterizing or waiting for
    the DMA) and whatever the page and the column, a request whose angle
    lies in [-90.0, +90.0] is accepted: the call returns success, the
    latched request becomes (angle, page, column) and the state becomes
    the rasterizing one.  Nothing else of the machine changes. *)
Theorem printAngle_any_state (st : screenState) (a : spec_float)
    (page column : Z) (m : machine) :
  angle_in_range a = true ->
  SSD1306_printAngle a page column (set_state st m) = (ERR_SUCCESS, latch a page column m)
  /\ _state (latch a page column m) = StPrintingAngle
  /\ _nextAngle (latch a page column m) = a
  /\ _nextPage (latch a page column m) = page
  /\ _nextColumn (latch a page column m) = column.
Proof.
  intros Hin. split; [|repeat split].
  assert (Ha : a <> S754_nan).
  { apply andb_true_iff in Hin. destruct Hin as [H _].
    exact (SFleb_not_nan_r _ _ H). }
  rewrite (printAngle_cases a page column (set_state st m) Ha), Hin.
  reflexivity.
Qed.

(** A request issued while the DMA is in flight, with a page and a column
    outside the display. *)
Lemma printAngle_any_state_witness :
  SSD1306_printAngle (F32.literal 123 10) 200 255 (set_state StWaitingForTXdone idle_machine)
    = (ERR_SUCCESS, latch (F32.literal 123 10) 200 255 idle_machine)
  /\ _state (latch (F32.literal 123 10) 200 255 idle_machine) = StPrintingAngle
  /\ _nextAngle (latch (F32.literal 123 10) 200 255 idle_machine) = F32.literal 123 10
  /\ _nextPage (latch (F32.literal 123 10) 200 255 idle_machine) = 200
  /\ _nextColumn (latch (F32.literal 123 10) 200 255 idle_machine) = 255.
Proof.
  exact (printAngle_any_state StWaitingForTXdone (F32.literal 123 10) 200 255
           idle_machine eq_refl).
Defined.

(** ** Transport: [SSD1306sendData] *)

(** C9. [SSD1306sendData] returns success and does nothing (no GPIO
    write, no transmission: the machine is the same) when the buffer
    pointer is null or the size is 0; otherwise, for every size above 1024
    (1025 is the first), it returns the SizeTooLarge warning, again with
    the machine untouched. *)
Theorem sendData_guards (hal : hal_env) (values : option (list Z)) (size : Z)
    (m : machine) :
  is_null values = true \/ size = 0 \/ MAX_DATA_SIZE < size ->
  SSD1306sendData hal values size m =
    (if is_null values || (size =? 0) then ERR_SUCCESS else SizeTooLarge, m).
Proof.
  intros H. unfold SSD1306sendData.
  destruct values as [bytes|]; simpl; [|reflexivity].
  destruct (size =? 0) eqn:E0; [reflexivity|].
  destruct H as [H|[H|H]]; [discriminate|lia|].
  apply Z.ltb_lt in H. rewrite H. reflexivity.
Qed.

Lemma sendData_guards_witness :
  SSD1306sendData hal_all_ok (Some [1; 2; 3]) 1025 idle_machine = (SizeTooLarge, idle_machine)
  /\ SSD1306sendData hal_all_ok (Some [1; 2; 3]) 0 idle_machine = (ERR_SUCCESS, idle_machine)
  /\ SSD1306sendData hal_all_ok None 3 idle_machine = (ERR_SUCCESS, idle_machine).
Proof.
  split; [|split].
  - exact (sendData_guards hal_all_ok (Some [1; 2; 3]) 1025 idle_machine
             (or_intror (or_intror eq_refl))).
  - exact (sendData_guards hal_all_ok (Some [1; 2; 3]) 0 idle_machine
             (or_intror (or_introl eq_refl))).
  - exact (sendData_guards hal_all_ok None 3 idle_machine (or_introl eq_refl)).
Defined.

(** ** Loops *)

(** A counting loop: when the condition compares a counter with a bound
    and each round adds one to the counter, an invariant indexed by the
    counter holds at the bound when the loop is left, provided the fuel
    covers the remaining rounds. *)
Lemma while_loop_counter {S : Type} (count : S -> Z) (bound : Z)
    (cond : S -> bool) (body : S -> S) (Inv : Z -> S -> Prop) :
  (forall s, cond s = (count s <? bound)) ->
  (forall i s, Inv i s -> count s = i -> 0 <= i < bound ->
               Inv (i + 1) (body s) /\ count (body s) = i + 1) ->
  forall (fuel : nat) (s : S),
    0 <= count s <= bound -> bound - count s <= Z.of_nat fuel ->
    Inv (count s) s ->
    Inv bound (while_loop fuel cond body s).
Proof.
  intros Hcond Hbody. induction fuel as [|fuel IH]; intros s Hrange Hfuel Hinv.
  - simpl. replace bound with (count s) by lia. exact Hinv.
  - simpl. rewrite Hcond. destruct (count s <? bound) eqn:E.
    + apply Z.ltb_lt in E.
      destruct (Hbody (count s) s Hinv eq_refl ltac:(lia)) as [Hinv' Hcount'].
      apply IH; rewrite ?Hcount'; try lia. exact Hinv'.
    + apply Z.ltb_ge in E. replace bound with (count s) by lia. exact Hinv.
Qed.

Lemma page_columns_succ (glyph page n : Z) :
  0 <= n ->
  page_columns glyph page (n + 1) =
    page_columns glyph page n ++ [glyph_byte glyph (VERDANA_CHAR_WIDTH * page + n)].
Proof.
  intros Hn. unfold page_columns.
  rewrite seqZ_app by lia. rewrite map_app. f_equal.
Qed.

Lemma length_page_columns (glyph page n : Z) :
  length (page_columns glyph page n) = Z.to_nat n.
Proof. unfold page_columns. now rewrite length_map, length_seqZ. Qed.

Lemma set_fields_id (m : machine) :
  set_nextColumn (_nextColumn m) (set_screenBuffer (_screenBuffer m) m) = m.
Proof. now destruct m. Qed.

Lemma fill_columns_eq (charIndexes : list Z) (character : Z) (m : machine) (it : nat) :
  fill_columns charIndexes character (m, it) =
    (set_nextColumn VERDANA_CHAR_WIDTH
       (set_screenBuffer
          (list_inserts it
             (page_columns (nth (Z.to_nat character) charIndexes 0) (_nextPage m)
                           VERDANA_CHAR_WIDTH)
             (_screenBuffer m)) m),
     (it + Z.to_nat VERDANA_CHAR_WIDTH)%nat).
Proof.
  unfold fill_columns.
  set (glyph := nth (Z.to_nat character) charIndexes 0).
  pose (Inv := fun (i : Z) (s : machine * nat) =>
    s = (set_nextColumn i
           (set_screenBuffer
              (list_inserts it (page_columns glyph (_nextPage m) i) (_screenBuffer m)) m),
         (it + Z.to_nat i)%nat)).
  apply (while_loop_counter (fun s => _nextColumn (fst s)) VERDANA_CHAR_WIDTH _ _ Inv).
  - now intros [m' it'].
  - intros i [m' it'] Hinv Hcount Hi. unfold Inv in Hinv. inversion Hinv; subst m' it'.
    clear Hinv. unfold VERDANA_CHAR_WIDTH in Hi. simpl fst in *. split.
    + unfold Inv. simpl. f_equal; [|lia].
      rewrite page_columns_succ by lia. rewrite list_inserts_app_l. simpl.
      rewrite length_page_columns, (Nat.add_comm (Z.to_nat i) it).
      unfold to_uint8. rewrite Z.mod_small by lia. reflexivity.
    + simpl. unfold to_uint8. rewrite Z.mod_small by lia. reflexivity.
  - simpl. unfold VERDANA_CHAR_WIDTH. lia.
  - simpl. unfold VERDANA_CHAR_WIDTH, for_fuel. lia.
  - unfold Inv. simpl. f_equal. lia.
Qed.

Lemma page_characters_succ (charIndexes : list Z) (page n : Z) :
  0 <= n ->
  page_characters charIndexes page (n + 1) =
    page_characters charIndexes page n
    ++ page_columns (nth (Z.to_nat n) charIndexes 0) page VERDANA_CHAR_WIDTH.
Proof.
  intros Hn. unfold page_characters.
  rewrite seqZ_app by lia. rewrite flat_map_app. f_equal.
Qed.

Lemma length_page_characters (charIndexes : list Z) (page n : Z) :
  0 <= n ->
  length (page_characters charIndexes page n) = Z.to_nat (VERDANA_CHAR_WIDTH * n).
Proof.
  intros Hn. rewrite <- (Z2Nat.id n Hn). induction (Z.to_nat n) as [|k IH].
  - reflexivity.
  - rewrite Nat2Z.inj_succ, <- Z.add_1_r, page_characters_succ by lia.
    rewrite length_app, IH, length_page_columns. unfold VERDANA_CHAR_WIDTH. lia.
Qed.

Lemma fill_characters_eq (charIndexes : list Z) (m : machine) (it : nat) :
  fill_characters charIndexes (m, it) =
    (set_nextColumn VERDANA_CHAR_WIDTH
       (set_screenBuffer
          (list_inserts it (page_characters charIndexes (_nextPage m) ANGLE_NB_CHARS)
             (_screenBuffer m)) m),
     (it + Z.to_nat (VERDANA_CHAR_WIDTH * ANGLE_NB_CHARS))%nat).
Proof.
  unfold fill_characters.
  pose (Inv := fun (i : Z) (s : machine * nat * Z) =>
    s = (set_nextColumn (if i =? 0 then _nextColumn m else VERDANA_CHAR_WIDTH)
           (set_screenBuffer
              (list_inserts it (page_characters charIndexes (_nextPage m) i)
                 (_screenBuffer m)) m),
         (it + Z.to_nat (VERDANA_CHAR_WIDTH * i))%nat, i)).
  match goal with
  | |- context [while_loop ?f ?c ?b ?s] =>
      assert (H : Inv ANGLE_NB_CHARS (while_loop f c b s))
  end.
  { apply (while_loop_counter (fun s => snd s) ANGLE_NB_CHARS _ _ Inv).
    - now intros [[m' it'] c].
    - intros i [[m' it'] c] Hinv Hcount Hi. unfold Inv in Hinv.
      inversion Hinv; subst m' it' c. clear Hinv Hcount.
      unfold ANGLE_NB_CHARS in Hi. split.
      + unfold Inv. rewrite fill_columns_eq. cbn.
        unfold to_uint8. rewrite (Z.mod_small (i + 1)) by lia.
        replace (i + 1 =? 0) with false by (symmetry; apply Z.eqb_neq; lia).
        rewrite page_characters_succ by lia. rewrite list_inserts_app_l.
        rewrite length_page_characters by lia.
        rewrite (Nat.add_comm _ it).
        f_equal. apply pair_equal_spec.
        split; [reflexivity | unfold VERDANA_CHAR_WIDTH; lia].
      + cbn. unfold to_uint8. rewrite Z.mod_small by lia. reflexivity.
    - cbn. unfold ANGLE_NB_CHARS. lia.
    - cbn. unfold ANGLE_NB_CHARS, for_fuel. lia.
    - unfold Inv. cbn. rewrite set_fields_id. f_equal. f_equal. lia. }
  unfold Inv in H. rewrite H. reflexivity.
Qed.

Lemma buffer_pages_succ (charIndexes : list Z) (n : Z) :
  0 <= n ->
  buffer_pages charIndexes (n + 1) =
    buffer_pages charIndexes n ++ page_characters charIndexes n ANGLE_NB_CHARS.
Proof.
  intros Hn. unfold buffer_pages.
  rewrite seqZ_app by lia. rewrite flat_map_app. f_equal.
Qed.

Lemma length_buffer_pages (charIndexes : list Z) (n : Z) :
  0 <= n ->
  length (buffer_pages charIndexes n)
    = Z.to_nat (VERDANA_CHAR_WIDTH * ANGLE_NB_CHARS * n).
Proof.
  intros Hn. rewrite <- (Z2Nat.id n Hn). induction (Z.to_nat n) as [|k IH].
  - reflexivity.
  - rewrite Nat2Z.inj_succ, <- Z.add_1_r, buffer_pages_succ by lia.
    rewrite length_app, IH, length_page_characters by (unfold ANGLE_NB_CHARS; lia).
    unfold VERDANA_CHAR_WIDTH, ANGLE_NB_CHARS. lia.
Qed.

(** The three nested loops of [stPrintingAngle] are each left through their
    condition, and what they leave behind is [filled]. *)
Lemma fill_buffer_loops (charIndexes : list Z) (m : machine) :
  fill_buffer charIndexes m = (tt, filled charIndexes m).
Proof.
  unfold fill_buffer.
  pose (Inv := fun (i : Z) (s : machine * nat) =>
    s = (set_nextPage i
           (set_nextColumn (if i =? 0 then _nextColumn m else VERDANA_CHAR_WIDTH)
              (set_screenBuffer
                 (list_inserts 0 (buffer_pages charIndexes i) (_screenBuffer m)) m)),
         Z.to_nat (VERDANA_CHAR_WIDTH * ANGLE_NB_CHARS * i))).
  match goal with
  | |- context [while_loop ?f ?c ?b ?s] =>
      assert (H : Inv VERDANA_NB_PAGES (while_loop f c b s))
  end.
  { apply (while_loop_counter (fun s => _nextPage (fst s)) VERDANA_NB_PAGES _ _ Inv).
    - now intros [m' it'].
    - intros i [m' it'] Hinv Hcount Hi. unfold Inv in Hinv.
      inversion Hinv; subst m' it'. clear Hinv Hcount.
      unfold VERDANA_NB_PAGES in Hi. split.
      + unfold Inv. rewrite fill_characters_eq. cbn.
        unfold to_uint8. rewrite (Z.mod_small (i + 1)) by lia.
        replace (i + 1 =? 0) with false by (symmetry; apply Z.eqb_neq; lia).
        rewrite buffer_pages_succ by lia. rewrite list_inserts_app_l.
        rewrite length_buffer_pages by lia.
        rewrite Nat.add_0_r.
        f_equal. unfold VERDANA_CHAR_WIDTH, ANGLE_NB_CHARS. lia.
      + rewrite fill_characters_eq. cbn.
        unfold to_uint8. rewrite Z.mod_small by lia. reflexivity.
    - cbn. unfold VERDANA_NB_PAGES. lia.
    - cbn. unfold VERDANA_NB_PAGES, for_fuel. lia.
    - unfold Inv. cbn. f_equal. }
  unfold Inv in H. rewrite H. reflexivity.
Qed.

(** ** Calls and their effect on the machine *)

Lemma after_calls_app (cs1 cs2 : list hal_call) (m : machine) :
  after_calls (cs1 ++ cs2) m = after_calls cs2 (after_calls cs1 m).
Proof. unfold after_calls. apply fold_left_app. Qed.

Lemma calls_after_calls (cs : list hal_call) (m : machine) :
  calls (after_calls cs m) = calls m ++ cs.
Proof.
  revert m. induction cs as [|c cs IH]; intros m; simpl.
  - now rewrite app_nil_r.
  - rewrite IH. simpl. now rewrite <- app_assoc.
Qed.

Lemma state_after_calls (cs : list hal_call) (m : machine) :
  _state (after_calls cs m) = _state m.
Proof. revert m. induction cs as [|c cs IH]; intros m; simpl; [|rewrite IH]; reflexivity. Qed.

Lemma screenBuffer_after_calls (cs : list hal_call) (m : machine) :
  _screenBuffer (after_calls cs m) = _screenBuffer m.
Proof. revert m. induction cs as [|c cs IH]; intros m; simpl; [|rewrite IH]; reflexivity. Qed.

Lemma screenTimer_after_calls (cs : list hal_call) (m : machine) :
  screenTimer_ms (after_calls cs m) = screenTimer_ms m.
Proof. revert m. induction cs as [|c cs IH]; intros m; simpl; [|rewrite IH]; reflexivity. Qed.

(** Fields that a setter or a call leaves alone; [autorewrite with frame]
    pushes a projection through them. *)
Lemma calls_set_state st m : calls (set_state st m) = calls m.
Proof. reflexivity. Qed.
Lemma calls_set_screenTimer_ms t m : calls (set_screenTimer_ms t m) = calls m.
Proof. reflexivity. Qed.
Lemma calls_filled cs m : calls (filled cs m) = calls m.
Proof. reflexivity. Qed.
Lemma calls_set_nextAngle a m : calls (set_nextAngle a m) = calls m.
Proof. reflexivity. Qed.
Lemma screenBuffer_set_state st m : _screenBuffer (set_state st m) = _screenBuffer m.
Proof. reflexivity. Qed.
Lemma screenBuffer_set_screenTimer_ms t m :
  _screenBuffer (set_screenTimer_ms t m) = _screenBuffer m.
Proof. reflexivity. Qed.
Lemma screenBuffer_after_call c m : _screenBuffer (after_call c m) = _screenBuffer m.
Proof. reflexivity. Qed.
Lemma nextPage_set_state st m : _nextPage (set_state st m) = _nextPage m.
Proof. reflexivity. Qed.
Lemma nextPage_set_screenTimer_ms t m : _nextPage (set_screenTimer_ms t m) = _nextPage m.
Proof. reflexivity. Qed.
Lemma nextPage_after_call c m : _nextPage (after_call c m) = _nextPage m.
Proof. reflexivity. Qed.
Lemma nextPage_filled cs m : _nextPage (filled cs m) = VERDANA_NB_PAGES.
Proof. reflexivity. Qed.
Lemma nextColumn_set_state st m : _nextColumn (set_state st m) = _nextColumn m.
Proof. reflexivity. Qed.
Lemma nextColumn_set_screenTimer_ms t m :
  _nextColumn (set_screenTimer_ms t m) = _nextColumn m.
Proof. reflexivity. Qed.
Lemma nextColumn_after_call c m : _nextColumn (after_call c m) = _nextColumn m.
Proof. reflexivity. Qed.
Lemma nextColumn_filled cs m : _nextColumn (filled cs m) = VERDANA_CHAR_WIDTH.
Proof. reflexivity. Qed.
Lemma screenTimer_set_state st m : screenTimer_ms (set_state st m) = screenTimer_ms m.
Proof. reflexivity. Qed.
Lemma screenTimer_after_call c m : screenTimer_ms (after_call c m) = screenTimer_ms m.
Proof. reflexivity. Qed.
Lemma screenTimer_set_screenTimer_ms t m : screenTimer_ms (set_screenTimer_ms t m) = t.
Proof. reflexivity. Qed.
Lemma state_set_state st m : _state (set_state st m) = st.
Proof. reflexivity. Qed.
Lemma calls_after_call c m : calls (after_call c m) = calls m ++ [c].
Proof. reflexivity. Qed.
Lemma calls_rasterized m : calls (rasterized m) = calls m.
Proof. reflexivity. Qed.
Lemma nextPage_rasterized m : _nextPage (rasterized m) = VERDANA_NB_PAGES.
Proof. reflexivity. Qed.
Lemma nextColumn_rasterized m : _nextColumn (rasterized m) = VERDANA_CHAR_WIDTH.
Proof. reflexivity. Qed.

Lemma nextPage_after_calls (cs : list hal_call) (m : machine) :
  _nextPage (after_calls cs m) = _nextPage m.
Proof. revert m. induction cs as [|c cs IH]; intros m; simpl; [|rewrite IH]; reflexivity. Qed.

Lemma nextColumn_after_calls (cs : list hal_call) (m : machine) :
  _nextColumn (after_calls cs m) = _nextColumn m.
Proof. revert m. induction cs as [|c cs IH]; intros m; simpl; [|rewrite IH]; reflexivity. Qed.

Create Rewrite HintDb frame.
#[export] Hint Rewrite
  calls_set_state calls_set_screenTimer_ms calls_filled calls_set_nextAngle
  calls_after_calls calls_after_call calls_rasterized
  nextPage_rasterized nextColumn_rasterized
  screenBuffer_set_state screenBuffer_set_screenTimer_ms screenBuffer_after_call
  screenBuffer_after_calls
  nextPage_set_state nextPage_set_screenTimer_ms nextPage_after_call nextPage_filled
  nextPage_after_calls
  nextColumn_set_state nextColumn_set_screenTimer_ms nextColumn_after_call
  nextColumn_filled nextColumn_after_calls
  screenTimer_set_state screenTimer_after_call screenTimer_set_screenTimer_ms
  screenTimer_after_calls
  state_set_state state_after_calls : frame.

(** ** [SSD1306sendCommand] *)

Lemma sendCommand_eq (hal : hal_env) (regNumber : SSD1306register_e)
    (params : list Z) (n : Z) (m : machine) :
  n <= MAX_PARAMETERS ->
  SSD1306sendCommand hal regNumber (Some params) n m =
    (command_code n (Transmit_status hal (nb_Transmit m))
                    (Transmit_status hal (S (nb_Transmit m))),
     after_calls
       (command_calls regNumber params n (Transmit_status hal (nb_Transmit m))
                      (Transmit_status hal (S (nb_Transmit m)))) m).
Proof.
  intros Hn. unfold SSD1306sendCommand.
  replace (MAX_PARAMETERS <? n) with false by (symmetry; apply Z.ltb_ge; lia).
  unfold command_code, command_calls, is_HAL_OK, bind, ret. cbn.
  destruct (Transmit_status hal (nb_Transmit m)); cbn; try reflexivity.
  destruct (n =? 0); cbn; try reflexivity.
  destruct (Transmit_status hal (S (nb_Transmit m))); reflexivity.
Qed.

(** Whatever the HAL answers, [SSD1306sendCommand] leaves the chip
    deselected. *)
Lemma CS_after_command (regNumber : SSD1306register_e) (params : list Z) (n : Z)
    (s1 s2 : HAL_StatusTypeDef) (m : machine) :
  CS (after_calls (command_calls regNumber params n s1 s2) m) = GPIO_PIN_SET.
Proof.
  unfold command_calls. rewrite app_assoc, after_calls_app. reflexivity.
Qed.

Lemma angle_charIndexes_eq (m : machine) :
  angle_charIndexes m =
    (charIndexes_of (_nextAngle m), set_nextAngle (sign_normalized (_nextAngle m)) m).
Proof.
  unfold angle_charIndexes, charIndexes_of, sign_normalized, bind, ret, get, modify.
  destruct (F32.ltb (_nextAngle m) NEG_THRESHOLD); cbn; [reflexivity|].
  now destruct m.
Qed.

(** ** [stPrintingAngle], step by step *)

Lemma nb_Transmit_rasterized (m : machine) : nb_Transmit (rasterized m) = nb_Transmit m.
Proof. reflexivity. Qed.

(** The COLUMN_ADDRESS command fails: the state machine goes back to idle
    and the error is returned with one more layer. *)
Lemma stPrintingAngle_column_failure (hal : hal_env) (m : machine) :
  let s1 := Transmit_status hal (nb_Transmit m) in
  let s2 := Transmit_status hal (S (nb_Transmit m)) in
  let limitColumns := [_nextColumn m; to_uint8 (_nextColumn m + VERDANA_CHAR_WIDTH * 6 - 1)] in
  IS_ERROR (command_code 2 s1 s2) = true ->
  stPrintingAngle hal m =
    (pushErrorCode (command_code 2 s1 s2) PRINTING_ANGLE 1,
     set_state StIdle
       (after_calls (command_calls COLUMN_ADDRESS limitColumns 2 s1 s2) (rasterized m))).
Proof.
  intros s1 s2 limitColumns Herr. unfold stPrintingAngle, bind, get.
  rewrite angle_charIndexes_eq, fill_buffer_loops.
  fold (rasterized m).
  rewrite sendCommand_eq by (unfold MAX_PARAMETERS; lia).
  rewrite nb_Transmit_rasterized. fold s1 s2. rewrite Herr. reflexivity.
Qed.

(** The COLUMN_ADDRESS command succeeds: the PAGE_ADDRESS command is sent,
    whatever the HAL answers to it the data phase is set up and the DMA is
    launched; the outcome depends on the status of the launch alone. *)
Lemma stPrintingAngle_column_success (hal : hal_env) (m : machine) :
  let s3 := Transmit_status hal (S (S (nb_Transmit m))) in
  let s4 := Transmit_status hal (S (S (S (nb_Transmit m)))) in
  let sd := Transmit_DMA_status hal (nb_Transmit_DMA m) in
  let limitColumns := [_nextColumn m; to_uint8 (_nextColumn m + VERDANA_CHAR_WIDTH * 6 - 1)] in
  let limitPages := [_nextPage m; to_uint8 (_nextPage m + 1)] in
  let m' :=
    after_call
      (SPI_Transmit_DMA
         (TxBytes (take (Z.to_nat payload_size) (_screenBuffer (rasterized m))))
         payload_size sd)
      (set_screenTimer_ms SPI_TIMEOUT_MS
         (after_calls
            (command_calls COLUMN_ADDRESS limitColumns 2 HAL_OK HAL_OK
             ++ command_calls PAGE_ADDRESS limitPages 2 s3 s4
             ++ [ GPIO_WritePin SSD1306_DC_Pin GPIO_PIN_SET;
                  GPIO_WritePin SSD1306_CS_Pin GPIO_PIN_RESET ])
            (rasterized m))) in
  Transmit_status hal (nb_Transmit m) = HAL_OK ->
  Transmit_status hal (S (nb_Transmit m)) = HAL_OK ->
  stPrintingAngle hal m =
    if is_HAL_OK sd then (ERR_SUCCESS, set_state StWaitingForTXdone m')
    else (DmaLaunchFailed sd, set_state StIdle m').
Proof.
  intros s3 s4 sd limitColumns limitPages m' H1 H2.
  unfold stPrintingAngle, bind, get.
  rewrite angle_charIndexes_eq, fill_buffer_loops.
  fold (rasterized m).
  rewrite sendCommand_eq by (unfold MAX_PARAMETERS; lia).
  rewrite nb_Transmit_rasterized, H1, H2.
  change (IS_ERROR (command_code 2 HAL_OK HAL_OK)) with false. cbv beta iota.
  rewrite sendCommand_eq by (unfold MAX_PARAMETERS; lia).
  change (nb_Transmit (after_calls (command_calls COLUMN_ADDRESS _ 2 HAL_OK HAL_OK)
                         (rasterized m)))
    with (S (S (nb_Transmit m))).
  subst s3 s4 sd m'.
  destruct (Transmit_status hal (S (S (nb_Transmit m)))),
           (Transmit_status hal (S (S (S (nb_Transmit m)))));
    cbn; unfold is_HAL_OK;
    destruct (Transmit_DMA_status hal (nb_Transmit_DMA m)); reflexivity.
Qed.

(** ** Error paths of the rasterizing state *)

(** C1. A failure of either address command is to send the state machine
    to idle and be returned to the caller.  That holds for COLUMN_ADDRESS
    ([stPrintingAngle_column_failure]); it does not for PAGE_ADDRESS,
    whose result is not stored.  Here the transmission of the
    PAGE_ADDRESS register byte fails: the failed call is in the log, and
    yet [SSD1306update] returns success, launches the DMA and moves on to
    the waiting state. *)
Theorem page_address_failure_not_surfaced :
  let m := latch (S754_zero false) 0 0 idle_machine in
  let m' := snd (SSD1306update hal_page_address_fails m) in
  nth_error (calls m') 7 = Some (SPI_Transmit (TxRegister PAGE_ADDRESS) 1 HAL_ERROR)
  /\ fst (SSD1306update hal_page_address_fails m) = ERR_SUCCESS
  /\ _state m' = StWaitingForTXdone
  /\ nb_Transmit_DMA m' = 1%nat.
Proof. vm_compute. repeat split. Qed.

(** The same for every machine and every environment: once the
    COLUMN_ADDRESS command has gone through, the code returned and the next
    state do not depend on what the HAL answers to PAGE_ADDRESS. *)
Lemma page_address_status_ignored (hal : hal_env) (m : machine) :
  Transmit_status hal (nb_Transmit m) = HAL_OK ->
  Transmit_status hal (S (nb_Transmit m)) = HAL_OK ->
  Transmit_DMA_status hal (nb_Transmit_DMA m) = HAL_OK ->
  fst (stPrintingAngle hal m) = ERR_SUCCESS
  /\ _state (snd (stPrintingAngle hal m)) = StWaitingForTXdone.
Proof.
  intros H1 H2 Hd. rewrite (stPrintingAngle_column_success hal m H1 H2), Hd.
  split; reflexivity.
Qed.

(** ** Chip select and the idle state *)

(** C2. The chip-select line is to be released whenever the driver is
    idle, in particular after a refused DMA launch.  Here the
    launch is refused: [SSD1306update] returns the launch error and the
    driver is idle with the chip still selected (the line was driven low
    just before the launch and is not driven high on this path). *)
Theorem idle_with_chip_selected :
  let m := latch (S754_zero false) 0 0 idle_machine in
  let m' := snd (SSD1306update hal_dma_refused m) in
  fst (SSD1306update hal_dma_refused m) = DmaLaunchFailed HAL_ERROR
  /\ _state m' = StIdle
  /\ CS m' = GPIO_PIN_RESET
  /\ last (calls m') = Some (SPI_Transmit_DMA (TxBytes (take 132 (_screenBuffer m'))) 132 HAL_ERROR).
Proof. vm_compute. repeat split. Qed.

Lemma CS_set_state (st : screenState) (m : machine) : CS (set_state st m) = CS m.
Proof. reflexivity. Qed.

Lemma idle_released_printAngle (a : spec_float) (page column : Z) (m : machine) :
  idle_released m -> idle_released (snd (SSD1306_printAngle a page column m)).
Proof.
  intros Hm. unfold SSD1306_printAngle.
  destruct (F32.ltb a MIN_ANGLE_DEG || F32.ltb MAX_ANGLE_DEG a); [exact Hm|].
  intros H. discriminate H.
Qed.

Lemma idle_released_tick (m : machine) : idle_released m -> idle_released (tick_1ms m).
Proof.
  intros Hm. unfold tick_1ms. destruct (0 <? screenTimer_ms m); exact Hm.
Qed.

Lemma idle_released_stWaitingForTXdone (hal : hal_env) (m : machine) :
  _state m = StWaitingForTXdone -> idle_released (snd (stWaitingForTXdone hal m)).
Proof.
  intros Hst. unfold stWaitingForTXdone, bind, get. intros Hidle. revert Hidle.
  destruct (screenTimer_ms m =? 0); [reflexivity|].
  unfold HAL_SPI_GetState.
  destruct (negb (HAL_SPI_StateTypeDef_eqb (GetState_value hal (nb_GetState m))
                    HAL_SPI_STATE_READY)); [|reflexivity].
  simpl. rewrite Hst. discriminate.
Qed.

Lemma idle_released_stPrintingAngle (hal : hal_env) (m : machine) :
  Transmit_DMA_status hal (nb_Transmit_DMA m) = HAL_OK ->
  idle_released (snd (stPrintingAngle hal m)).
Proof.
  intros Hd.
  destruct (Transmit_status hal (nb_Transmit m)) eqn:H1;
    [destruct (Transmit_status hal (S (nb_Transmit m))) eqn:H2|..].
  1: { rewrite (stPrintingAngle_column_success hal m H1 H2), Hd. intros H. discriminate H. }
  all: rewrite stPrintingAngle_column_failure by (rewrite H1, ?H2; reflexivity);
    intros _; cbn [snd]; rewrite CS_set_state; apply CS_after_command.
Qed.

(** X17. What does hold: on every sequence of requests, calls to
    [SSD1306update] and ticks during which no DMA launch is refused, the
    chip-select line is released whenever the driver is idle, whatever the
    HAL answers to the blocking transmissions and whenever the transfers
    end. *)
Lemma idle_released_invariant (hal : hal_env) (rs : list request) (m : machine) :
  (forall n, Transmit_DMA_status hal n = HAL_OK) ->
  idle_released m -> idle_released (serve_all hal rs m).
Proof.
  intros Hd. revert m. induction rs as [|r rs IH]; intros m Hm; [exact Hm|].
  simpl. apply IH. destruct r as [a page column| |]; simpl.
  - now apply idle_released_printAngle.
  - unfold SSD1306update. destruct (_state m) eqn:Hst.
    + exact Hm.
    + apply idle_released_stPrintingAngle, Hd.
    + now apply idle_released_stWaitingForTXdone.
  - now apply idle_released_tick.
Qed.

(** ** Address window of the rasterizing tick *)

Lemma update_printing (hal : hal_env) (m : machine) :
  _state m = StPrintingAngle -> SSD1306update hal m = stPrintingAngle hal m.
Proof. intros H. unfold SSD1306update. now rewrite H. Qed.

(** C7, as stated, fails.  The two window bounds are held in [uint8_t]
    arrays, and a request is latched with any byte as its page and its
    column.  For the request (0.0, page 255, column 200) the tick sends
    COLUMN_ADDRESS with [200, 9] and PAGE_ADDRESS with [255, 0]: no call
    carries [column, column + 65] = [200, 265] or [page, page + 1] =
    [255, 256]. *)
Lemma address_window_counterexample :
  let page := 255 in
  let column := 200 in
  let requested := SSD1306_printAngle (S754_zero false) page column idle_machine in
  let m' := snd (SSD1306update hal_all_ok (snd requested)) in
  fst requested = ERR_SUCCESS
  /\ nth_error (calls m') 2 = Some (SPI_Transmit (TxRegister COLUMN_ADDRESS) 1 HAL_OK)
  /\ nth_error (calls m') 3 = Some (SPI_Transmit (TxBytes [200; 9]) 2 HAL_OK)
  /\ nth_error (calls m') 7 = Some (SPI_Transmit (TxRegister PAGE_ADDRESS) 1 HAL_OK)
  /\ nth_error (calls m') 8 = Some (SPI_Transmit (TxBytes [255; 0]) 2 HAL_OK)
  /\ nth_error (calls m') 3 <> Some (SPI_Transmit (TxBytes [column; column + 65]) 2 HAL_OK)
  /\ nth_error (calls m') 8 <> Some (SPI_Transmit (TxBytes [page; page + 1]) 2 HAL_OK)
  /\ ~ In (SPI_Transmit (TxBytes [column; column + 65]) 2 HAL_OK) (calls m')
  /\ ~ In (SPI_Transmit (TxBytes [page; page + 1]) 2 HAL_OK) (calls m').
Proof.
  vm_compute. repeat split; try discriminate.
  all: intros H; repeat (destruct H as [H|H]; [discriminate H|]); exact H.
Qed.

(** C7, amended.  For a latched request (a, page, column), page and column
    being bytes, the rasterizing tick sends a COLUMN_ADDRESS command with
    the two parameters [column, (column + 65) mod 256] and then a
    PAGE_ADDRESS command with the two parameters [page, (page + 1) mod 256]
    (the four blocking transmissions of the two commands going through):
    the values latched by the request, although the loops that fill the
    buffer have by then left 2 in [_nextPage] and 11 in [_nextColumn].  The
    parameters are [column, column + 65] when column is at most 190 and
    [page, page + 1] when page is at most 254, which covers the pages 0..6
    and the columns 0..61 of the data model. *)
Theorem address_window (hal : hal_env) (a : spec_float) (page column : Z)
    (m0 : machine) :
  0 <= page <= 255 ->
  0 <= column <= 255 ->
  Transmit_status hal (nb_Transmit m0) = HAL_OK ->
  Transmit_status hal (S (nb_Transmit m0)) = HAL_OK ->
  Transmit_status hal (S (S (nb_Transmit m0))) = HAL_OK ->
  Transmit_status hal (S (S (S (nb_Transmit m0)))) = HAL_OK ->
  let m' := snd (SSD1306update hal (latch a page column m0)) in
  calls m' =
    calls m0 ++
    [ GPIO_WritePin SSD1306_DC_Pin GPIO_PIN_RESET;
      GPIO_WritePin SSD1306_CS_Pin GPIO_PIN_RESET;
      SPI_Transmit (TxRegister COLUMN_ADDRESS) 1 HAL_OK;
      SPI_Transmit (TxBytes [column; (column + 65) mod 256]) 2 HAL_OK;
      GPIO_WritePin SSD1306_CS_Pin GPIO_PIN_SET;
      GPIO_WritePin SSD1306_DC_Pin GPIO_PIN_RESET;
      GPIO_WritePin SSD1306_CS_Pin GPIO_PIN_RESET;
      SPI_Transmit (TxRegister PAGE_ADDRESS) 1 HAL_OK;
      SPI_Transmit (TxBytes [page; (page + 1) mod 256]) 2 HAL_OK;
      GPIO_WritePin SSD1306_CS_Pin GPIO_PIN_SET;
      GPIO_WritePin SSD1306_DC_Pin GPIO_PIN_SET;
      GPIO_WritePin SSD1306_CS_Pin GPIO_PIN_RESET;
      SPI_Transmit_DMA (TxBytes (take 132 (_screenBuffer m'))) 132
                       (Transmit_DMA_status hal (nb_Transmit_DMA m0)) ]
  /\ _nextPage m' = VERDANA_NB_PAGES
  /\ _nextColumn m' = VERDANA_CHAR_WIDTH
  /\ (column <= 190 -> (column + 65) mod 256 = column + 65)
  /\ (page <= 254 -> (page + 1) mod 256 = page + 1).
Proof.
  intros Hpage Hcolumn H0 H1 H2 H3 m'. subst m'.
  rewrite update_printing by reflexivity.
  rewrite (stPrintingAngle_column_success hal (latch a page column m0) H0 H1).
  change (nb_Transmit (latch a page column m0)) with (nb_Transmit m0).
  change (nb_Transmit_DMA (latch a page column m0)) with (nb_Transmit_DMA m0).
  change (_nextColumn (latch a page column m0)) with column.
  change (_nextPage (latch a page column m0)) with page.
  rewrite H2, H3.
  replace (to_uint8 (column + VERDANA_CHAR_WIDTH * 6 - 1)) with ((column + 65) mod 256)
    by (unfold to_uint8, VERDANA_CHAR_WIDTH; f_equal; lia).
  change (to_uint8 (page + 1)) with ((page + 1) mod 256).
  assert (Hc : column <= 190 -> (column + 65) mod 256 = column + 65)
    by (intros Hle; apply Z.mod_small; lia).
  assert (Hp : page <= 254 -> (page + 1) mod 256 = page + 1)
    by (intros Hle; apply Z.mod_small; lia).
  destruct (is_HAL_OK (Transmit_DMA_status hal (nb_Transmit_DMA m0)));
    cbn [snd]; autorewrite with frame;
    change (calls (latch a page column m0)) with (calls m0);
    rewrite <- !app_assoc;
    (split; [reflexivity | split; [reflexivity | split; [reflexivity | split; assumption]]]).
Qed.

(** Scenario 1 of section 8: [print_angle(+12.3, page=2, column=10)] gives
    COLUMN_ADDRESS [10, 75] and PAGE_ADDRESS [2, 3]. *)
Lemma address_window_witness :
  let m' := snd (SSD1306update hal_all_ok (latch (F32.literal 123 10) 2 10 idle_machine)) in
  calls m' =
    calls idle_machine ++
    [ GPIO_WritePin SSD1306_DC_Pin GPIO_PIN_RESET;
      GPIO_WritePin SSD1306_CS_Pin GPIO_PIN_RESET;
      SPI_Transmit (TxRegister COLUMN_ADDRESS) 1 HAL_OK;
      SPI_Transmit (TxBytes [10; (10 + 65) mod 256]) 2 HAL_OK;
      GPIO_WritePin SSD1306_CS_Pin GPIO_PIN_SET;
      GPIO_WritePin SSD1306_DC_Pin GPIO_PIN_RESET;
      GPIO_WritePin SSD1306_CS_Pin GPIO_PIN_RESET;
      SPI_Transmit (TxRegister PAGE_ADDRESS) 1 HAL_OK;
      SPI_Transmit (TxBytes [2; (2 + 1) mod 256]) 2 HAL_OK;
      GPIO_WritePin SSD1306_CS_Pin GPIO_PIN_SET;
      GPIO_WritePin SSD1306_DC_Pin GPIO_PIN_SET;
      GPIO_WritePin SSD1306_CS_Pin GPIO_PIN_RESET;
      SPI_Transmit_DMA (TxBytes (take 132 (_screenBuffer m'))) 132
                       (Transmit_DMA_status hal_all_ok (nb_Transmit_DMA idle_machine)) ]
  /\ _nextPage m' = VERDANA_NB_PAGES
  /\ _nextColumn m' = VERDANA_CHAR_WIDTH
  /\ (10 <= 190 -> (10 + 65) mod 256 = 10 + 65)
  /\ (2 <= 254 -> (2 + 1) mod 256 = 2 + 1).
Proof.
  apply (address_window hal_all_ok (F32.literal 123 10) 2 10 idle_machine);
    [lia | lia | reflexivity | reflexivity | reflexivity | reflexivity].
Defined.

(** In scenario 1 the two parameter arrays are [10, 75] and [2, 3]. *)
Example scenario_1_window :
  let m' := snd (SSD1306update hal_all_ok (latch (F32.literal 123 10) 2 10 idle_machine)) in
  nth_error (calls m') 3 = Some (SPI_Transmit (TxBytes [10; 75]) 2 HAL_OK)
  /\ nth_error (calls m') 8 = Some (SPI_Transmit (TxBytes [2; 3]) 2 HAL_OK).
Proof. vm_compute. split; reflexivity. Qed.

(** ** Initialisation and clear *)

Section AllTransmissionsSucceed.

Variable hal : hal_env.
Hypothesis transmit_ok : forall n, Transmit_status hal n = HAL_OK.

Lemma sendCommand_ok (regNumber : SSD1306register_e) (params : list Z) (n : Z)
    (m : machine) :
  n <= MAX_PARAMETERS ->
  SSD1306sendCommand hal regNumber (Some params) n m =
    (ERR_SUCCESS, after_calls (command_calls regNumber params n HAL_OK HAL_OK) m).
Proof.
  intros Hn. rewrite sendCommand_eq by exact Hn. rewrite !transmit_ok.
  unfold command_code. simpl. now rewrite andb_false_r.
Qed.

Lemma sendData_ok (bytes : list Z) (size : Z) (m : machine) :
  0 < size <= MAX_DATA_SIZE ->
  SSD1306sendData hal (Some bytes) size m =
    (ERR_SUCCESS,
     after_calls
       [ GPIO_WritePin SSD1306_DC_Pin GPIO_PIN_SET;
         GPIO_WritePin SSD1306_CS_Pin GPIO_PIN_RESET;
         SPI_Transmit (TxBytes (take (Z.to_nat size) bytes)) size HAL_OK;
         GPIO_WritePin SSD1306_CS_Pin GPIO_PIN_SET ] m).
Proof.
  intros Hsize. unfold SSD1306sendData.
  replace (size =? 0) with false by (symmetry; apply Z.eqb_neq; lia).
  replace (MAX_DATA_SIZE <? size) with false by (symmetry; apply Z.ltb_ge; lia).
  unfold bind, HAL_SPI_Transmit. cbn. rewrite transmit_ok. reflexivity.
Qed.

Lemma clearScreen_ok (m : machine) :
  SSD1306clearScreen hal m =
    (ERR_SUCCESS,
     after_calls
       (command_calls COLUMN_ADDRESS [0; 127] 2 HAL_OK HAL_OK
        ++ command_calls PAGE_ADDRESS [0; 31] 2 HAL_OK HAL_OK
        ++ [ GPIO_WritePin SSD1306_DC_Pin GPIO_PIN_SET;
             GPIO_WritePin SSD1306_CS_Pin GPIO_PIN_RESET;
             SPI_Transmit (TxBytes (take (Z.to_nat MAX_DATA_SIZE) (_screenBuffer m)))
                          MAX_DATA_SIZE HAL_OK;
             GPIO_WritePin SSD1306_CS_Pin GPIO_PIN_SET ]) m).
Proof.
  unfold SSD1306clearScreen, bind, get.
  rewrite sendCommand_ok by (unfold MAX_PARAMETERS; lia). cbv beta iota.
  change (IS_ERROR ERR_SUCCESS) with false. cbv beta iota.
  rewrite sendCommand_ok by (unfold MAX_PARAMETERS; lia).
  change (IS_ERROR ERR_SUCCESS) with false. cbv beta iota.
  rewrite !screenBuffer_after_calls.
  rewrite sendData_ok by (unfold MAX_DATA_SIZE; lia).
  change (IS_ERROR ERR_SUCCESS) with false. cbv beta iota.
  rewrite !after_calls_app. reflexivity.
Qed.

Lemma init_registers_ok (commands : list SSD1306init_t) (m : machine) :
  Forall (fun c => nbParameters c <= MAX_PARAMETERS) commands ->
  init_registers hal commands m =
    (ERR_SUCCESS,
     after_calls
       (flat_map (fun c => command_calls (reg c) [value c] (nbParameters c) HAL_OK HAL_OK)
                 commands) m).
Proof.
  intros Hall. revert m. induction Hall as [|c commands Hc Hall IH]; intros m.
  - reflexivity.
  - cbn [init_registers flat_map]. unfold bind.
    rewrite sendCommand_ok by exact Hc.
    change (IS_ERROR ERR_SUCCESS) with false. cbv beta iota.
    rewrite IH, after_calls_app. reflexivity.
Qed.

End AllTransmissionsSucceed.

(** The table has the [NB_INIT_REGISERS] entries that the loop of
    [SSD1306initialise] goes through. *)
Lemma length_initCommands (opts : SSD1306_options) :
  Z.of_nat (length (initCommands opts)) = NB_INIT_REGISERS.
Proof. reflexivity. Qed.

(** C8. With every transmission going through and the frame buffer still
    zero-initialised, [SSD1306initialise] succeeds and makes, after
    releasing the chip and pulsing the reset line, exactly eight command
    transactions in the order SCAN_DIRECTION, HARDWARE_CONFIG,
    SEGMENT_REMAP_127, MEMORY_ADDR_MODE, CONTRAST_CONTROL,
    CLOCK_DIVIDE_RATIO, CHARGE_PUMP, DISPLAY_ON; then the clear: the
    COLUMN_ADDRESS command with [0, 127], the PAGE_ADDRESS command with
    [0, 31] and one blocking data transmission of 1024 bytes, all zero.
    Nothing else is sent. *)
Theorem initialise_sequence (hal : hal_env) (opts : SSD1306_options) (m : machine) :
  (forall n, Transmit_status hal n = HAL_OK) ->
  _screenBuffer m = repeat 0 1024 ->
  fst (SSD1306initialise hal opts m) = ERR_SUCCESS
  /\ calls (snd (SSD1306initialise hal opts m)) =
       calls m
       ++ [ GPIO_WritePin SSD1306_CS_Pin GPIO_PIN_SET;
            GPIO_WritePin SSD1306_RST_Pin GPIO_PIN_RESET;
            GPIO_WritePin SSD1306_RST_Pin GPIO_PIN_SET ]
       ++ command_transaction SCAN_DIRECTION_N1_0 []
       ++ command_transaction HARDWARE_CONFIG
            [Z.lor (SSD_PIN_CONFIG_ALT opts) (SSD_COM_REMAP_DISABLE opts)]
       ++ command_transaction SEGMENT_REMAP_127 []
       ++ command_transaction MEMORY_ADDR_MODE [SSD_HORIZONTAL_ADDR opts]
       ++ command_transaction CONTRAST_CONTROL [SSD_CONTRAST_HIGHEST opts]
       ++ command_transaction CLOCK_DIVIDE_RATIO
            [Z.lor (SSD_CLOCK_FREQ_MID opts) (SSD_CLOCK_DIVIDER_1 opts)]
       ++ command_transaction CHG_PUMP_REGULATOR [SSD_ENABLE_CHG_PUMP opts]
       ++ command_transaction DISPLAY_ON []
       ++ command_transaction COLUMN_ADDRESS [0; 127]
       ++ command_transaction PAGE_ADDRESS [0; 31]
       ++ data_transaction (repeat 0 1024).
Proof.
  intros Hok Hbuffer.
  assert (Hinit : SSD1306initialise hal opts m =
    (ERR_SUCCESS,
     after_calls
       ([ GPIO_WritePin SSD1306_CS_Pin GPIO_PIN_SET;
          GPIO_WritePin SSD1306_RST_Pin GPIO_PIN_RESET;
          GPIO_WritePin SSD1306_RST_Pin GPIO_PIN_SET ]
        ++ flat_map (fun c => command_calls (reg c) [value c] (nbParameters c) HAL_OK HAL_OK)
             (initCommands opts)
        ++ command_calls COLUMN_ADDRESS [0; 127] 2 HAL_OK HAL_OK
        ++ command_calls PAGE_ADDRESS [0; 31] 2 HAL_OK HAL_OK
        ++ [ GPIO_WritePin SSD1306_DC_Pin GPIO_PIN_SET;
             GPIO_WritePin SSD1306_CS_Pin GPIO_PIN_RESET;
             SPI_Transmit (TxBytes (take (Z.to_nat MAX_DATA_SIZE) (_screenBuffer m)))
                          MAX_DATA_SIZE HAL_OK;
             GPIO_WritePin SSD1306_CS_Pin GPIO_PIN_SET ]) m)).
  { unfold SSD1306initialise, bind, SSD1306_DISABLE_SPI, HAL_GPIO_WritePin, modify.
    cbv beta iota.
    rewrite (init_registers_ok hal Hok)
      by (unfold initCommands, MAX_PARAMETERS; repeat constructor; simpl; lia).
    change (IS_ERROR ERR_SUCCESS) with false. cbv beta iota.
    rewrite (clearScreen_ok hal Hok).
    change (IS_ERROR ERR_SUCCESS) with false. cbv beta iota.
    rewrite screenBuffer_after_calls.
    rewrite !after_calls_app. reflexivity. }
  rewrite Hinit. cbn [fst snd]. split; [reflexivity|].
  rewrite calls_after_calls, Hbuffer.
  replace (take (Z.to_nat MAX_DATA_SIZE) (repeat 0 1024)) with (repeat 0 1024)
    by (symmetry; apply take_ge; rewrite repeat_length; reflexivity).
  f_equal.
Qed.

Lemma initialise_sequence_witness :
  let m := power_on GPIO_PIN_RESET GPIO_PIN_RESET GPIO_PIN_RESET in
  fst (SSD1306initialise hal_all_ok example_options m) = ERR_SUCCESS
  /\ calls (snd (SSD1306initialise hal_all_ok example_options m)) =
       calls m
       ++ [ GPIO_WritePin SSD1306_CS_Pin GPIO_PIN_SET;
            GPIO_WritePin SSD1306_RST_Pin GPIO_PIN_RESET;
            GPIO_WritePin SSD1306_RST_Pin GPIO_PIN_SET ]
       ++ command_transaction SCAN_DIRECTION_N1_0 []
       ++ command_transaction HARDWARE_CONFIG
            [Z.lor (SSD_PIN_CONFIG_ALT example_options)
                   (SSD_COM_REMAP_DISABLE example_options)]
       ++ command_transaction SEGMENT_REMAP_127 []
       ++ command_transaction MEMORY_ADDR_MODE [SSD_HORIZONTAL_ADDR example_options]
       ++ command_transaction CONTRAST_CONTROL [SSD_CONTRAST_HIGHEST example_options]
       ++ command_transaction CLOCK_DIVIDE_RATIO
            [Z.lor (SSD_CLOCK_FREQ_MID example_options)
                   (SSD_CLOCK_DIVIDER_1 example_options)]
       ++ command_transaction CHG_PUMP_REGULATOR [SSD_ENABLE_CHG_PUMP example_options]
       ++ command_transaction DISPLAY_ON []
       ++ command_transaction COLUMN_ADDRESS [0; 127]
       ++ command_transaction PAGE_ADDRESS [0; 31]
       ++ data_transaction (repeat 0 1024).
Proof.
  exact (initialise_sequence hal_all_ok example_options
           (power_on GPIO_PIN_RESET GPIO_PIN_RESET GPIO_PIN_RESET)
           (fun _ => eq_refl) eq_refl).
Defined.

(** ** The DMA deadline *)

Lemma update_idle (hal : hal_env) (m : machine) :
  _state m = StIdle -> SSD1306update hal m = (ERR_SUCCESS, m).
Proof. intros Hst. unfold SSD1306update. now rewrite Hst. Qed.

(** While the deadline has not expired and the peripheral is busy, a call
    changes nothing in the driver. *)
Lemma update_busy (hal : hal_env) (m : machine) :
  _state m = StWaitingForTXdone ->
  screenTimer_ms m <> 0 ->
  GetState_value hal (nb_GetState m) <> HAL_SPI_STATE_READY ->
  SSD1306update hal m = (ERR_SUCCESS, after_GetState m).
Proof.
  intros Hst Htimer Hbusy. unfold SSD1306update. rewrite Hst.
  unfold stWaitingForTXdone, bind, get, HAL_SPI_GetState.
  replace (screenTimer_ms m =? 0) with false by (symmetry; now apply Z.eqb_neq).
  destruct (GetState_value hal (nb_GetState m)); try reflexivity.
  now contradiction Hbusy.
Qed.

(** The deadline has expired: the chip is released, the DMA is stopped,
    the driver goes back to idle and the timeout is returned. *)
Lemma update_expired (hal : hal_env) (m : machine) :
  _state m = StWaitingForTXdone ->
  screenTimer_ms m = 0 ->
  SSD1306update hal m =
    (DmaTimeout,
     set_state StIdle
       (after_calls [ GPIO_WritePin SSD1306_CS_Pin GPIO_PIN_SET; SPI_DMAStop ] m)).
Proof.
  intros Hst Htimer. unfold SSD1306update. rewrite Hst.
  unfold stWaitingForTXdone, bind, get. rewrite Htimer. reflexivity.
Qed.

Lemma updates_idle (hal : hal_env) (n : nat) (m : machine) :
  _state m = StIdle -> updates hal n m = (repeat ERR_SUCCESS n, m).
Proof.
  intros Hst. induction n as [|n IH]; [reflexivity|].
  cbn [updates]. unfold bind, ret. rewrite update_idle by exact Hst.
  rewrite IH. reflexivity.
Qed.

Lemma rounds_app (hal : hal_env) (l1 l2 : list nat) (m : machine) :
  rounds hal (l1 ++ l2) m =
    (fst (rounds hal l1 m) ++ fst (rounds hal l2 (snd (rounds hal l1 m))),
     snd (rounds hal l2 (snd (rounds hal l1 m)))).
Proof.
  revert m. induction l1 as [|extra l1 IH]; intros m.
  - simpl. now destruct (rounds hal l2 m).
  - cbn [app rounds]. unfold bind, ret.
    destruct (round hal extra m) as [codes m1].
    rewrite IH. destruct (rounds hal l1 m1) as [others m2]. reflexivity.
Qed.

Lemma tick_1ms_frame (m : machine) :
  _state (tick_1ms m) = _state m
  /\ calls (tick_1ms m) = calls m
  /\ CS (tick_1ms m) = CS m
  /\ (0 < screenTimer_ms m -> screenTimer_ms (tick_1ms m) = screenTimer_ms m - 1).
Proof.
  unfold tick_1ms. destruct (0 <? screenTimer_ms m) eqn:E; cbn; repeat split.
  apply Z.ltb_ge in E. lia.
Qed.

Section StalledDMA.

Variable hal : hal_env.
Hypothesis never_ready : forall n, GetState_value hal n <> HAL_SPI_STATE_READY.

Lemma updates_busy (n : nat) (m : machine) :
  _state m = StWaitingForTXdone ->
  screenTimer_ms m <> 0 ->
  fst (updates hal n m) = repeat ERR_SUCCESS n
  /\ _state (snd (updates hal n m)) = StWaitingForTXdone
  /\ screenTimer_ms (snd (updates hal n m)) = screenTimer_ms m
  /\ calls (snd (updates hal n m)) = calls m
  /\ CS (snd (updates hal n m)) = CS m.
Proof.
  revert m. induction n as [|n IH]; intros m Hst Htimer.
  - cbn. repeat split; assumption.
  - cbn [updates]. unfold bind, ret.
    rewrite update_busy by (try assumption; apply never_ready).
    destruct (IH (after_GetState m) Hst Htimer) as (Hcodes & Hst' & Ht' & Hcalls' & Hcs').
    destruct (updates hal n (after_GetState m)) as [codes m']. cbn [fst snd] in *.
    subst codes. repeat split; assumption.
Qed.

(** Rounds during which the deadline does not reach zero. *)
Lemma rounds_busy (extras : list nat) (m : machine) :
  _state m = StWaitingForTXdone ->
  Z.of_nat (length extras) < screenTimer_ms m ->
  fst (rounds hal extras m) = map quiet extras
  /\ _state (snd (rounds hal extras m)) = StWaitingForTXdone
  /\ screenTimer_ms (snd (rounds hal extras m))
     = screenTimer_ms m - Z.of_nat (length extras)
  /\ calls (snd (rounds hal extras m)) = calls m
  /\ CS (snd (rounds hal extras m)) = CS m.
Proof.
  revert m. induction extras as [|extra extras IH]; intros m Hst Htimer.
  - cbn. repeat split; try assumption. lia.
  - cbn [length] in Htimer. cbn [rounds]. unfold bind, ret, round.
    destruct (tick_1ms_frame m) as (Hst1 & Hcalls1 & Hcs1 & Ht1).
    destruct (updates_busy (S extra) (tick_1ms m)) as (Hcodes & Hst2 & Ht2 & Hcalls2 & Hcs2);
      [congruence | rewrite Ht1; lia |].
    rewrite Ht1 in Ht2 by lia.
    destruct (updates hal (S extra) (tick_1ms m)) as [codes m2]. cbn [fst snd] in *.
    destruct (IH m2 Hst2) as (Hothers & Hst3 & Ht3 & Hcalls3 & Hcs3); [lia|].
    destruct (rounds hal extras m2) as [others m3]. cbn [fst snd map length] in *.
    subst codes others. repeat split; try congruence. lia.
Qed.

Lemma rounds_idle (extras : list nat) (m : machine) :
  _state m = StIdle ->
  fst (rounds hal extras m) = map quiet extras
  /\ _state (snd (rounds hal extras m)) = StIdle
  /\ calls (snd (rounds hal extras m)) = calls m
  /\ CS (snd (rounds hal extras m)) = CS m.
Proof.
  revert m. induction extras as [|extra extras IH]; intros m Hst.
  - cbn. repeat split; assumption.
  - cbn [rounds]. unfold bind, ret, round.
    destruct (tick_1ms_frame m) as (Hst1 & Hcalls1 & Hcs1 & _).
    rewrite updates_idle by congruence.
    destruct (IH (tick_1ms m)) as (Hothers & Hst3 & Hcalls3 & Hcs3); [congruence|].
    destruct (rounds hal extras (tick_1ms m)) as [others m3]. cbn [fst snd map] in *.
    subst others. repeat split; congruence.
Qed.

(** The round in which the deadline reaches zero: its first call returns
    the timeout, the other calls of the round find the driver idle. *)
Lemma round_expired (extra : nat) (m : machine) :
  _state m = StWaitingForTXdone ->
  screenTimer_ms m = 1 ->
  round hal extra m =
    (DmaTimeout :: repeat ERR_SUCCESS extra,
     set_state StIdle
       (after_calls [ GPIO_WritePin SSD1306_CS_Pin GPIO_PIN_SET; SPI_DMAStop ]
          (tick_1ms m))).
Proof.
  intros Hst Htimer. unfold round. cbn [updates]. unfold bind, ret.
  destruct (tick_1ms_frame m) as (Hst1 & _ & _ & Ht1).
  rewrite update_expired by (congruence || (rewrite Ht1; lia)).
  rewrite updates_idle by reflexivity. reflexivity.
Qed.

(** From the waiting state with [t + 1] milliseconds left: [t] quiet
    rounds, the timeout in the next round, quiet rounds for ever after. *)
Lemma rounds_stalled_split (before : list nat) (extra : nat) (after : list nat)
    (m : machine) :
  _state m = StWaitingForTXdone ->
  screenTimer_ms m = Z.of_nat (S (length before)) ->
  fst (rounds hal (before ++ [extra] ++ after) m)
    = map quiet before ++ [DmaTimeout :: repeat ERR_SUCCESS extra] ++ map quiet after
  /\ _state (snd (rounds hal (before ++ [extra] ++ after) m)) = StIdle
  /\ CS (snd (rounds hal (before ++ [extra] ++ after) m)) = GPIO_PIN_SET
  /\ calls (snd (rounds hal (before ++ [extra] ++ after) m))
     = calls m ++ [ GPIO_WritePin SSD1306_CS_Pin GPIO_PIN_SET; SPI_DMAStop ].
Proof.
  intros Hst Htimer. rewrite !rounds_app.
  destruct (rounds_busy before m Hst ltac:(lia)) as (Hc1 & Hst1 & Ht1 & Hcalls1 & _).
  set (m1 := snd (rounds hal before m)) in *.
  assert (Hexp : rounds hal [extra] m1 =
            ([DmaTimeout :: repeat ERR_SUCCESS extra],
             set_state StIdle
               (after_calls [ GPIO_WritePin SSD1306_CS_Pin GPIO_PIN_SET; SPI_DMAStop ]
                  (tick_1ms m1)))).
  { cbn [rounds]. unfold bind, ret.
    rewrite round_expired by (assumption || lia). reflexivity. }
  rewrite Hexp. cbn [fst snd].
  set (m2 := set_state StIdle _).
  destruct (rounds_idle after m2 eq_refl) as (Hc3 & Hst3 & Hcalls3 & Hcs3).
  rewrite Hc1, Hc3, Hst3, Hcalls3, Hcs3.
  repeat split.
  subst m2. destruct (tick_1ms_frame m1) as (_ & Hcalls & _ & _).
  autorewrite with frame. now rewrite Hcalls, Hcalls1.
Qed.

Lemma rounds_stalled (t : nat) (extras : list nat) (m : machine) :
  _state m = StWaitingForTXdone ->
  screenTimer_ms m = Z.of_nat (S t) ->
  (S t <= length extras)%nat ->
  fst (rounds hal extras m)
    = map quiet (take t extras)
      ++ [DmaTimeout :: repeat ERR_SUCCESS (nth t extras 0%nat)]
      ++ map quiet (drop (S t) extras)
  /\ _state (snd (rounds hal extras m)) = StIdle
  /\ CS (snd (rounds hal extras m)) = GPIO_PIN_SET
  /\ calls (snd (rounds hal extras m))
     = calls m ++ [ GPIO_WritePin SSD1306_CS_Pin GPIO_PIN_SET; SPI_DMAStop ].
Proof.
  intros Hst Htimer Hlen.
  assert (Hsplit : take t extras ++ [nth t extras 0%nat] ++ drop (S t) extras = extras).
  { apply take_drop_middle.
    destruct (nth_lookup_or_length extras t 0%nat) as [H|H]; [exact H | lia]. }
  assert (Hlt : length (take t extras) = t) by (rewrite length_take; lia).
  pose proof (rounds_stalled_split (take t extras) (nth t extras 0%nat)
                (drop (S t) extras) m Hst ltac:(lia)) as H.
  rewrite Hsplit in H. exact H.
Qed.

End StalledDMA.

(** C5. A DMA transfer is launched by the rasterizing tick and the SPI
    peripheral never reports ready.  The launch leaves the deadline at 10
    (milliseconds).  The application then goes through its rounds, each one
    the 1 ms tick followed by a call to [SSD1306update] and any number of
    further calls before the next tick: every call of the first nine rounds
    returns success, the first call of the tenth round returns the
    DmaTimeout error, and every later call returns success.  The timeout is
    thus reported exactly once, in the round in which the deadline reaches
    zero, ten ticks after the launch.  From that call on the driver is idle
    with the chip released, and the only calls made to the SPI and GPIO
    layer since the launch are the release of the chip and the stop of the
    DMA. *)
Theorem dma_stall_times_out (hal : hal_env) (m : machine) (extras : list nat) :
  _state m = StPrintingAngle ->
  Transmit_status hal (nb_Transmit m) = HAL_OK ->
  Transmit_status hal (S (nb_Transmit m)) = HAL_OK ->
  Transmit_DMA_status hal (nb_Transmit_DMA m) = HAL_OK ->
  (forall k, GetState_value hal k <> HAL_SPI_STATE_READY) ->
  (10 <= length extras)%nat ->
  let launched := snd (SSD1306update hal m) in
  let codes := fst (rounds hal extras launched) in
  let final := snd (rounds hal extras launched) in
  fst (SSD1306update hal m) = ERR_SUCCESS
  /\ _state launched = StWaitingForTXdone
  /\ screenTimer_ms launched = 10
  /\ codes = map quiet (take 9 extras)
             ++ [DmaTimeout :: repeat ERR_SUCCESS (nth 9 extras 0%nat)]
             ++ map quiet (drop 10 extras)
  /\ _state final = StIdle
  /\ CS final = GPIO_PIN_SET
  /\ calls final = calls launched ++ [ GPIO_WritePin SSD1306_CS_Pin GPIO_PIN_SET; SPI_DMAStop ].
Proof.
  intros Hst H1 H2 Hd Hbusy Hn launched codes final.
  assert (Hlaunched : _state launched = StWaitingForTXdone /\ screenTimer_ms launched = 10
                      /\ fst (SSD1306update hal m) = ERR_SUCCESS).
  { subst launched. rewrite update_printing by exact Hst.
    rewrite (stPrintingAngle_column_success hal m H1 H2), Hd. cbn [fst snd is_HAL_OK
      HAL_StatusTypeDef_eqb]. autorewrite with frame. repeat split. }
  destruct Hlaunched as (Hst1 & Ht1 & Hcode).
  destruct (rounds_stalled hal Hbusy 9 extras launched Hst1 Ht1 Hn) as (Hc & Hs & Hcs & Hcalls).
  repeat split; assumption.
Qed.

(** Scenario 6 of section 8: a valid request, the peripheral held busy, ten
    rounds of one call each. *)
Lemma dma_stall_times_out_witness :
  let m := latch (F32.literal 123 10) 2 10 idle_machine in
  let extras := repeat 0%nat 10 in
  let launched := snd (SSD1306update hal_dma_stalled m) in
  let codes := fst (rounds hal_dma_stalled extras launched) in
  let final := snd (rounds hal_dma_stalled extras launched) in
  fst (SSD1306update hal_dma_stalled m) = ERR_SUCCESS
  /\ _state launched = StWaitingForTXdone
  /\ screenTimer_ms launched = 10
  /\ codes = map quiet (take 9 extras)
             ++ [DmaTimeout :: repeat ERR_SUCCESS (nth 9 extras 0%nat)]
             ++ map quiet (drop 10 extras)
  /\ _state final = StIdle
  /\ CS final = GPIO_PIN_SET
  /\ calls final = calls launched ++ [ GPIO_WritePin SSD1306_CS_Pin GPIO_PIN_SET; SPI_DMAStop ].
Proof.
  apply (dma_stall_times_out hal_dma_stalled
           (latch (F32.literal 123 10) 2 10 idle_machine) (repeat 0%nat 10));
    [reflexivity | reflexivity | reflexivity | reflexivity
    | intros k; discriminate | simpl; lia].
Defined.

(** In scenario 6 the ten calls return nine successes and then the
    timeout. *)
Example scenario_6_codes :
  concat (fst (rounds hal_dma_stalled (repeat 0%nat 10)
                 (snd (SSD1306update hal_dma_stalled
                         (latch (F32.literal 123 10) 2 10 idle_machine)))))
  = repeat ERR_SUCCESS 9 ++ [DmaTimeout].
Proof. vm_compute. reflexivity. Qed.

(** ** Rounding in binary32 *)

(** Number of binary digits of a mantissa. *)
Lemma digits2_pos_bounds (p : positive) :
  2 ^ (Z.pos (digits2_pos p) - 1) <= Z.pos p < 2 ^ Z.pos (digits2_pos p).
Proof.
  induction p as [p IH|p IH|]; cbn [digits2_pos].
  - rewrite Pos2Z.inj_succ.
    replace (Z.succ (Z.pos (digits2_pos p)) - 1)
      with (Z.succ (Z.pos (digits2_pos p) - 1)) by lia.
    rewrite !Z.pow_succ_r by lia. lia.
  - rewrite Pos2Z.inj_succ.
    replace (Z.succ (Z.pos (digits2_pos p)) - 1)
      with (Z.succ (Z.pos (digits2_pos p) - 1)) by lia.
    rewrite !Z.pow_succ_r by lia. lia.
  - simpl. lia.
Qed.

Lemma iter_pos_nat {A : Type} (f : A -> A) (p : positive) (x : A) :
  SpecFloat.iter_pos f p x = Nat.iter (Pos.to_nat p) f x.
Proof.
  revert x. induction p as [p IH|p IH|]; intros x; cbn [SpecFloat.iter_pos].
  - rewrite !IH, Pos2Nat.inj_xI. cbn [Nat.mul]. rewrite Nat.add_0_r.
    rewrite Nat.iter_succ_r, Nat.iter_add. reflexivity.
  - rewrite !IH, Pos2Nat.inj_xO. cbn [Nat.mul]. rewrite Nat.add_0_r.
    rewrite Nat.iter_add. reflexivity.
  - reflexivity.
Qed.

Lemma shr_m_shr_1 (r : shr_record) :
  0 <= shr_m r -> shr_m (shr_1 r) = shr_m r / 2.
Proof.
  destruct r as [m r s]. cbn [shr_m]. intros Hm. rewrite <- Z.div2_div.
  destruct m as [|[p|p|]|p]; try reflexivity. lia.
Qed.

Lemma shr_m_iter (n : nat) (r : shr_record) :
  0 <= shr_m r -> shr_m (Nat.iter n shr_1 r) = shr_m r / 2 ^ Z.of_nat n.
Proof.
  intros Hm. induction n as [|n IH].
  - simpl. now rewrite Z.div_1_r.
  - rewrite Nat.iter_succ, shr_m_shr_1, IH.
    + rewrite Nat2Z.inj_succ, Z.pow_succ_r by lia.
      rewrite Z.div_div by lia. f_equal. lia.
    + rewrite IH. apply Z.div_pos; lia.
Qed.

Lemma shr_m_shr_record_of_loc m l : shr_m (shr_record_of_loc m l) = m.
Proof. destruct l as [|[]]; reflexivity. Qed.

Lemma shr_fexp_spec (m e : Z) (l : location) :
  0 <= m ->
  snd (shr_fexp F32.prec F32.emax m e l) = Z.max e (fexp F32.prec F32.emax (Zdigits2 m + e))
  /\ shr_m (fst (shr_fexp F32.prec F32.emax m e l))
     = m / 2 ^ (Z.max e (fexp F32.prec F32.emax (Zdigits2 m + e)) - e).
Proof.
  intros Hm. unfold shr_fexp, shr.
  destruct (fexp F32.prec F32.emax (Zdigits2 m + e) - e) as [|p|p] eqn:E; cbn [fst snd].
  - replace (Z.max e (fexp F32.prec F32.emax (Zdigits2 m + e))) with e by lia.
    rewrite Z.sub_diag, shr_m_shr_record_of_loc. simpl. now rewrite Z.div_1_r.
  - replace (Z.max e (fexp F32.prec F32.emax (Zdigits2 m + e))) with (e + Z.pos p) by lia.
    split; [reflexivity|].
    rewrite iter_pos_nat, shr_m_iter by (rewrite shr_m_shr_record_of_loc; lia).
    rewrite shr_m_shr_record_of_loc, positive_nat_Z. f_equal. f_equal. lia.
  - replace (Z.max e (fexp F32.prec F32.emax (Zdigits2 m + e))) with e by lia.
    rewrite Z.sub_diag, shr_m_shr_record_of_loc. simpl. now rewrite Z.div_1_r.
Qed.

Lemma round_nearest_even_bounds (m : Z) (l : location) :
  m <= round_nearest_even m l <= m + 1.
Proof.
  destruct l as [|[]]; simpl; try lia. destruct (Z.even m); lia.
Qed.

Lemma fexp_eq e : fexp F32.prec F32.emax e = Z.max (e - 24) (-149).
Proof. reflexivity. Qed.

Lemma Zdigits2_upper (m k : Z) : 0 <= m -> 0 <= k -> m < 2 ^ k -> Zdigits2 m <= k.
Proof.
  intros Hm Hk Hlt. destruct m as [|p|p]; simpl; try lia.
  destruct (digits2_pos_bounds p) as [Hlo _].
  destruct (Z_le_gt_dec (Z.pos (digits2_pos p)) k) as [|Hgt]; [assumption|].
  exfalso. assert (2 ^ k <= 2 ^ (Z.pos (digits2_pos p) - 1)) by (apply Z.pow_le_mono_r; lia).
  lia.
Qed.

Lemma binary_round_aux_upper (sx : bool) (mx ex : Z) (lx : location) (K : Z) :
  0 <= mx -> 0 <= ex + K ->
  let e1 := Z.max ex (fexp F32.prec F32.emax (Zdigits2 mx + ex)) in
  e1 <= 0 ->
  mx * 2 ^ (ex + K) + 2 ^ (e1 + K) <= 2 ^ (K + 24) ->
  binary_round_aux F32.prec F32.emax sx mx ex lx = S754_zero sx
  \/ exists m e,
       binary_round_aux F32.prec F32.emax sx mx ex lx = S754_finite sx m e
       /\ ex <= e
       /\ Z.pos m * 2 ^ (e + K) <= mx * 2 ^ (ex + K) + 2 ^ (e1 + K).
Proof.
  intros Hmx HexK e1 He1 Hbound. unfold binary_round_aux.
  destruct (shr_fexp_spec mx ex lx Hmx) as [He' Hm'].
  destruct (shr_fexp F32.prec F32.emax mx ex lx) as [mrs' e']. cbn [fst snd] in He', Hm'.
  fold e1 in He', Hm'. subst e'.
  set (m1 := round_nearest_even (shr_m mrs') (loc_of_shr_record mrs')).
  assert (Hm1 : shr_m mrs' <= m1 <= shr_m mrs' + 1) by apply round_nearest_even_bounds.
  assert (Hpow1 : 0 < 2 ^ (e1 - ex)) by (apply Z.pow_pos_nonneg; lia).
  assert (Hm'0 : 0 <= shr_m mrs') by (rewrite Hm'; apply Z.div_pos; lia).
  assert (Hm10 : 0 <= m1) by lia.
  destruct (shr_fexp_spec m1 e1 loc_Exact Hm10) as [He'' Hm''].
  destruct (shr_fexp F32.prec F32.emax m1 e1 loc_Exact) as [mrs'' e'']. cbn [fst snd] in He'', Hm''.
  (* scaled bounds *)
  assert (HK1 : 0 <= e1 + K) by lia.
  assert (Hs1 : m1 * 2 ^ (e1 + K) <= mx * 2 ^ (ex + K) + 2 ^ (e1 + K)).
  { replace (e1 + K) with ((e1 - ex) + (ex + K)) at 1 by lia.
    rewrite Z.pow_add_r by lia.
    assert (shr_m mrs' * 2 ^ (e1 - ex) <= mx).
    { rewrite Hm'. rewrite Z.mul_comm. apply Z.mul_div_le. lia. }
    assert (0 < 2 ^ (ex + K)) by (apply Z.pow_pos_nonneg; lia).
    replace (2 ^ (e1 + K)) with (2 ^ (e1 - ex) * 2 ^ (ex + K))
      by (rewrite <- Z.pow_add_r by lia; f_equal; lia).
    nia. }
  assert (Hd1 : Zdigits2 m1 + e1 <= 25).
  { assert (m1 < 2 ^ (25 - e1)).
    { assert (0 < 2 ^ (e1 + K)) by (apply Z.pow_pos_nonneg; lia).
      assert (2 ^ (K + 24) < 2 ^ (25 - e1) * 2 ^ (e1 + K)).
      { rewrite <- Z.pow_add_r by lia. apply Z.pow_lt_mono_r; lia. }
      nia. }
    assert (Zdigits2 m1 <= 25 - e1) by (apply Zdigits2_upper; lia). lia. }
  assert (He''2 : e1 <= e'' <= 104).
  { rewrite He'', fexp_eq. lia. }
  assert (Hpow2 : 0 < 2 ^ (e'' - e1)) by (apply Z.pow_pos_nonneg; lia).
  assert (Hm''0 : 0 <= shr_m mrs'') by (rewrite Hm'', <- He''; apply Z.div_pos; lia).
  destruct (shr_m mrs'') as [|m|m] eqn:Em; [left; reflexivity| |lia].
  right. exists m, e''.
  replace (e'' <=? F32.emax - F32.prec) with true by (symmetry; apply Z.leb_le; unfold F32.emax, F32.prec; lia).
  split; [reflexivity|]. split; [lia|].
  rewrite <- He'' in Hm''.
  assert (Z.pos m * 2 ^ (e'' - e1) <= m1).
  { rewrite Hm''. rewrite Z.mul_comm. apply Z.mul_div_le. lia. }
  replace (e'' + K) with ((e'' - e1) + (e1 + K)) by lia.
  rewrite Z.pow_add_r by lia.
  assert (0 < 2 ^ (e1 + K)) by (apply Z.pow_pos_nonneg; lia).
  nia.
Qed.

Lemma FLOAT_FACTOR_10_eq : FLOAT_FACTOR_10 = S754_finite false 10485760 (-20).
Proof. reflexivity. Qed.

Lemma trunc_mag_scaled (m : positive) (e K : Z) :
  0 <= K -> 0 <= e + K -> F32.trunc_mag m e = Z.pos m * 2 ^ (e + K) / 2 ^ K.
Proof.
  intros HK HeK. unfold F32.trunc_mag. destruct (0 <=? e) eqn:E.
  - apply Z.leb_le in E. rewrite Z.pow_add_r by lia.
    rewrite Z.mul_assoc, Z.div_mul; [reflexivity|]. apply Z.pow_nonzero; lia.
  - apply Z.leb_gt in E.
    replace K with ((e + K) + (- e)) at 2 by lia.
    rewrite (Z.pow_add_r 2 (e + K) (- e)) by lia.
    rewrite (Z.mul_comm (Z.pos m)).
    rewrite Z.div_mul_cancel_l; [reflexivity| |].
    + apply Z.pow_nonzero; lia.
    + apply Z.pow_nonzero; lia.
Qed.

Lemma trunc_mag_bound (m : positive) (e K N : Z) :
  0 <= K -> 0 <= e + K ->
  Z.pos m * 2 ^ (e + K) < (N + 1) * 2 ^ K ->
  0 <= F32.trunc_mag m e <= N.
Proof.
  intros HK HeK Hlt. rewrite (trunc_mag_scaled m e K HK HeK).
  assert (0 < 2 ^ K) by (apply Z.pow_pos_nonneg; lia).
  assert (0 <= 2 ^ (e + K)) by (apply Z.pow_nonneg; lia).
  split.
  - apply Z.div_pos; nia.
  - assert (Z.pos m * 2 ^ (e + K) / 2 ^ K < N + 1); [|lia].
    apply Z.div_lt_upper_bound; lia.
Qed.

Lemma round_trunc (s : bool) (mx ex : Z) (lx : location) (V k N : Z) :
  0 <= mx -> -200 <= ex -> ex <= k - 24 -> -125 <= k <= 24 -> N + 1 <= 2 ^ 24 ->
  mx * 2 ^ (ex + 200) <= V ->
  V < 2 ^ (k + 200) ->
  V + 2 ^ (k + 176) < (N + 1) * 2 ^ 200 ->
  binary_round_aux F32.prec F32.emax s mx ex lx = S754_zero s
  \/ exists m' e',
       binary_round_aux F32.prec F32.emax s mx ex lx = S754_finite s m' e'
       /\ 0 <= F32.trunc_mag m' e' <= N.
Proof.
  intros Hmx Hex Hek Hk HN HV HVk HVN.
  assert (Hpos : 0 < 2 ^ (ex + 200)) by (apply Z.pow_pos_nonneg; lia).
  assert (Hdig : Zdigits2 mx + ex <= k).
  { assert (mx < 2 ^ (k - ex)).
    { assert (2 ^ (k + 200) = 2 ^ (k - ex) * 2 ^ (ex + 200)).
      { rewrite <- Z.pow_add_r by lia. f_equal. lia. }
      nia. }
    assert (Zdigits2 mx <= k - ex) by (apply Zdigits2_upper; lia). lia. }
  set (e1 := Z.max ex (fexp F32.prec F32.emax (Zdigits2 mx + ex))).
  assert (He1 : ex <= e1 <= k - 24) by (subst e1; rewrite fexp_eq; lia).
  assert (Hpow : 2 ^ (e1 + 200) <= 2 ^ (k + 176)) by (apply Z.pow_le_mono_r; lia).
  assert (H200 : 0 < 2 ^ 200) by (apply Z.pow_pos_nonneg; lia).
  destruct (binary_round_aux_upper s mx ex lx 200) as [Hz|(m' & e' & Hr & He' & Hb)];
    try lia.
  - fold e1. lia.
  - left. exact Hz.
  - right. exists m', e'. split; [exact Hr|].
    fold e1 in Hb. apply (trunc_mag_bound m' e' 200); lia.
Qed.

Lemma mul10_trunc (s : bool) (m : positive) (e V k N : Z) :
  -149 <= e -> e - 20 <= k - 24 -> -125 <= k <= 24 -> N + 1 <= 2 ^ 24 ->
  Z.pos m * 2 ^ (e + 200) <= V ->
  10 * V < 2 ^ (k + 200) ->
  10 * V + 2 ^ (k + 176) < (N + 1) * 2 ^ 200 ->
  F32.mul (S754_finite s m e) FLOAT_FACTOR_10 = S754_zero s
  \/ exists m' e',
       F32.mul (S754_finite s m e) FLOAT_FACTOR_10 = S754_finite s m' e'
       /\ 0 <= F32.trunc_mag m' e' <= N.
Proof.
  intros He Hek Hk HN HV HV10 HVN. rewrite FLOAT_FACTOR_10_eq. unfold F32.mul, SFmul.
  rewrite xorb_false_r.
  apply (round_trunc s _ _ loc_Exact (10 * V) k N); try lia.
  rewrite Pos2Z.inj_mul.
  replace (e + 200) with (20 + (e + -20 + 200)) in HV by lia.
  rewrite (Z.pow_add_r 2 20) in HV by lia. change (2 ^ 20) with 1048576 in HV. lia.
Qed.

Lemma div10_trunc (s : bool) (m : positive) (e W k N : Z) :
  -149 <= e <= k + 4 -> -125 <= k <= 24 -> N + 1 <= 2 ^ 24 ->
  Z.pos m * 2 ^ (e + 200) <= 10 * W ->
  W < 2 ^ (k + 200) ->
  W + 2 ^ (k + 176) < (N + 1) * 2 ^ 200 ->
  F32.div (S754_finite s m e) FLOAT_FACTOR_10 = S754_zero s
  \/ exists m' e',
       F32.div (S754_finite s m e) FLOAT_FACTOR_10 = S754_finite s m' e'
       /\ 0 <= F32.trunc_mag m' e' <= N.
Proof.
  intros He Hk HN HW HWk HWN. rewrite FLOAT_FACTOR_10_eq.
  unfold F32.div, SFdiv, SFdiv_core_binary.
  rewrite xorb_false_r.
  change (Zdigits2 10485760) with 24.
  set (d1 := Zdigits2 (Z.pos m)).
  set (e' := Z.min (fexp F32.prec F32.emax (d1 + e - (24 + -20))) (e - -20)).
  set (sh := e - -20 - e').
  assert (Hd1 : d1 + e <= k + 4).
  { assert (Z.pos m < 2 ^ (k + 4 - e)).
    { assert (0 < 2 ^ (e + 200)) by (apply Z.pow_pos_nonneg; lia).
      assert (2 ^ (k + 204) = 2 ^ (k + 4 - e) * 2 ^ (e + 200)).
      { rewrite <- Z.pow_add_r by lia. f_equal. lia. }
      assert (2 ^ (k + 204) = 16 * 2 ^ (k + 200)).
      { replace (k + 204) with (4 + (k + 200)) by lia.
        rewrite Z.pow_add_r by lia. reflexivity. }
      nia. }
    assert (d1 <= k + 4 - e) by (apply Zdigits2_upper; lia). lia. }
  assert (He' : -149 <= e' <= k - 24) by (subst e'; rewrite fexp_eq; lia).
  assert (Hsh : 0 <= sh) by (subst sh e'; lia).
  assert (Hm' : match sh with
                | Z.pos _ => Z.shiftl (Z.pos m) sh
                | 0 => Z.pos m
                | Z.neg _ => 0
                end = Z.pos m * 2 ^ sh).
  { destruct sh as [|p|p] eqn:E; [simpl; lia | | lia].
    rewrite Z.shiftl_mul_pow2 by lia. reflexivity. }
  rewrite Hm'.
  assert (Hpsh : 0 < 2 ^ sh) by (apply Z.pow_pos_nonneg; lia).
  pose proof (Z_div_mod (Z.pos m * 2 ^ sh) 10485760 eq_refl) as Hdiv.
  destruct (Z.div_eucl (Z.pos m * 2 ^ sh) 10485760) as [q r].
  destruct Hdiv as [Hq Hr].
  assert (Hq0 : 0 <= q) by nia.
  apply (round_trunc s q e' _ W k N); try lia.
  assert (Hp' : 0 < 2 ^ (e' + 200)) by (apply Z.pow_pos_nonneg; lia).
  assert (Hsplit : 2 ^ sh * 2 ^ (e' + 200) = 1048576 * 2 ^ (e + 200)).
  { rewrite <- Z.pow_add_r by lia. replace (sh + (e' + 200)) with (20 + (e + 200))
      by (subst sh; lia).
    rewrite Z.pow_add_r by lia. reflexivity. }
  nia.
Qed.

(** ** Range of the digits *)

Lemma valid_finite_bounds (s : bool) (m : positive) (e : Z) :
  F32.valid (S754_finite s m e) = true -> -149 <= e /\ Z.pos m < 2 ^ 24.
Proof.
  unfold F32.valid, valid_binary, bounded, canonical_mantissa. intros H.
  apply andb_true_iff in H. destruct H as [H _]. apply Z.eqb_eq in H.
  rewrite fexp_eq in H. destruct (digits2_pos_bounds m) as [_ Hhi].
  assert (Z.pos (digits2_pos m) <= 24) by lia.
  assert (2 ^ Z.pos (digits2_pos m) <= 2 ^ 24) by (apply Z.pow_le_mono_r; lia).
  lia.
Qed.

(** Comparison of magnitudes, read on the scaled integers. *)
Lemma magnitude_le (m : positive) (e : Z) (M0 : positive) (E0 : Z) :
  Z.pos m < 2 ^ 24 -> -149 <= e -> -149 <= E0 -> 2 ^ 23 <= Z.pos M0 ->
  match e ?= E0 with
  | Lt => Lt
  | Gt => Gt
  | Eq => Pos.compare_cont Eq m M0
  end <> Gt ->
  e <= E0 /\ Z.pos m * 2 ^ (e + 200) <= Z.pos M0 * 2 ^ (E0 + 200).
Proof.
  intros Hm He HE0 HM0 Hcmp.
  destruct (Z.compare_spec e E0) as [Heq|Hlt|Hgt]; [| |congruence].
  - subst E0. split; [lia|].
    assert (Pos.le m M0) by exact Hcmp.
    assert (0 < 2 ^ (e + 200)) by (apply Z.pow_pos_nonneg; lia).
    assert (Z.pos m <= Z.pos M0) by lia. nia.
  - split; [lia|].
    assert (0 < 2 ^ (e + 200)) by (apply Z.pow_pos_nonneg; lia).
    assert (2 * 2 ^ (e + 200) <= 2 ^ (E0 + 200)).
    { rewrite <- Z.pow_succ_r by lia. apply Z.pow_le_mono_r; lia. }
    change (2 ^ 24) with (2 * 2 ^ 23) in Hm. nia.
Qed.

Lemma MAX_ANGLE_DEG_eq : MAX_ANGLE_DEG = S754_finite false 11796480 (-17).
Proof. reflexivity. Qed.

Lemma MIN_ANGLE_DEG_eq : MIN_ANGLE_DEG = S754_finite true 11796480 (-17).
Proof. reflexivity. Qed.

Lemma NEG_THRESHOLD_eq : NEG_THRESHOLD = S754_finite true 13421773 (-28).
Proof. reflexivity. Qed.

(** A finite angle of magnitude at most 90. *)
Lemma digits_of_magnitude_90 (m : positive) (e : Z) :
  -149 <= e <= -17 ->
  Z.pos m * 2 ^ (e + 200) <= 90 * 2 ^ 200 ->
  0 <= F32.trunc (F32.div (S754_finite false m e) FLOAT_FACTOR_10) <= 9
  /\ 0 <= F32.trunc (S754_finite false m e) <= 90
  /\ 0 <= F32.trunc (F32.mul (S754_finite false m e) FLOAT_FACTOR_10) <= 900.
Proof.
  intros He Hmag. split; [|split].
  - destruct (div10_trunc false m e (9 * 2 ^ 200) 4 9) as [Hz|(m' & e' & Hr & Hb)];
      try lia.
    + rewrite Hz. simpl. lia.
    + rewrite Hr. exact Hb.
  - simpl. apply (trunc_mag_bound m e 200); lia.
  - destruct (mul10_trunc false m e (90 * 2 ^ 200) 10 900) as [Hz|(m' & e' & Hr & Hb)];
      try lia.
    + rewrite Hz. simpl. lia.
    + rewrite Hr. exact Hb.
Qed.

(** A negative angle of magnitude at most that of the threshold: every
    conversion gives 0. *)
Lemma digits_of_small_negative (m : positive) (e : Z) :
  -149 <= e <= -28 ->
  Z.pos m * 2 ^ (e + 200) <= 13421773 * 2 ^ 172 ->
  F32.trunc (F32.div (S754_finite true m e) FLOAT_FACTOR_10) = 0
  /\ F32.trunc (S754_finite true m e) = 0
  /\ F32.trunc (F32.mul (S754_finite true m e) FLOAT_FACTOR_10) = 0.
Proof.
  intros He Hmag. split; [|split].
  - destruct (div10_trunc true m e (1342178 * 2 ^ 172) (-7) 0) as [Hz|(m' & e' & Hr & Hb)];
      try lia.
    + rewrite Hz. reflexivity.
    + rewrite Hr. simpl. lia.
  - simpl. assert (0 <= F32.trunc_mag m e <= 0); [|lia].
    apply (trunc_mag_bound m e 200); lia.
  - destruct (mul10_trunc true m e (13421773 * 2 ^ 172) 0 0) as [Hz|(m' & e' & Hr & Hb)];
      try lia.
    + rewrite Hz. reflexivity.
    + rewrite Hr. simpl. lia.
Qed.

Lemma negative_leb_magnitude (M0 : positive) (E0 : Z) (m : positive) (e : Z) :
  SFleb (S754_finite true M0 E0) (S754_finite true m e) = true ->
  match e ?= E0 with
  | Lt => Lt
  | Gt => Gt
  | Eq => Pos.compare_cont Eq m M0
  end <> Gt.
Proof.
  unfold SFleb, SFcompare. rewrite (Z.compare_antisym e E0).
  destruct (e ?= E0); simpl; try discriminate.
  rewrite Pos.compare_cont_antisym. simpl.
  destruct (Pos.compare_cont Eq m M0); simpl; discriminate.
Qed.

Lemma positive_leb_magnitude (M0 : positive) (E0 : Z) (m : positive) (e : Z) :
  SFleb (S754_finite false m e) (S754_finite false M0 E0) = true ->
  match e ?= E0 with
  | Lt => Lt
  | Gt => Gt
  | Eq => Pos.compare_cont Eq m M0
  end <> Gt.
Proof.
  unfold SFleb, SFcompare.
  destruct (e ?= E0); simpl; try discriminate.
  destruct (Pos.compare_cont Eq m M0); simpl; discriminate.
Qed.

(** The angle the digits are taken from, for an accepted request: zero, or
    positive with magnitude at most 90, or negative with magnitude at most
    that of the threshold. *)
Lemma sign_normalized_cases (a : spec_float) :
  F32.valid a = true -> angle_in_range a = true ->
  (exists s, sign_normalized a = S754_zero s)
  \/ (exists m e, sign_normalized a = S754_finite false m e
                  /\ -149 <= e <= -17
                  /\ Z.pos m * 2 ^ (e + 200) <= 90 * 2 ^ 200)
  \/ (exists m e, sign_normalized a = S754_finite true m e
                  /\ -149 <= e <= -28
                  /\ Z.pos m * 2 ^ (e + 200) <= 13421773 * 2 ^ 172).
Proof.
  intros Hvalid Hrange. unfold angle_in_range in Hrange.
  apply andb_true_iff in Hrange. destruct Hrange as [Hmin Hmax].
  destruct a as [s|s| |s m e].
  - left. exists s. now destruct s.
  - destruct s; discriminate.
  - discriminate.
  - right. destruct (valid_finite_bounds s m e Hvalid) as [He Hm].
    unfold sign_normalized. destruct s.
    + (* negative *)
      rewrite MIN_ANGLE_DEG_eq in Hmin. unfold F32.leb in Hmin.
      destruct (magnitude_le m e 11796480 (-17) Hm He ltac:(lia) ltac:(lia)
                  (negative_leb_magnitude _ _ _ _ Hmin)) as [He17 Hmag].
      destruct (F32.ltb (S754_finite true m e) NEG_THRESHOLD) eqn:Hlt.
      * left. exists m, e. repeat split; lia.
      * right. exists m, e.
        assert (Hle : F32.leb NEG_THRESHOLD (S754_finite true m e) = true).
        { unfold F32.ltb in Hlt. unfold F32.leb.
          rewrite (SFltb_negb_SFleb NEG_THRESHOLD (S754_finite true m e)) in Hlt
            by discriminate.
          now apply negb_false_iff in Hlt. }
        rewrite NEG_THRESHOLD_eq in Hle. unfold F32.leb in Hle.
        destruct (magnitude_le m e 13421773 (-28) Hm He ltac:(lia) ltac:(lia)
                    (negative_leb_magnitude _ _ _ _ Hle)) as [He28 Hmag'].
        repeat split; lia.
    + (* positive *)
      left. exists m, e. split; [reflexivity|].
      rewrite MAX_ANGLE_DEG_eq in Hmax. unfold F32.leb in Hmax.
      destruct (magnitude_le m e 11796480 (-17) Hm He ltac:(lia) ltac:(lia)
                  (positive_leb_magnitude _ _ _ _ Hmax)) as [He17 Hmag].
      split; lia.
Qed.

(** For every accepted angle the three conversions of [stPrintingAngle]
    are defined (the integer part fits the target type) and give a decimal
    digit: tens in 0..9, integer part in 0..90, ten times the angle in
    0..900. *)
Lemma charIndexes_range (a : spec_float) :
  F32.valid a = true -> angle_in_range a = true ->
  0 <= F32.trunc (F32.div (sign_normalized a) FLOAT_FACTOR_10) <= 9
  /\ 0 <= F32.trunc (sign_normalized a) <= 90
  /\ 0 <= F32.trunc (F32.mul (sign_normalized a) FLOAT_FACTOR_10) <= 900.
Proof.
  intros Hvalid Hrange.
  destruct (sign_normalized_cases a Hvalid Hrange)
    as [(s & ->)|[(m & e & -> & He & Hmag)|(m & e & -> & He & Hmag)]].
  - destruct s; vm_compute; repeat split; discriminate.
  - apply digits_of_magnitude_90; assumption.
  - destruct (digits_of_small_negative m e He Hmag) as (-> & -> & ->). lia.
Qed.

(** ** The code's digits and the specification's slots *)

Lemma sign_normalized_normalized (a : spec_float) :
  a <> S754_nan ->
  sign_normalized a = normalized a
  /\ (if F32.ltb a NEG_THRESHOLD then INDEX_MINUS else INDEX_PLUS) = sign_slot a.
Proof.
  intros Ha. unfold sign_normalized, normalized, sign_slot, F32.ltb, F32.leb.
  rewrite (SFltb_negb_SFleb NEG_THRESHOLD a) by (assumption || discriminate).
  destruct (SFleb NEG_THRESHOLD a); split; reflexivity.
Qed.

Lemma angle_in_range_not_nan (a : spec_float) : angle_in_range a = true -> a <> S754_nan.
Proof.
  intros H. apply andb_true_iff in H. destruct H as [H _].
  exact (SFleb_not_nan_r _ _ H).
Qed.

(** For an accepted angle the array [charIndexes] built by the code is the
    list of slots with the integer parts taken by truncation: no
    conversion to [uint8_t] or [uint16_t] loses anything. *)
Lemma charIndexes_of_slots (a : spec_float) :
  F32.valid a = true -> angle_in_range a = true ->
  charIndexes_of a = slots_trunc a.
Proof.
  intros Hvalid Hrange.
  destruct (charIndexes_range a Hvalid Hrange) as (Htens & Hunits & Htenths).
  destruct (sign_normalized_normalized a (angle_in_range_not_nan a Hrange)) as [Hn Hs].
  unfold charIndexes_of, slots_trunc, slots_with. rewrite <- Hn, Hs.
  unfold float_to_uint8, float_to_uint16, to_uint8, to_uint16, INT_FACTOR_10.
  rewrite (Z.mod_small (F32.trunc (F32.div _ _)) 256) by lia.
  rewrite (Z.mod_small (F32.trunc (sign_normalized a)) 256) by lia.
  rewrite (Z.mod_small (F32.trunc (F32.mul _ _)) 65536) by lia.
  rewrite (Z.mod_small (_ mod 10) 256)
    by (pose proof (Z.mod_pos_bound (F32.trunc (sign_normalized a)) 10); lia).
  rewrite (Z.mod_small (_ mod 10) 256)
    by (pose proof (Z.mod_pos_bound
                      (F32.trunc (F32.mul (sign_normalized a) FLOAT_FACTOR_10)) 10); lia).
  reflexivity.
Qed.

(** Every slot of an accepted angle is the index of a glyph of the table. *)
Lemma slots_in_table (a : spec_float) :
  F32.valid a = true -> angle_in_range a = true ->
  Forall (fun glyph => 0 <= glyph < NB_NUMBERS) (slots_trunc a).
Proof.
  intros Hvalid Hrange.
  destruct (charIndexes_range a Hvalid Hrange) as (Htens & Hunits & Htenths).
  destruct (sign_normalized_normalized a (angle_in_range_not_nan a Hrange)) as [Hn _].
  rewrite Hn in Htens, Hunits, Htenths.
  unfold slots_trunc, slots_with, sign_slot, NB_NUMBERS, INDEX_PLUS, INDEX_MINUS,
    INDEX_DOT, INDEX_DEG.
  pose proof (Z.mod_pos_bound (F32.trunc (normalized a)) 10).
  pose proof (Z.mod_pos_bound (F32.trunc (F32.mul (normalized a) FLOAT_FACTOR_10)) 10).
  repeat constructor; try lia; destruct (F32.leb NEG_THRESHOLD a); lia.
Qed.

Lemma buffer_pages_payload (charIndexes : list Z) :
  buffer_pages charIndexes VERDANA_NB_PAGES = glyph_table_payload charIndexes.
Proof.
  unfold buffer_pages, glyph_table_payload, page_characters, page_columns.
  apply flat_map_ext. intros page. apply flat_map_ext. intros char_idx.
  apply map_ext. intros col. f_equal. unfold VERDANA_CHAR_WIDTH. lia.
Qed.

Lemma length_glyph_table_payload (slot : list Z) :
  length (glyph_table_payload slot) = 132%nat.
Proof.
  rewrite <- buffer_pages_payload, length_buffer_pages; [reflexivity|].
  unfold VERDANA_NB_PAGES. lia.
Qed.

Lemma take_list_inserts (l buf : list Z) :
  (length l <= length buf)%nat -> take (length l) (list_inserts 0 l buf) = l.
Proof.
  intros Hlen. rewrite <- (take_drop (length l) buf) at 1.
  rewrite list_inserts_0_r by (rewrite length_take; lia).
  apply take_app_length.
Qed.

(** ** The sign slot *)

Lemma literal_5_100_eq : F32.literal 5 100 = S754_finite false 13421773 (-28).
Proof. vm_compute. reflexivity. Qed.

(** An angle of magnitude below 0.05 is not below the threshold. *)
Lemma abs_below_threshold (a : spec_float) :
  F32.ltb (F32.abs a) (F32.literal 5 100) = true -> F32.leb NEG_THRESHOLD a = true.
Proof.
  rewrite literal_5_100_eq, NEG_THRESHOLD_eq.
  unfold F32.ltb, F32.leb, F32.abs, SFltb, SFleb.
  destruct a as [s|s| |s ma ea]; cbn [SFabs SFcompare]; try discriminate.
  - now destruct s.
  - destruct s; [|reflexivity].
    rewrite (Z.compare_antisym ea (-28)).
    destruct (ea ?= -28); cbn [CompOpp]; try discriminate; try reflexivity.
    rewrite Pos.compare_cont_antisym. cbn [CompOpp].
    destruct (Pos.compare_cont Eq ma 13421773); cbn [CompOpp]; try discriminate;
      reflexivity.
Qed.

(** ** The payload *)

(** C3, as stated, fails.  The claim takes the digits with the floor.  For
    the accepted angle -0.03 the sign slot is '+' and the angle is not
    negated; the code converts by truncation and gets the digits 0, 0, 0
    (scenario 3 of section 8: "+00.0"), the floor gives -1, 9, 9, and the
    bytes that the rasterizing tick leaves in the buffer are not those of
    the glyphs selected by the floor. *)
Lemma payload_floor_counterexample :
  let a := F32.opp (F32.literal 3 100) in
  let m' := snd (SSD1306update hal_all_ok (latch a 0 0 idle_machine)) in
  F32.valid a = true
  /\ angle_in_range a = true
  /\ fst (angle_charIndexes (latch a 0 0 idle_machine)) = [11; 0; 0; 10; 0; 13]
  /\ slots_floor a = [11; -1; 9; 10; 9; 13]
  /\ take 132 (_screenBuffer m') <> glyph_table_payload (slots_floor a).
Proof.
  vm_compute. split; [reflexivity|]. split; [reflexivity|]. split; [reflexivity|].
  split; [reflexivity|]. discriminate.
Qed.

(** C3, amended.  For a latched request (a, page, column) with a a binary32
    value of [-90.0, +90.0], the rasterizing tick leaves at the start of
    the frame buffer exactly 132 payload bytes, in the order page, then
    character, then column: [glyph_table[slot[char]][page*11 + col]] for
    page in 0..2, char in 0..6, col in 0..11, where the six slots are
    [sign, trunc(a'/10), trunc(a') mod 10, '.', trunc(a'*10) mod 10,
    degree], a' is the sign-normalized angle, a'/10 and a'*10 are the
    binary32 quotient and product and trunc converts to an integer by
    truncation toward zero.  Every slot is the index of a glyph of the
    table.  Once the COLUMN_ADDRESS command has gone through, the DMA
    transfer is launched on these 132 bytes with length 132. *)
Theorem rasterized_payload (hal : hal_env) (a : spec_float) (page column : Z)
    (m0 : machine) :
  F32.valid a = true ->
  angle_in_range a = true ->
  length (_screenBuffer m0) = 1024%nat ->
  Transmit_status hal (nb_Transmit m0) = HAL_OK ->
  Transmit_status hal (S (nb_Transmit m0)) = HAL_OK ->
  let m' := snd (SSD1306update hal (latch a page column m0)) in
  let payload := glyph_table_payload (slots_trunc a) in
  length payload = 132%nat
  /\ Forall (fun glyph => 0 <= glyph < NB_NUMBERS) (slots_trunc a)
  /\ take 132 (_screenBuffer m') = payload
  /\ last (calls m')
     = Some (SPI_Transmit_DMA (TxBytes payload) 132
                              (Transmit_DMA_status hal (nb_Transmit_DMA m0))).
Proof.
  intros Hvalid Hrange Hlen H0 H1 m' payload. subst payload.
  assert (Hbuffer : take 132 (_screenBuffer (rasterized (latch a page column m0)))
                    = glyph_table_payload (slots_trunc a)).
  { unfold rasterized, filled. cbn [_screenBuffer set_nextPage set_nextColumn
      set_screenBuffer set_nextAngle latch set_state _nextAngle].
    rewrite buffer_pages_payload, (charIndexes_of_slots a Hvalid Hrange).
    rewrite <- (length_glyph_table_payload (slots_trunc a)) at 1.
    apply take_list_inserts. rewrite length_glyph_table_payload, Hlen. lia. }
  split; [apply length_glyph_table_payload|].
  split; [apply slots_in_table; assumption|].
  subst m'. rewrite update_printing by reflexivity.
  rewrite (stPrintingAngle_column_success hal (latch a page column m0) H0 H1).
  change (nb_Transmit_DMA (latch a page column m0)) with (nb_Transmit_DMA m0).
  change (Z.to_nat payload_size) with 132%nat. change payload_size with 132.
  rewrite Hbuffer.
  destruct (is_HAL_OK (Transmit_DMA_status hal (nb_Transmit_DMA m0)));
    cbn [snd]; autorewrite with frame; rewrite last_snoc; (split; [exact Hbuffer|reflexivity]).
Qed.

(** Scenario 1 of section 8: [print_angle(+12.3, page=2, column=10)], slots
    ['+', 1, 2, '.', 3, degree]. *)
Lemma rasterized_payload_witness :
  let a := F32.literal 123 10 in
  let m' := snd (SSD1306update hal_all_ok (latch a 2 10 idle_machine)) in
  let payload := glyph_table_payload (slots_trunc a) in
  length payload = 132%nat
  /\ Forall (fun glyph => 0 <= glyph < NB_NUMBERS) (slots_trunc a)
  /\ take 132 (_screenBuffer m') = payload
  /\ last (calls m')
     = Some (SPI_Transmit_DMA (TxBytes payload) 132
                              (Transmit_DMA_status hal_all_ok (nb_Transmit_DMA idle_machine))).
Proof.
  exact (rasterized_payload hal_all_ok (F32.literal 123 10) 2 10 idle_machine
           eq_refl eq_refl eq_refl eq_refl eq_refl).
Defined.

Example scenario_1_slots : slots_trunc (F32.literal 123 10) = [11; 1; 2; 10; 3; 13].
Proof. reflexivity. Qed.

(** * The transport functions in every outcome *)

(** ** [SSD1306sendCommand] *)

Lemma sendCommand_null_eq (hal : hal_env) (regNumber : SSD1306register_e) (n : Z)
    (m : machine) :
  n <= MAX_PARAMETERS ->
  SSD1306sendCommand hal regNumber None n m =
    (command_code 0 (Transmit_status hal (nb_Transmit m)) HAL_OK,
     after_calls (command_calls regNumber [] 0 (Transmit_status hal (nb_Transmit m)) HAL_OK) m).
Proof.
  intros Hn. unfold SSD1306sendCommand.
  replace (MAX_PARAMETERS <? n) with false by (symmetry; apply Z.ltb_ge; lia).
  unfold command_code, command_calls, is_HAL_OK, bind, ret. cbn.
  destruct (Transmit_status hal (nb_Transmit m)); reflexivity.
Qed.

Lemma lines_after_command (regNumber : SSD1306register_e) (params : list Z) (n : Z)
    (s1 s2 : HAL_StatusTypeDef) (m : machine) :
  DC (after_calls (command_calls regNumber params n s1 s2) m) = GPIO_PIN_RESET
  /\ RST (after_calls (command_calls regNumber params n s1 s2) m) = RST m
  /\ driver_variables (after_calls (command_calls regNumber params n s1 s2) m)
     = driver_variables m.
Proof.
  unfold command_calls. destruct (is_HAL_OK s1 && negb (n =? 0)); repeat split.
Qed.

Lemma nb_Transmit_after_command (regNumber : SSD1306register_e) (params : list Z) (n : Z)
    (s1 s2 : HAL_StatusTypeDef) (m : machine) :
  nb_Transmit (after_calls (command_calls regNumber params n s1 s2) m)
  = Nat.add (if is_HAL_OK s1 && negb (n =? 0) then 2%nat else 1%nat) (nb_Transmit m).
Proof.
  unfold command_calls. destruct (is_HAL_OK s1 && negb (n =? 0)); reflexivity.
Qed.

(** X1. A command with more than six parameters is refused with the
    TooManyParameters warning before anything is done: no line is driven,
    nothing is transmitted, the machine is the same.  This holds for a null
    parameter pointer too. *)
Theorem sendCommand_too_many_parameters (hal : hal_env) (regNumber : SSD1306register_e)
    (parameters : option (list Z)) (n : Z) (m : machine) :
  MAX_PARAMETERS < n ->
  SSD1306sendCommand hal regNumber parameters n m = (TooManyParameters, m).
Proof.
  intros Hn. unfold SSD1306sendCommand.
  apply Z.ltb_lt in Hn. rewrite Hn. reflexivity.
Qed.

Lemma sendCommand_too_many_parameters_witness :
  SSD1306sendCommand hal_all_ok COLUMN_ADDRESS (Some [0; 1; 2; 3; 4; 5; 6]) 7 idle_machine
    = (TooManyParameters, idle_machine)
  /\ SSD1306sendCommand hal_all_ok DISPLAY_ON None 255 idle_machine
    = (TooManyParameters, idle_machine).
Proof.
  split.
  - exact (sendCommand_too_many_parameters hal_all_ok COLUMN_ADDRESS
             (Some [0; 1; 2; 3; 4; 5; 6]) 7 idle_machine eq_refl).
  - exact (sendCommand_too_many_parameters hal_all_ok DISPLAY_ON None 255 idle_machine
             eq_refl).
Defined.

(** X2. A command that passes the parameter-count test returns, whatever
    the HAL answers to its transmissions and whether the parameter pointer
    is null or not, with the chip released and the D/C line low, and it
    touches neither the reset line nor any variable of the driver (deadline,
    state, frame buffer, latched request). *)
Theorem sendCommand_releases_chip (hal : hal_env) (regNumber : SSD1306register_e)
    (parameters : option (list Z)) (n : Z) (m : machine) :
  n <= MAX_PARAMETERS ->
  let m' := snd (SSD1306sendCommand hal regNumber parameters n m) in
  CS m' = GPIO_PIN_SET
  /\ DC m' = GPIO_PIN_RESET
  /\ RST m' = RST m
  /\ driver_variables m' = driver_variables m.
Proof.
  intros Hn m'. subst m'.
  destruct parameters as [params|];
    [rewrite sendCommand_eq by exact Hn | rewrite sendCommand_null_eq by exact Hn];
    cbn [snd]; (split; [apply CS_after_command | apply lines_after_command]).
Qed.

Lemma sendCommand_releases_chip_witness :
  let m := power_on GPIO_PIN_RESET GPIO_PIN_SET GPIO_PIN_RESET in
  let m' := snd (SSD1306sendCommand hal_page_address_fails COLUMN_ADDRESS (Some [3; 68]) 2 m) in
  CS m' = GPIO_PIN_SET
  /\ DC m' = GPIO_PIN_RESET
  /\ RST m' = RST m
  /\ driver_variables m' = driver_variables m.
Proof.
  exact (sendCommand_releases_chip hal_page_address_fails COLUMN_ADDRESS (Some [3; 68]) 2
           (power_on GPIO_PIN_RESET GPIO_PIN_SET GPIO_PIN_RESET) ltac:(unfold MAX_PARAMETERS; lia)).
Defined.

(** X3. What [SSD1306sendCommand] transmits and returns.  The register
    byte is always transmitted first.  If that fails, the parameters are
    not transmitted and the error of the register byte is returned with the
    status of the HAL.  The parameters are transmitted, in one call, only
    when the pointer is not null and the count is not 0; a failure there is
    returned as the parameter error.  In every other case the call
    succeeds.  One or two transmissions are made, never more, and the
    parameters handed to the HAL are the first [nbParameters] bytes of the
    array. *)
Theorem sendCommand_transmissions (hal : hal_env) (regNumber : SSD1306register_e)
    (parameters : option (list Z)) (n : Z) (m : machine) :
  n <= MAX_PARAMETERS ->
  let s1 := Transmit_status hal (nb_Transmit m) in
  let s2 := Transmit_status hal (S (nb_Transmit m)) in
  let with_parameters := negb (is_null parameters) && negb (n =? 0) in
  let r := SSD1306sendCommand hal regNumber parameters n m in
  fst r = (if negb (is_HAL_OK s1) then CommandTxFailed s1
           else if with_parameters && negb (is_HAL_OK s2) then ParameterTxFailed s2
           else ERR_SUCCESS)
  /\ nb_Transmit (snd r)
     = Nat.add (if is_HAL_OK s1 && with_parameters then 2%nat else 1%nat) (nb_Transmit m)
  /\ nth_error (calls (snd r)) (length (calls m) + 2)
     = Some (SPI_Transmit (TxRegister regNumber) 1 s1)
  /\ (is_HAL_OK s1 && with_parameters = true ->
      nth_error (calls (snd r)) (length (calls m) + 3)
      = Some (SPI_Transmit (TxBytes (take (Z.to_nat n) (default [] parameters))) n s2)).
Proof.
  intros Hn s1 s2 with_parameters r. subst r with_parameters.
  destruct parameters as [params|]; cbn [is_null negb andb default].
  - rewrite sendCommand_eq by exact Hn. cbn [fst snd]. fold s1 s2.
    rewrite nb_Transmit_after_command, calls_after_calls.
    split; [reflexivity|]. split; [reflexivity|].
    split.
    + rewrite nth_error_app2 by lia.
      replace (length (calls m) + 2 - length (calls m))%nat with 2%nat by lia.
      reflexivity.
    + intros Hsent. rewrite nth_error_app2 by lia.
      replace (length (calls m) + 3 - length (calls m))%nat with 3%nat by lia.
      unfold command_calls. rewrite Hsent. reflexivity.
  - rewrite sendCommand_null_eq by exact Hn. cbn [fst snd]. fold s1.
    rewrite nb_Transmit_after_command, calls_after_calls.
    rewrite andb_false_r. unfold command_code. cbn.
    rewrite andb_false_r.
    split; [reflexivity|]. split; [reflexivity|].
    split; [|discriminate].
    rewrite nth_error_app2 by lia.
    replace (length (calls m) + 2 - length (calls m))%nat with 2%nat by lia.
    reflexivity.
Qed.

(** The register byte of PAGE_ADDRESS fails: one transmission, the
    parameters are not sent. *)
Lemma sendCommand_transmissions_witness :
  let hal := hal_page_address_fails in
  let m := snd (SSD1306sendCommand hal COLUMN_ADDRESS (Some [3; 68]) 2 idle_machine) in
  let s1 := Transmit_status hal (nb_Transmit m) in
  let s2 := Transmit_status hal (S (nb_Transmit m)) in
  let with_parameters := negb (is_null (Some [2; 3])) && negb (2 =? 0) in
  let r := SSD1306sendCommand hal PAGE_ADDRESS (Some [2; 3]) 2 m in
  fst r = (if negb (is_HAL_OK s1) then CommandTxFailed s1
           else if with_parameters && negb (is_HAL_OK s2) then ParameterTxFailed s2
           else ERR_SUCCESS)
  /\ nb_Transmit (snd r)
     = Nat.add (if is_HAL_OK s1 && with_parameters then 2%nat else 1%nat) (nb_Transmit m)
  /\ nth_error (calls (snd r)) (length (calls m) + 2)
     = Some (SPI_Transmit (TxRegister PAGE_ADDRESS) 1 s1)
  /\ (is_HAL_OK s1 && with_parameters = true ->
      nth_error (calls (snd r)) (length (calls m) + 3)
      = Some (SPI_Transmit (TxBytes (take (Z.to_nat 2) (default [] (Some [2; 3])))) 2 s2)).
Proof.
  apply (sendCommand_transmissions hal_page_address_fails PAGE_ADDRESS (Some [2; 3]) 2
           (snd (SSD1306sendCommand hal_page_address_fails COLUMN_ADDRESS (Some [3; 68]) 2
                   idle_machine))).
  unfold MAX_PARAMETERS. lia.
Defined.

(** In that run the register byte of PAGE_ADDRESS is refused and its
    parameters are not sent. *)
Example sendCommand_register_refused :
  let hal := hal_page_address_fails in
  let m := snd (SSD1306sendCommand hal COLUMN_ADDRESS (Some [3; 68]) 2 idle_machine) in
  let r := SSD1306sendCommand hal PAGE_ADDRESS (Some [2; 3]) 2 m in
  fst r = CommandTxFailed HAL_ERROR /\ nb_Transmit (snd r) = S (nb_Transmit m).
Proof. vm_compute. split; reflexivity. Qed.

(** ** [SSD1306sendData] *)

(** X4. A data transfer that passes the two guards (buffer not null, size
    from 1 to 1024) is one transaction: D/C high, chip selected, the first
    [size] bytes of the buffer in one blocking transmission, chip released.
    The chip is released whether the transmission went through or not; the
    call returns success in the first case and the data error, with the
    status of the HAL, in the second.  The variables of the driver are not
    touched. *)
Theorem sendData_transaction (hal : hal_env) (bytes : list Z) (size : Z) (m : machine) :
  0 < size <= MAX_DATA_SIZE ->
  let status := Transmit_status hal (nb_Transmit m) in
  let r := SSD1306sendData hal (Some bytes) size m in
  fst r = (if is_HAL_OK status then ERR_SUCCESS else DataTxFailed status)
  /\ calls (snd r) =
       calls m ++ [ GPIO_WritePin SSD1306_DC_Pin GPIO_PIN_SET;
                    GPIO_WritePin SSD1306_CS_Pin GPIO_PIN_RESET;
                    SPI_Transmit (TxBytes (take (Z.to_nat size) bytes)) size status;
                    GPIO_WritePin SSD1306_CS_Pin GPIO_PIN_SET ]
  /\ CS (snd r) = GPIO_PIN_SET
  /\ DC (snd r) = GPIO_PIN_SET
  /\ driver_variables (snd r) = driver_variables m.
Proof.
  intros Hsize status r. subst r. unfold SSD1306sendData.
  replace (size =? 0) with false by (symmetry; apply Z.eqb_neq; lia).
  replace (MAX_DATA_SIZE <? size) with false by (symmetry; apply Z.ltb_ge; lia).
  unfold bind, HAL_SPI_Transmit. cbn. fold status. unfold is_HAL_OK.
  destruct status; cbn; rewrite <- !app_assoc; repeat split.
Qed.

Lemma sendData_transaction_witness :
  let hal := hal_page_address_fails in
  let m := snd (SSD1306sendCommand hal COLUMN_ADDRESS (Some [3; 68]) 2 idle_machine) in
  let r := SSD1306sendData hal (Some [1; 2; 3; 4]) 3 m in
  fst r = DataTxFailed HAL_ERROR
  /\ calls (snd r) =
       calls m ++ [ GPIO_WritePin SSD1306_DC_Pin GPIO_PIN_SET;
                    GPIO_WritePin SSD1306_CS_Pin GPIO_PIN_RESET;
                    SPI_Transmit (TxBytes [1; 2; 3]) 3 HAL_ERROR;
                    GPIO_WritePin SSD1306_CS_Pin GPIO_PIN_SET ]
  /\ CS (snd r) = GPIO_PIN_SET
  /\ DC (snd r) = GPIO_PIN_SET
  /\ driver_variables (snd r) = driver_variables m.
Proof.
  exact (sendData_transaction hal_page_address_fails [1; 2; 3; 4] 3
           (snd (SSD1306sendCommand hal_page_address_fails COLUMN_ADDRESS (Some [3; 68]) 2
                   idle_machine))
           ltac:(unfold MAX_DATA_SIZE; lia)).
Defined.

(** * Sequences of blocking transmissions: clear and initialisation *)

Lemma IS_ERROR_false (code : errorCode_u) : IS_ERROR code = false -> code = ERR_SUCCESS.
Proof. destruct code; [reflexivity | discriminate]. Qed.

Lemma IS_ERROR_pushErrorCode (code : errorCode_u) (f : _SSD1306functionCodes_e) (id : Z) :
  IS_ERROR (pushErrorCode code f id) = IS_ERROR code.
Proof. now destruct code. Qed.

Lemma transmissions_ok_app (hal : hal_env) (from t1 t2 : nat) :
  transmissions_ok hal from (t1 + t2)
  = transmissions_ok hal from t1 && transmissions_ok hal (from + t1) t2.
Proof. unfold transmissions_ok. now rewrite seq_app, forallb_app. Qed.

Lemma transmissions_ok_prefix (hal : hal_env) (from j t : nat) :
  (t <= j)%nat -> transmissions_ok hal from j = true -> transmissions_ok hal from t = true.
Proof.
  intros Hle Hok. replace j with (t + (j - t))%nat in Hok by lia.
  rewrite transmissions_ok_app in Hok. now apply andb_true_iff in Hok.
Qed.

Lemma transmissions_ok_suffix (hal : hal_env) (from j t : nat) :
  (t <= j)%nat -> transmissions_ok hal from j = true ->
  transmissions_ok hal (from + t) (j - t) = true.
Proof.
  intros Hle Hok. replace j with (t + (j - t))%nat in Hok by lia.
  rewrite transmissions_ok_app in Hok. apply andb_true_iff in Hok.
  replace (t + (j - t) - t)%nat with (j - t)%nat in Hok by lia. tauto.
Qed.

Lemma transmissions_ok_S (hal : hal_env) (from t : nat) :
  transmissions_ok hal from (S t)
  = is_HAL_OK (Transmit_status hal from) && transmissions_ok hal (S from) t.
Proof. reflexivity. Qed.

Lemma is_HAL_OK_true (status : HAL_StatusTypeDef) : is_HAL_OK status = true -> status = HAL_OK.
Proof. now destruct status. Qed.

Lemma is_HAL_OK_false (status : HAL_StatusTypeDef) :
  status <> HAL_OK -> is_HAL_OK status = false.
Proof. destruct status; [congruence | reflexivity ..]. Qed.

(** Either the [t] transmissions go through or there is a first one that
    fails. *)
Lemma first_failure (hal : hal_env) (from t : nat) :
  transmissions_ok hal from t = true
  \/ exists j, (j < t)%nat /\ transmissions_ok hal from j = true
               /\ Transmit_status hal (from + j) <> HAL_OK.
Proof.
  induction t as [|t IH]; [now left|].
  destruct IH as [Hok|(j & Hj & Hok & Hfail)].
  - destruct (is_HAL_OK (Transmit_status hal (from + t))) eqn:E.
    + left. replace (S t) with (t + 1)%nat by lia.
      rewrite transmissions_ok_app, Hok. cbn. now rewrite E.
    + right. exists t. repeat split; [lia | exact Hok |].
      intros H. rewrite H in E. discriminate.
  - right. exists j. repeat split; [lia | exact Hok | exact Hfail].
Qed.

Lemma blocking_ret (hal : hal_env) : blocking hal (ret ERR_SUCCESS) 0.
Proof.
  intros m. split.
  - intros _. cbn. split; [reflexivity | lia].
  - intros j Hj. lia.
Qed.

Lemma blocking_and_then (hal : hal_env) (c1 c2 : M errorCode_u)
    (wrap : errorCode_u -> errorCode_u) (t1 t2 : nat) :
  blocking hal c1 t1 -> blocking hal c2 t2 ->
  (forall code, IS_ERROR code = true -> IS_ERROR (wrap code) = true) ->
  blocking hal (and_then c1 wrap c2) (t1 + t2).
Proof.
  intros H1 H2 Hwrap m. unfold and_then, bind, ret.
  destruct (H1 m) as [Hok1 Hfail1]. split.
  - intros Hok. rewrite transmissions_ok_app in Hok. apply andb_true_iff in Hok.
    destruct Hok as [Ha Hb]. destruct (Hok1 Ha) as [Hr Hn].
    destruct (c1 m) as [r m1]. cbn [fst snd] in *. subst r. cbn [IS_ERROR].
    destruct (H2 m1) as [Hok2 _]. rewrite Hn in Hok2.
    destruct (Hok2 Hb) as [Hr2 Hn2]. split; [exact Hr2 | lia].
  - intros j Hj Hok Hfail. destruct (Nat.lt_ge_cases j t1) as [Hlt|Hge].
    + destruct (Hfail1 j Hlt Hok Hfail) as [Hr Hn].
      destruct (c1 m) as [r m1]. cbn [fst snd] in *. rewrite Hr. cbn [fst snd].
      split; [now apply Hwrap | exact Hn].
    + destruct (Hok1 (transmissions_ok_prefix hal _ j t1 Hge Hok)) as [Hr Hn].
      destruct (c1 m) as [r m1]. cbn [fst snd] in *. subst r. cbn [IS_ERROR].
      destruct (H2 m1) as [_ Hfail2]. rewrite Hn in Hfail2.
      destruct (Hfail2 (j - t1)%nat) as [Hr2 Hn2].
      * lia.
      * now apply transmissions_ok_suffix.
      * replace (nb_Transmit m + t1 + (j - t1))%nat with (nb_Transmit m + j)%nat by lia.
        exact Hfail.
      * split; [exact Hr2 | lia].
Qed.

Lemma blocking_sendCommand (hal : hal_env) (regNumber : SSD1306register_e)
    (params : list Z) (n : Z) :
  n <= MAX_PARAMETERS ->
  blocking hal (SSD1306sendCommand hal regNumber (Some params) n) (command_transmissions n).
Proof.
  intros Hn m. rewrite sendCommand_eq by exact Hn. cbn [fst snd].
  rewrite nb_Transmit_after_command. unfold command_transmissions, command_code.
  destruct (n =? 0); cbn [negb andb]; split.
  - intros Hok. rewrite transmissions_ok_S in Hok. apply andb_true_iff in Hok.
    destruct Hok as [Ha _]. rewrite Ha. cbn. split; [reflexivity | lia].
  - intros j Hj Hok Hfail. assert (j = 0%nat) by lia. subst j.
    rewrite Nat.add_0_r in Hfail. rewrite (is_HAL_OK_false _ Hfail). cbn.
    split; [reflexivity | lia].
  - intros Hok. rewrite !transmissions_ok_S in Hok. apply andb_true_iff in Hok.
    destruct Hok as [Ha Hb]. apply andb_true_iff in Hb. destruct Hb as [Hb _].
    rewrite Ha, Hb. cbn. split; [reflexivity | lia].
  - intros j Hj Hok Hfail. destruct j as [|j].
    + rewrite Nat.add_0_r in Hfail. rewrite (is_HAL_OK_false _ Hfail). cbn.
      split; [reflexivity | lia].
    + assert (j = 0%nat) by lia. subst j.
      rewrite transmissions_ok_S in Hok. apply andb_true_iff in Hok.
      destruct Hok as [Ha _]. rewrite Ha. cbn [negb andb].
      replace (nb_Transmit m + 1)%nat with (S (nb_Transmit m)) in Hfail by lia.
      rewrite (is_HAL_OK_false _ Hfail). cbn. split; [reflexivity | lia].
Qed.

Lemma blocking_sendData (hal : hal_env) (buffer : machine -> list Z) (size : Z) :
  0 < size <= MAX_DATA_SIZE ->
  blocking hal (fun m => SSD1306sendData hal (Some (buffer m)) size m) 1.
Proof.
  intros Hsize m. unfold SSD1306sendData.
  replace (size =? 0) with false by (symmetry; apply Z.eqb_neq; lia).
  replace (MAX_DATA_SIZE <? size) with false by (symmetry; apply Z.ltb_ge; lia).
  unfold bind, HAL_SPI_Transmit. cbn. split.
  - intros Hok. apply andb_true_iff in Hok.
    destruct Hok as [Ha _]. apply is_HAL_OK_true in Ha. rewrite Ha. cbn.
    split; [reflexivity | lia].
  - intros j Hj _ Hfail. assert (j = 0%nat) by lia. subst j.
    rewrite Nat.add_0_r in *.
    destruct (Transmit_status hal (nb_Transmit m)); [congruence | cbn; split; (reflexivity || lia) ..].
Qed.

Lemma clearScreen_and_then (hal : hal_env) :
  SSD1306clearScreen hal =
    and_then (SSD1306sendCommand hal COLUMN_ADDRESS (Some [0; 127]) 2)
      (fun result => pushErrorCode result CLR_SCREEN 1)
      (and_then (SSD1306sendCommand hal PAGE_ADDRESS (Some [0; 31]) 2)
         (fun result => pushErrorCode result CLR_SCREEN 2)
         (and_then (fun m => SSD1306sendData hal (Some (_screenBuffer m)) MAX_DATA_SIZE m)
            (fun result => pushErrorCode result CLR_SCREEN 3)
            (ret ERR_SUCCESS))).
Proof. reflexivity. Qed.

Lemma blocking_clearScreen (hal : hal_env) : blocking hal (SSD1306clearScreen hal) 5.
Proof.
  rewrite clearScreen_and_then.
  change 5%nat with (command_transmissions 2 + (command_transmissions 2 + (1 + 0)))%nat.
  apply blocking_and_then.
  - apply blocking_sendCommand. unfold MAX_PARAMETERS. lia.
  - apply blocking_and_then.
    + apply blocking_sendCommand. unfold MAX_PARAMETERS. lia.
    + apply blocking_and_then.
      * apply blocking_sendData. unfold MAX_DATA_SIZE. lia.
      * apply blocking_ret.
      * intros code Hcode. now rewrite IS_ERROR_pushErrorCode.
    + intros code Hcode. now rewrite IS_ERROR_pushErrorCode.
  - intros code Hcode. now rewrite IS_ERROR_pushErrorCode.
Qed.

Lemma init_registers_and_then (hal : hal_env) (c : SSD1306init_t)
    (rest : list SSD1306init_t) :
  init_registers hal (c :: rest) =
    and_then (SSD1306sendCommand hal (reg c) (Some [value c]) (nbParameters c))
      (fun result => pushErrorCode result INIT 1)
      (init_registers hal rest).
Proof. reflexivity. Qed.

Lemma blocking_init_registers (hal : hal_env) (commands : list SSD1306init_t) :
  Forall (fun c => nbParameters c <= MAX_PARAMETERS) commands ->
  blocking hal (init_registers hal commands) (table_transmissions commands).
Proof.
  induction 1 as [|c rest Hc Hrest IH].
  - apply blocking_ret.
  - rewrite init_registers_and_then. cbn [table_transmissions fold_right].
    apply blocking_and_then.
    + now apply blocking_sendCommand.
    + exact IH.
    + intros code Hcode. now rewrite IS_ERROR_pushErrorCode.
Qed.

(** The three writes that open [SSD1306initialise]. *)
Lemma initialise_and_then (hal : hal_env) (opts : SSD1306_options) (m : machine) :
  SSD1306initialise hal opts m =
    and_then (init_registers hal (initCommands opts)) (fun result => result)
      (and_then (SSD1306clearScreen hal) (fun result => pushErrorCode result INIT 2)
         (ret ERR_SUCCESS))
      (after_calls [ GPIO_WritePin SSD1306_CS_Pin GPIO_PIN_SET;
                     GPIO_WritePin SSD1306_RST_Pin GPIO_PIN_RESET;
                     GPIO_WritePin SSD1306_RST_Pin GPIO_PIN_SET ] m).
Proof. reflexivity. Qed.

Lemma blocking_initialise_body (hal : hal_env) (opts : SSD1306_options) :
  blocking hal
    (and_then (init_registers hal (initCommands opts)) (fun result => result)
       (and_then (SSD1306clearScreen hal) (fun result => pushErrorCode result INIT 2)
          (ret ERR_SUCCESS)))
    18.
Proof.
  change 18%nat with (table_transmissions (initCommands opts) + (5 + 0))%nat.
  apply blocking_and_then.
  - apply blocking_init_registers.
    unfold initCommands, MAX_PARAMETERS; repeat constructor; simpl; lia.
  - apply blocking_and_then.
    + apply blocking_clearScreen.
    + apply blocking_ret.
    + intros code Hcode. now rewrite IS_ERROR_pushErrorCode.
  - intros code Hcode. exact Hcode.
Qed.

Lemma blocking_initialise (hal : hal_env) (opts : SSD1306_options) :
  blocking hal (SSD1306initialise hal opts) 18.
Proof.
  intros m. rewrite initialise_and_then.
  exact (blocking_initialise_body hal opts
           (after_calls [ GPIO_WritePin SSD1306_CS_Pin GPIO_PIN_SET;
                          GPIO_WritePin SSD1306_RST_Pin GPIO_PIN_RESET;
                          GPIO_WritePin SSD1306_RST_Pin GPIO_PIN_SET ] m)).
Qed.

Lemma blocking_success_iff (hal : hal_env) (c : M errorCode_u) (t : nat) (m : machine) :
  blocking hal c t ->
  fst (c m) = ERR_SUCCESS <-> transmissions_ok hal (nb_Transmit m) t = true.
Proof.
  intros Hc. destruct (Hc m) as [Hok Hfail]. split.
  - intros Hr. destruct (first_failure hal (nb_Transmit m) t) as [H|(j & Hj & Hokj & Hf)];
      [exact H|].
    destruct (Hfail j Hj Hokj Hf) as [He _]. rewrite Hr in He. discriminate.
  - intros H. now apply Hok.
Qed.

(** ** What a blocking transaction leaves alone *)

Lemma driver_variables_after_calls (cs : list hal_call) (m : machine) :
  driver_variables (after_calls cs m) = driver_variables m.
Proof.
  revert m. induction cs as [|c cs IH]; intros m; [reflexivity|].
  cbn [after_calls fold_left]. fold (after_calls cs (after_call c m)). now rewrite IH.
Qed.

Lemma after_blocking_calls (cs : list hal_call) (m : machine) :
  forallb blocking_call cs = true ->
  RST (after_calls cs m) = RST m
  /\ nb_Transmit_DMA (after_calls cs m) = nb_Transmit_DMA m
  /\ nb_GetState (after_calls cs m) = nb_GetState m.
Proof.
  revert m. induction cs as [|c cs IH]; intros m Hcs; [repeat split|].
  cbn [forallb] in Hcs. apply andb_true_iff in Hcs. destruct Hcs as [Hc Hcs].
  cbn [after_calls fold_left]. fold (after_calls cs (after_call c m)).
  destruct (IH (after_call c m) Hcs) as (-> & -> & ->).
  destruct c as [[] level| | |]; try discriminate; repeat split.
Qed.

Lemma keeps_released_ret (code : errorCode_u) : keeps_released (ret code).
Proof. intros m. exists []. repeat split. intros H. exact H. Qed.

Lemma keeps_released_and_then (c1 c2 : M errorCode_u) (wrap : errorCode_u -> errorCode_u) :
  keeps_released c1 -> keeps_released c2 -> keeps_released (and_then c1 wrap c2).
Proof.
  intros H1 H2 m. unfold and_then, bind, ret.
  destruct (H1 m) as (cs1 & Hm1 & Hcs1 & HCS1).
  destruct (c1 m) as [r m1]. cbn [snd] in Hm1. subst m1.
  destruct (IS_ERROR r).
  - exists cs1. repeat split; assumption.
  - destruct (H2 (after_calls cs1 m)) as (cs2 & Hm2 & Hcs2 & HCS2).
    exists (cs1 ++ cs2). rewrite after_calls_app, forallb_app, Hcs1, Hcs2.
    repeat split; [exact Hm2|]. intros HCS. apply HCS2, HCS1, HCS.
Qed.

Lemma keeps_released_sendCommand (hal : hal_env) (regNumber : SSD1306register_e)
    (params : list Z) (n : Z) :
  n <= MAX_PARAMETERS ->
  keeps_released (SSD1306sendCommand hal regNumber (Some params) n).
Proof.
  intros Hn m. rewrite sendCommand_eq by exact Hn. cbn [snd].
  eexists. split; [reflexivity|]. split.
  - unfold command_calls. now destruct (is_HAL_OK _ && negb (n =? 0)).
  - intros _. apply CS_after_command.
Qed.

Lemma sendData_eq (hal : hal_env) (bytes : list Z) (size : Z) (m : machine) :
  0 < size <= MAX_DATA_SIZE ->
  SSD1306sendData hal (Some bytes) size m =
    (if is_HAL_OK (Transmit_status hal (nb_Transmit m)) then ERR_SUCCESS
     else DataTxFailed (Transmit_status hal (nb_Transmit m)),
     after_calls
       [ GPIO_WritePin SSD1306_DC_Pin GPIO_PIN_SET;
         GPIO_WritePin SSD1306_CS_Pin GPIO_PIN_RESET;
         SPI_Transmit (TxBytes (take (Z.to_nat size) bytes)) size
                      (Transmit_status hal (nb_Transmit m));
         GPIO_WritePin SSD1306_CS_Pin GPIO_PIN_SET ] m).
Proof.
  intros Hsize. unfold SSD1306sendData.
  replace (size =? 0) with false by (symmetry; apply Z.eqb_neq; lia).
  replace (MAX_DATA_SIZE <? size) with false by (symmetry; apply Z.ltb_ge; lia).
  unfold bind, HAL_SPI_Transmit, is_HAL_OK. cbn.
  destruct (Transmit_status hal (nb_Transmit m)); reflexivity.
Qed.

Lemma keeps_released_sendData (hal : hal_env) (buffer : machine -> list Z) (size : Z) :
  0 < size <= MAX_DATA_SIZE ->
  keeps_released (fun m => SSD1306sendData hal (Some (buffer m)) size m).
Proof.
  intros Hsize m. rewrite sendData_eq by exact Hsize. cbn [snd].
  eexists. split; [reflexivity|]. split; [reflexivity|]. intros _. reflexivity.
Qed.

Lemma keeps_released_clearScreen (hal : hal_env) : keeps_released (SSD1306clearScreen hal).
Proof.
  rewrite clearScreen_and_then.
  apply keeps_released_and_then;
    [apply keeps_released_sendCommand; unfold MAX_PARAMETERS; lia|].
  apply keeps_released_and_then;
    [apply keeps_released_sendCommand; unfold MAX_PARAMETERS; lia|].
  apply keeps_released_and_then;
    [apply keeps_released_sendData; unfold MAX_DATA_SIZE; lia|].
  apply keeps_released_ret.
Qed.

Lemma keeps_released_init_registers (hal : hal_env) (commands : list SSD1306init_t) :
  Forall (fun c => nbParameters c <= MAX_PARAMETERS) commands ->
  keeps_released (init_registers hal commands).
Proof.
  induction 1 as [|c rest Hc Hrest IH].
  - apply keeps_released_ret.
  - rewrite init_registers_and_then.
    apply keeps_released_and_then; [now apply keeps_released_sendCommand | exact IH].
Qed.

(** ** [SSD1306clearScreen] *)

(** X5. [SSD1306clearScreen] makes five blocking transmissions (two per
    address command, one for the data) and succeeds exactly when the HAL
    accepts all five.  It stops at the first transmission that fails:
    that one is the last it makes, and the call returns an error.  In
    every outcome the chip is released when it returns, neither the reset
    line nor a variable of the driver has been written (the frame buffer is
    sent, not cleared), and no DMA has been launched. *)
Theorem clearScreen_outcome (hal : hal_env) (m : machine) :
  let r := SSD1306clearScreen hal m in
  (fst r = ERR_SUCCESS <-> transmissions_ok hal (nb_Transmit m) 5 = true)
  /\ (forall j : nat,
        (j < 5)%nat ->
        transmissions_ok hal (nb_Transmit m) j = true ->
        Transmit_status hal (nb_Transmit m + j) <> HAL_OK ->
        IS_ERROR (fst r) = true /\ nb_Transmit (snd r) = S (nb_Transmit m + j))
  /\ CS (snd r) = GPIO_PIN_SET
  /\ RST (snd r) = RST m
  /\ driver_variables (snd r) = driver_variables m
  /\ nb_Transmit_DMA (snd r) = nb_Transmit_DMA m.
Proof.
  intros r. subst r. split; [|split].
  - apply blocking_success_iff, blocking_clearScreen.
  - apply (blocking_clearScreen hal m).
  - assert (Hcs : CS (snd (SSD1306clearScreen hal m)) = GPIO_PIN_SET).
    { unfold SSD1306clearScreen, bind.
      rewrite sendCommand_eq by (unfold MAX_PARAMETERS; lia).
      set (m1 := after_calls _ m).
      assert (H1 : CS m1 = GPIO_PIN_SET) by apply CS_after_command.
      destruct (IS_ERROR _); [exact H1|].
      rewrite sendCommand_eq by (unfold MAX_PARAMETERS; lia).
      set (m2 := after_calls _ m1).
      assert (H2 : CS m2 = GPIO_PIN_SET) by apply CS_after_command.
      destruct (IS_ERROR _); [exact H2|].
      unfold get. rewrite sendData_eq by (unfold MAX_DATA_SIZE; lia).
      destruct (IS_ERROR _); reflexivity. }
    destruct (keeps_released_clearScreen hal m) as (cs & Hm & Hb & _).
    rewrite Hm in *. rewrite driver_variables_after_calls.
    destruct (after_blocking_calls cs m Hb) as (-> & -> & _).
    repeat split. exact Hcs.
Qed.

(** X6. When the five transmissions go through, what [SSD1306clearScreen]
    sends as data is the frame buffer as it stands, whatever it holds: the
    window commands [0, 127] and [0, 31], then the 1024 bytes of
    [_screenBuffer] in one transmission.  Nothing is written to the buffer,
    so the screen is wiped only if the buffer holds zeros. *)
Theorem clearScreen_sends_buffer (hal : hal_env) (m : machine) :
  transmissions_ok hal (nb_Transmit m) 5 = true ->
  length (_screenBuffer m) = 1024%nat ->
  let r := SSD1306clearScreen hal m in
  fst r = ERR_SUCCESS
  /\ calls (snd r) =
       calls m
       ++ command_transaction COLUMN_ADDRESS [0; 127]
       ++ command_transaction PAGE_ADDRESS [0; 31]
       ++ data_transaction (_screenBuffer m)
  /\ _screenBuffer (snd r) = _screenBuffer m.
Proof.
  intros Hok Hlen r. subst r.
  cbn in Hok. rewrite !andb_true_iff in Hok.
  destruct Hok as (H0 & H1 & H2 & H3 & H4 & _).
  apply is_HAL_OK_true in H0, H1, H2, H3, H4.
  unfold SSD1306clearScreen, bind, get.
  rewrite sendCommand_eq by (unfold MAX_PARAMETERS; lia). rewrite H0, H1.
  change (IS_ERROR (command_code 2 HAL_OK HAL_OK)) with false. cbv beta iota.
  rewrite sendCommand_eq by (unfold MAX_PARAMETERS; lia).
  rewrite nb_Transmit_after_command. cbn [is_HAL_OK HAL_StatusTypeDef_eqb andb negb Z.eqb Nat.add].
  rewrite H2, H3.
  change (IS_ERROR (command_code 2 HAL_OK HAL_OK)) with false. cbv beta iota.
  rewrite sendData_eq by (unfold MAX_DATA_SIZE; lia).
  rewrite !nb_Transmit_after_command. cbn [is_HAL_OK HAL_StatusTypeDef_eqb andb negb Z.eqb Nat.add].
  rewrite H4. cbn [is_HAL_OK HAL_StatusTypeDef_eqb IS_ERROR]. unfold ret. cbn [fst snd].
  rewrite !screenBuffer_after_calls, !calls_after_calls.
  rewrite take_ge by (rewrite Hlen; reflexivity).
  unfold data_transaction. rewrite Hlen. rewrite <- !app_assoc.
  repeat split.
Qed.

Lemma clearScreen_sends_buffer_witness :
  let m := snd (SSD1306update hal_all_ok (latch (F32.literal 123 10) 2 10 idle_machine)) in
  let r := SSD1306clearScreen hal_all_ok m in
  fst r = ERR_SUCCESS
  /\ calls (snd r) =
       calls m
       ++ command_transaction COLUMN_ADDRESS [0; 127]
       ++ command_transaction PAGE_ADDRESS [0; 31]
       ++ data_transaction (_screenBuffer m)
  /\ _screenBuffer (snd r) = _screenBuffer m.
Proof.
  exact (clearScreen_sends_buffer hal_all_ok
           (snd (SSD1306update hal_all_ok (latch (F32.literal 123 10) 2 10 idle_machine)))
           eq_refl eq_refl).
Defined.

(** ** [SSD1306initialise] *)

(** X7. [SSD1306initialise] makes eighteen blocking transmissions (thirteen
    for the eight commands of the table, five for the clear) and returns
    success exactly when the HAL accepts all eighteen. *)
Theorem initialise_success_iff (hal : hal_env) (opts : SSD1306_options) (m : machine) :
  fst (SSD1306initialise hal opts m) = ERR_SUCCESS
  <-> transmissions_ok hal (nb_Transmit m) 18 = true.
Proof.
  apply blocking_success_iff. apply blocking_initialise.
Qed.

(** X8. [SSD1306initialise] stops at the first transmission that the HAL
    refuses: when the first [j] transmissions go through and the next one
    fails, the call returns an error and that transmission is the last one
    made; the commands that follow in the table, and the clear, are not
    sent. *)
Theorem initialise_stops_at_first_failure (hal : hal_env) (opts : SSD1306_options)
    (m : machine) (j : nat) :
  (j < 18)%nat ->
  transmissions_ok hal (nb_Transmit m) j = true ->
  Transmit_status hal (nb_Transmit m + j) <> HAL_OK ->
  IS_ERROR (fst (SSD1306initialise hal opts m)) = true
  /\ nb_Transmit (snd (SSD1306initialise hal opts m)) = S (nb_Transmit m + j).
Proof.
  intros Hj Hok Hfail.
  destruct (blocking_initialise hal opts m) as [_ H]. now apply H.
Qed.

(** The parameter of HARDWARE_CONFIG, the third transmission, is refused. *)
Lemma initialise_stops_at_first_failure_witness :
  let m := power_on GPIO_PIN_RESET GPIO_PIN_RESET GPIO_PIN_RESET in
  IS_ERROR (fst (SSD1306initialise hal_page_address_fails example_options m)) = true
  /\ nb_Transmit (snd (SSD1306initialise hal_page_address_fails example_options m))
     = S (nb_Transmit m + 2).
Proof.
  exact (initialise_stops_at_first_failure hal_page_address_fails example_options
           (power_on GPIO_PIN_RESET GPIO_PIN_RESET GPIO_PIN_RESET) 2
           ltac:(lia) eq_refl ltac:(discriminate)).
Defined.

(** X9. In every outcome, [SSD1306initialise] starts with the release of
    the chip and the reset pulse (reset line low, then high), and all it
    does after that is drive the D/C and chip-select lines and make
    blocking transmissions.  When it returns the chip is released and the
    reset line is high; it has launched no DMA and has written no variable
    of the driver: the state of the state machine, the deadline, the frame
    buffer and the latched request are as they were. *)
Theorem initialise_lines (hal : hal_env) (opts : SSD1306_options) (m : machine) :
  let m' := snd (SSD1306initialise hal opts m) in
  exists cs : list hal_call,
    calls m' = calls m
               ++ [ GPIO_WritePin SSD1306_CS_Pin GPIO_PIN_SET;
                    GPIO_WritePin SSD1306_RST_Pin GPIO_PIN_RESET;
                    GPIO_WritePin SSD1306_RST_Pin GPIO_PIN_SET ]
               ++ cs
    /\ forallb blocking_call cs = true
    /\ CS m' = GPIO_PIN_SET
    /\ RST m' = GPIO_PIN_SET
    /\ nb_Transmit_DMA m' = nb_Transmit_DMA m
    /\ driver_variables m' = driver_variables m.
Proof.
  intros m'. subst m'. rewrite initialise_and_then.
  set (m0 := after_calls _ m).
  assert (Hkeeps : keeps_released
            (and_then (init_registers hal (initCommands opts)) (fun result => result)
               (and_then (SSD1306clearScreen hal)
                  (fun result => pushErrorCode result INIT 2) (ret ERR_SUCCESS)))).
  { apply keeps_released_and_then.
    - apply keeps_released_init_registers.
      unfold initCommands, MAX_PARAMETERS; repeat constructor; simpl; lia.
    - apply keeps_released_and_then;
        [apply keeps_released_clearScreen | apply keeps_released_ret]. }
  destruct (Hkeeps m0) as (cs & Hm & Hb & HCS).
  exists cs. rewrite Hm.
  destruct (after_blocking_calls cs m0 Hb) as (-> & -> & _).
  rewrite driver_variables_after_calls, calls_after_calls.
  split; [subst m0; now rewrite calls_after_calls, <- app_assoc|].
  split; [exact Hb|]. split; [apply HCS; reflexivity|].
  repeat split.
Qed.

(** * The state machine in every outcome *)

Lemma blocking_command_calls (regNumber : SSD1306register_e) (params : list Z) (n : Z)
    (s1 s2 : HAL_StatusTypeDef) :
  forallb blocking_call (command_calls regNumber params n s1 s2) = true.
Proof. unfold command_calls. now destruct (is_HAL_OK s1 && negb (n =? 0)). Qed.

(** What [stPrintingAngle] leaves alone, whatever the HAL answers: the
    reset line and the count of queries of the peripheral state; and the
    frame buffer is the rasterized one. *)
Lemma stPrintingAngle_frame (hal : hal_env) (m : machine) :
  RST (snd (stPrintingAngle hal m)) = RST m
  /\ nb_GetState (snd (stPrintingAngle hal m)) = nb_GetState m
  /\ _screenBuffer (snd (stPrintingAngle hal m)) = _screenBuffer (rasterized m).
Proof.
  destruct (Transmit_status hal (nb_Transmit m)) eqn:H1;
    [destruct (Transmit_status hal (S (nb_Transmit m))) eqn:H2|..].
  1: { rewrite (stPrintingAngle_column_success hal m H1 H2).
       destruct (is_HAL_OK _); cbn [snd];
         change (RST (set_state ?st (after_call (SPI_Transmit_DMA ?d ?n ?s)
                   (set_screenTimer_ms ?t ?x)))) with (RST x);
         change (nb_GetState (set_state ?st (after_call (SPI_Transmit_DMA ?d ?n ?s)
                   (set_screenTimer_ms ?t ?x)))) with (nb_GetState x);
         autorewrite with frame;
         rewrite !app_assoc, !after_calls_app;
         repeat match goal with
         | |- context [RST (after_calls ?cs ?x)] =>
             destruct (after_blocking_calls cs x) as (-> & _ & _);
             [first [apply blocking_command_calls | reflexivity]|]
         | |- context [nb_GetState (after_calls ?cs ?x)] =>
             destruct (after_blocking_calls cs x) as (_ & _ & ->);
             [first [apply blocking_command_calls | reflexivity]|]
         end; repeat split. }
  all: rewrite stPrintingAngle_column_failure by (rewrite H1, ?H2; reflexivity);
    cbn [snd]; autorewrite with frame;
    change (RST (set_state ?st ?x)) with (RST x);
    change (nb_GetState (set_state ?st ?x)) with (nb_GetState x);
    match goal with
    | |- context [RST (after_calls ?cs ?x)] =>
        destruct (after_blocking_calls cs x (blocking_command_calls _ _ _ _ _))
          as (-> & _ & ->)
    end; repeat split.
Qed.

Lemma list_inserts_prefix (l buf : list Z) :
  (length l <= length buf)%nat ->
  list_inserts 0 l buf = l ++ drop (length l) buf.
Proof.
  intros Hlen. rewrite <- (take_drop (length l) buf) at 1.
  apply list_inserts_0_r. rewrite length_take. lia.
Qed.

(** X10. The rasterizing tick writes the first 132 bytes of the frame
    buffer and no other: for an accepted binary32 angle, and whatever the
    HAL answers to the commands and to the DMA launch (so also when the
    tick ends in an error), the frame buffer after the tick is the payload
    of the glyphs followed by the bytes that were there from offset 132
    on.  A buffer of 1024 bytes stays one of 1024 bytes. *)
Theorem rasterization_frame (hal : hal_env) (a : spec_float) (page column : Z)
    (m0 : machine) :
  F32.valid a = true ->
  angle_in_range a = true ->
  (132 <= length (_screenBuffer m0))%nat ->
  let m' := snd (SSD1306update hal (latch a page column m0)) in
  _screenBuffer m' = glyph_table_payload (slots_trunc a) ++ drop 132 (_screenBuffer m0)
  /\ length (_screenBuffer m') = length (_screenBuffer m0).
Proof.
  intros Hvalid Hrange Hlen m'. subst m'.
  rewrite update_printing by reflexivity.
  destruct (stPrintingAngle_frame hal (latch a page column m0)) as (_ & _ & ->).
  unfold rasterized, filled.
  cbn [_screenBuffer set_nextPage set_nextColumn set_screenBuffer set_nextAngle latch
       set_state _nextAngle].
  rewrite buffer_pages_payload, (charIndexes_of_slots a Hvalid Hrange).
  rewrite list_inserts_prefix by (rewrite length_glyph_table_payload; exact Hlen).
  rewrite length_glyph_table_payload. split; [reflexivity|].
  rewrite length_app, length_glyph_table_payload, length_drop. lia.
Qed.

(** The COLUMN_ADDRESS command of the tick fails: the buffer holds the
    glyphs of +12.3 all the same. *)
Lemma rasterization_frame_witness :
  let a := F32.literal 123 10 in
  let hal := {| Transmit_status := fun _ => HAL_TIMEOUT;
                Transmit_DMA_status := fun _ => HAL_OK;
                GetState_value := fun _ => HAL_SPI_STATE_READY |} in
  let m' := snd (SSD1306update hal (latch a 2 10 idle_machine)) in
  _screenBuffer m'
    = glyph_table_payload (slots_trunc a) ++ drop 132 (_screenBuffer idle_machine)
  /\ length (_screenBuffer m') = length (_screenBuffer idle_machine).
Proof.
  exact (rasterization_frame
           {| Transmit_status := fun _ => HAL_TIMEOUT;
              Transmit_DMA_status := fun _ => HAL_OK;
              GetState_value := fun _ => HAL_SPI_STATE_READY |}
           (F32.literal 123 10) 2 10 idle_machine eq_refl eq_refl
           ltac:(vm_compute; lia)).
Defined.

(** X11. The COLUMN_ADDRESS command of the rasterizing tick fails (its
    register byte, or its parameters): [SSD1306update] returns an error,
    the driver is idle again with the chip released, and the tick has done
    nothing more on the bus than that command.  The PAGE_ADDRESS command
    is not sent, no DMA is launched and the deadline is not armed. *)
Theorem column_address_failure (hal : hal_env) (m : machine) :
  _state m = StPrintingAngle ->
  let s1 := Transmit_status hal (nb_Transmit m) in
  let s2 := Transmit_status hal (S (nb_Transmit m)) in
  s1 <> HAL_OK \/ s2 <> HAL_OK ->
  let r := SSD1306update hal m in
  IS_ERROR (fst r) = true
  /\ _state (snd r) = StIdle
  /\ CS (snd r) = GPIO_PIN_SET
  /\ calls (snd r)
     = calls m
       ++ command_calls COLUMN_ADDRESS
            [_nextColumn m; to_uint8 (_nextColumn m + VERDANA_CHAR_WIDTH * 6 - 1)] 2 s1 s2
  /\ nb_Transmit_DMA (snd r) = nb_Transmit_DMA m
  /\ screenTimer_ms (snd r) = screenTimer_ms m.
Proof.
  intros Hst s1 s2 Hfail r. subst r.
  rewrite update_printing by exact Hst.
  assert (Herr : IS_ERROR (command_code 2 s1 s2) = true).
  { unfold command_code. destruct s1, s2; try reflexivity.
    destruct Hfail as [H|H]; now contradiction H. }
  rewrite stPrintingAngle_column_failure by exact Herr. fold s1 s2.
  cbn [fst snd]. rewrite IS_ERROR_pushErrorCode, Herr.
  autorewrite with frame. rewrite CS_set_state, CS_after_command.
  change (nb_Transmit_DMA (set_state ?st ?x)) with (nb_Transmit_DMA x).
  destruct (after_blocking_calls _ (rasterized m)
              (blocking_command_calls COLUMN_ADDRESS
                 [_nextColumn m; to_uint8 (_nextColumn m + VERDANA_CHAR_WIDTH * 6 - 1)]
                 2 s1 s2)) as (_ & -> & _).
  repeat split.
Qed.

Lemma column_address_failure_witness :
  let hal := {| Transmit_status := fun n => if Nat.eqb n 1 then HAL_BUSY else HAL_OK;
                Transmit_DMA_status := fun _ => HAL_OK;
                GetState_value := fun _ => HAL_SPI_STATE_READY |} in
  let m := latch (F32.literal 123 10) 2 10 idle_machine in
  let r := SSD1306update hal m in
  IS_ERROR (fst r) = true
  /\ _state (snd r) = StIdle
  /\ CS (snd r) = GPIO_PIN_SET
  /\ calls (snd r)
     = calls m
       ++ command_calls COLUMN_ADDRESS
            [_nextColumn m; to_uint8 (_nextColumn m + VERDANA_CHAR_WIDTH * 6 - 1)] 2
            HAL_OK HAL_BUSY
  /\ nb_Transmit_DMA (snd r) = nb_Transmit_DMA m
  /\ screenTimer_ms (snd r) = screenTimer_ms m.
Proof.
  apply (column_address_failure
           {| Transmit_status := fun n => if Nat.eqb n 1 then HAL_BUSY else HAL_OK;
              Transmit_DMA_status := fun _ => HAL_OK;
              GetState_value := fun _ => HAL_SPI_STATE_READY |}
           (latch (F32.literal 123 10) 2 10 idle_machine));
    [reflexivity | right; discriminate].
Defined.

(** * Polling the DMA transfer *)

Lemma nb_GetState_tick_1ms (m : machine) : nb_GetState (tick_1ms m) = nb_GetState m.
Proof. unfold tick_1ms. now destruct (0 <? screenTimer_ms m). Qed.

(** The transfer is seen complete: the chip is released and the driver
    goes back to idle. *)
Lemma update_ready (hal : hal_env) (m : machine) :
  _state m = StWaitingForTXdone ->
  screenTimer_ms m <> 0 ->
  GetState_value hal (nb_GetState m) = HAL_SPI_STATE_READY ->
  SSD1306update hal m =
    (ERR_SUCCESS,
     set_state StIdle (after_call (GPIO_WritePin SSD1306_CS_Pin GPIO_PIN_SET)
                         (after_GetState m))).
Proof.
  intros Hst Htimer Hready. unfold SSD1306update. rewrite Hst.
  unfold stWaitingForTXdone, bind, get, HAL_SPI_GetState.
  replace (screenTimer_ms m =? 0) with false by (symmetry; now apply Z.eqb_neq).
  rewrite Hready. reflexivity.
Qed.

(** Rounds of one poll each during which the peripheral is busy and the
    deadline does not reach zero. *)
Lemma every_tick_busy (hal : hal_env) (n : nat) (m : machine) :
  _state m = StWaitingForTXdone ->
  Z.of_nat n < screenTimer_ms m ->
  (forall i, (i < n)%nat -> GetState_value hal (nb_GetState m + i) <> HAL_SPI_STATE_READY) ->
  fst (rounds hal (every_tick n) m) = repeat [ERR_SUCCESS] n
  /\ _state (snd (rounds hal (every_tick n) m)) = StWaitingForTXdone
  /\ screenTimer_ms (snd (rounds hal (every_tick n) m)) = screenTimer_ms m - Z.of_nat n
  /\ nb_GetState (snd (rounds hal (every_tick n) m)) = (nb_GetState m + n)%nat
  /\ calls (snd (rounds hal (every_tick n) m)) = calls m
  /\ CS (snd (rounds hal (every_tick n) m)) = CS m.
Proof.
  revert m. induction n as [|n IH]; intros m Hst Htimer Hbusy.
  - cbn. repeat split; (assumption || lia).
  - cbn [every_tick repeat rounds]. fold (every_tick n). unfold bind, ret, round.
    cbn [updates]. unfold bind, ret.
    destruct (tick_1ms_frame m) as (Hst1 & Hcalls1 & Hcs1 & Ht1).
    rewrite update_busy;
      [| congruence | rewrite Ht1; lia
       | rewrite nb_GetState_tick_1ms; specialize (Hbusy 0%nat ltac:(lia));
         now rewrite Nat.add_0_r in Hbusy ].
    destruct (IH (after_GetState (tick_1ms m))) as (Hc & Hs & Ht & Hg & Hcalls & Hcs).
    + change (_state (after_GetState (tick_1ms m))) with (_state (tick_1ms m)). congruence.
    + change (screenTimer_ms (after_GetState (tick_1ms m)))
        with (screenTimer_ms (tick_1ms m)). rewrite Ht1; lia.
    + intros i Hi. change (nb_GetState (after_GetState (tick_1ms m)))
        with (S (nb_GetState (tick_1ms m))). rewrite nb_GetState_tick_1ms.
      specialize (Hbusy (S i) ltac:(lia)).
      now replace (nb_GetState m + S i)%nat with (S (nb_GetState m) + i)%nat in Hbusy by lia.
    + destruct (rounds hal (every_tick n) (after_GetState (tick_1ms m))) as [others m3].
      cbn [fst snd] in *. subst others.
      change (screenTimer_ms (after_GetState (tick_1ms m)))
        with (screenTimer_ms (tick_1ms m)) in Ht.
      change (nb_GetState (after_GetState (tick_1ms m)))
        with (S (nb_GetState (tick_1ms m))) in Hg.
      change (calls (after_GetState (tick_1ms m))) with (calls (tick_1ms m)) in Hcalls.
      change (CS (after_GetState (tick_1ms m))) with (CS (tick_1ms m)) in Hcs.
      rewrite nb_GetState_tick_1ms in Hg. rewrite Ht1 in Ht by lia.
      repeat split; try congruence; lia.
Qed.

Lemma every_tick_app (n1 n2 : nat) : every_tick (n1 + n2) = every_tick n1 ++ every_tick n2.
Proof. unfold every_tick. apply repeat_app. Qed.

(** The machine that [stPrintingAngle] leaves when the launch succeeds. *)
Lemma launched_machine (hal : hal_env) (m : machine) :
  _state m = StPrintingAngle ->
  Transmit_status hal (nb_Transmit m) = HAL_OK ->
  Transmit_status hal (S (nb_Transmit m)) = HAL_OK ->
  Transmit_DMA_status hal (nb_Transmit_DMA m) = HAL_OK ->
  fst (SSD1306update hal m) = ERR_SUCCESS
  /\ _state (snd (SSD1306update hal m)) = StWaitingForTXdone
  /\ screenTimer_ms (snd (SSD1306update hal m)) = 10
  /\ nb_GetState (snd (SSD1306update hal m)) = nb_GetState m.
Proof.
  intros Hst H1 H2 Hd. rewrite update_printing by exact Hst.
  destruct (stPrintingAngle_frame hal m) as (_ & -> & _).
  rewrite (stPrintingAngle_column_success hal m H1 H2), Hd.
  cbn [fst snd is_HAL_OK HAL_StatusTypeDef_eqb]. autorewrite with frame. repeat split.
Qed.

(** X12. A DMA transfer is launched and the application calls
    [SSD1306update] once after each 1 ms tick.  If the peripheral is busy
    at the first [j] polls and ready at the next one, with [j] at most 8,
    every call returns success; the call that finds the peripheral ready
    releases the chip and puts the driver back to idle, where it stays.
    [isScreenReady], false since the request, is true again.  The only
    call made to the SPI and GPIO layer since the launch is the release of
    the chip: the DMA is not stopped. *)
Theorem transfer_completes (hal : hal_env) (m : machine) (j n : nat) :
  _state m = StPrintingAngle ->
  Transmit_status hal (nb_Transmit m) = HAL_OK ->
  Transmit_status hal (S (nb_Transmit m)) = HAL_OK ->
  Transmit_DMA_status hal (nb_Transmit_DMA m) = HAL_OK ->
  (j <= 8)%nat ->
  (forall i, (i < j)%nat -> GetState_value hal (nb_GetState m + i) <> HAL_SPI_STATE_READY) ->
  GetState_value hal (nb_GetState m + j) = HAL_SPI_STATE_READY ->
  let launched := snd (SSD1306update hal m) in
  let r := rounds hal (every_tick (j + (1 + n))) launched in
  isScreenReady launched = false
  /\ fst r = repeat [ERR_SUCCESS] (j + (1 + n))
  /\ _state (snd r) = StIdle
  /\ isScreenReady (snd r) = true
  /\ CS (snd r) = GPIO_PIN_SET
  /\ calls (snd r) = calls launched ++ [ GPIO_WritePin SSD1306_CS_Pin GPIO_PIN_SET ].
Proof.
  intros Hst H1 H2 Hd Hj Hbusy Hready launched r.
  destruct (launched_machine hal m Hst H1 H2 Hd) as (_ & Hst0 & Ht0 & Hg0).
  fold launched in Hst0, Ht0, Hg0.
  destruct (every_tick_busy hal j launched Hst0 ltac:(lia)) as (Hc1 & Hst1 & Ht1 & Hg1 & Hcalls1 & _).
  { intros i Hi. rewrite Hg0. now apply Hbusy. }
  subst r. rewrite !every_tick_app, !rounds_app.
  set (m1 := snd (rounds hal (every_tick j) launched)) in *.
  destruct (tick_1ms_frame m1) as (Hst2 & Hcalls2 & _ & Ht2).
  assert (Hround : rounds hal (every_tick 1) m1 =
            ([[ERR_SUCCESS]],
             set_state StIdle (after_call (GPIO_WritePin SSD1306_CS_Pin GPIO_PIN_SET)
                                 (after_GetState (tick_1ms m1))))).
  { cbn [every_tick repeat rounds]. unfold bind, ret, round. cbn [updates].
    unfold bind, ret. rewrite update_ready; [reflexivity | congruence | rewrite Ht2; lia |].
    rewrite nb_GetState_tick_1ms, Hg1, Hg0. exact Hready. }
  rewrite Hround. cbn [fst snd].
  set (m2 := set_state StIdle _).
  destruct (rounds_idle hal (every_tick n) m2 eq_refl) as (Hc3 & Hst3 & Hcalls3 & Hcs3).
  rewrite Hc1, Hc3, Hcalls3, Hcs3. unfold isScreenReady. rewrite Hst0, Hst3.
  split; [reflexivity|]. split.
  { unfold every_tick, quiet. rewrite map_repeat. cbn [repeat].
    rewrite repeat_app. reflexivity. }
  repeat split.
  subst m2. cbn. now rewrite Hcalls2, Hcalls1.
Qed.

(** The peripheral is ready at the fourth poll. *)
Lemma transfer_completes_witness :
  let hal := hal_dma_ready_from 3 in
  let launched := snd (SSD1306update hal (latch (F32.literal 123 10) 2 10 idle_machine)) in
  let r := rounds hal (every_tick (3 + (1 + 2))) launched in
  isScreenReady launched = false
  /\ fst r = repeat [ERR_SUCCESS] (3 + (1 + 2))
  /\ _state (snd r) = StIdle
  /\ isScreenReady (snd r) = true
  /\ CS (snd r) = GPIO_PIN_SET
  /\ calls (snd r) = calls launched ++ [ GPIO_WritePin SSD1306_CS_Pin GPIO_PIN_SET ].
Proof.
  apply (transfer_completes (hal_dma_ready_from 3)
           (latch (F32.literal 123 10) 2 10 idle_machine) 3 2);
    [reflexivity | reflexivity | reflexivity | reflexivity | lia | | reflexivity].
  intros i Hi. cbn. destruct i as [|[|[|i]]]; [discriminate | discriminate | discriminate | lia].
Defined.

(** X13. The deadline goes before the peripheral.  A DMA transfer is
    launched and the application calls [SSD1306update] once after each
    1 ms tick.  If the peripheral is busy at the first nine polls, the
    tenth call returns the DmaTimeout error, stops the DMA and puts the
    driver back to idle with the chip released, whatever the peripheral
    would answer then: its state is not read a tenth time, so a transfer
    that completes between the ninth poll and the tenth tick is reported
    as timed out. *)
Theorem deadline_precedes_readiness (hal : hal_env) (m : machine) :
  _state m = StPrintingAngle ->
  Transmit_status hal (nb_Transmit m) = HAL_OK ->
  Transmit_status hal (S (nb_Transmit m)) = HAL_OK ->
  Transmit_DMA_status hal (nb_Transmit_DMA m) = HAL_OK ->
  (forall i, (i < 9)%nat -> GetState_value hal (nb_GetState m + i) <> HAL_SPI_STATE_READY) ->
  let launched := snd (SSD1306update hal m) in
  let r := rounds hal (every_tick 10) launched in
  fst r = repeat [ERR_SUCCESS] 9 ++ [[DmaTimeout]]
  /\ _state (snd r) = StIdle
  /\ CS (snd r) = GPIO_PIN_SET
  /\ calls (snd r)
     = calls launched ++ [ GPIO_WritePin SSD1306_CS_Pin GPIO_PIN_SET; SPI_DMAStop ]
  /\ nb_GetState (snd r) = (nb_GetState m + 9)%nat.
Proof.
  intros Hst H1 H2 Hd Hbusy launched r.
  destruct (launched_machine hal m Hst H1 H2 Hd) as (_ & Hst0 & Ht0 & Hg0).
  fold launched in Hst0, Ht0, Hg0.
  destruct (every_tick_busy hal 9 launched Hst0 ltac:(lia)) as (Hc1 & Hst1 & Ht1 & Hg1 & Hcalls1 & _).
  { intros i Hi. rewrite Hg0. now apply Hbusy. }
  subst r. change 10%nat with (9 + 1)%nat. rewrite every_tick_app, rounds_app.
  set (m1 := snd (rounds hal (every_tick 9) launched)) in *.
  assert (Hround : rounds hal (every_tick 1) m1 =
            ([[DmaTimeout]],
             set_state StIdle
               (after_calls [ GPIO_WritePin SSD1306_CS_Pin GPIO_PIN_SET; SPI_DMAStop ]
                  (tick_1ms m1)))).
  { cbn [every_tick repeat rounds]. unfold bind, ret.
    rewrite round_expired by (assumption || lia). reflexivity. }
  rewrite Hround, Hc1. cbn [fst snd].
  destruct (tick_1ms_frame m1) as (_ & Hcalls2 & _ & _).
  split; [reflexivity|]. split; [reflexivity|]. split; [reflexivity|].
  split.
  - autorewrite with frame. now rewrite Hcalls2, Hcalls1.
  - cbn. now rewrite nb_GetState_tick_1ms, Hg1, Hg0.
Qed.

(** The peripheral is ready from its tenth query on: it is not asked. *)
Lemma deadline_precedes_readiness_witness :
  let hal := hal_dma_ready_from 9 in
  let m := latch (F32.literal 123 10) 2 10 idle_machine in
  let launched := snd (SSD1306update hal m) in
  let r := rounds hal (every_tick 10) launched in
  fst r = repeat [ERR_SUCCESS] 9 ++ [[DmaTimeout]]
  /\ _state (snd r) = StIdle
  /\ CS (snd r) = GPIO_PIN_SET
  /\ calls (snd r)
     = calls launched ++ [ GPIO_WritePin SSD1306_CS_Pin GPIO_PIN_SET; SPI_DMAStop ]
  /\ nb_GetState (snd r) = (nb_GetState m + 9)%nat.
Proof.
  apply (deadline_precedes_readiness (hal_dma_ready_from 9)
           (latch (F32.literal 123 10) 2 10 idle_machine));
    [reflexivity | reflexivity | reflexivity | reflexivity |].
  intros i Hi. cbn.
  do 9 (destruct i as [|i]; [discriminate|]). lia.
Defined.

(** * Requests and the transfer in flight *)

Lemma In_command_calls (c : hal_call) (regNumber : SSD1306register_e) (params : list Z)
    (n : Z) (s1 s2 : HAL_StatusTypeDef) :
  In c (command_calls regNumber params n s1 s2) -> blocking_call c = true.
Proof.
  intros Hin. pose proof (blocking_command_calls regNumber params n s1 s2) as H.
  rewrite forallb_forall in H. now apply H.
Qed.

(** X14. A request made while a DMA transfer is awaited is accepted, and
    the next [SSD1306update] rasterizes it at once: when its COLUMN_ADDRESS
    command goes through, a second DMA is launched and the deadline is set
    to 10 again, without the first transfer being waited for (the state of
    the peripheral is not read) or stopped (no call to HAL_SPI_DMAStop). *)
Theorem request_abandons_transfer (hal : hal_env) (a : spec_float) (page column : Z)
    (m : machine) :
  _state m = StWaitingForTXdone ->
  angle_in_range a = true ->
  Transmit_status hal (nb_Transmit m) = HAL_OK ->
  Transmit_status hal (S (nb_Transmit m)) = HAL_OK ->
  let requested := SSD1306_printAngle a page column m in
  let r := SSD1306update hal (snd requested) in
  fst requested = ERR_SUCCESS
  /\ nb_Transmit_DMA (snd r) = S (nb_Transmit_DMA m)
  /\ screenTimer_ms (snd r) = SPI_TIMEOUT_MS
  /\ nb_GetState (snd r) = nb_GetState m
  /\ ~ In SPI_DMAStop (drop (length (calls m)) (calls (snd r)))
  /\ _state (snd r)
     = (if is_HAL_OK (Transmit_DMA_status hal (nb_Transmit_DMA m))
        then StWaitingForTXdone else StIdle).
Proof.
  intros Hst Hrange H1 H2 requested r. subst r requested.
  rewrite (printAngle_cases a page column m (angle_in_range_not_nan a Hrange)), Hrange.
  cbn [fst snd]. split; [reflexivity|].
  rewrite update_printing by reflexivity.
  destruct (stPrintingAngle_frame hal (latch a page column m)) as (_ & -> & _).
  rewrite (stPrintingAngle_column_success hal (latch a page column m) H1 H2).
  change (nb_Transmit_DMA (latch a page column m)) with (nb_Transmit_DMA m).
  assert (Hdrop : forall st cs c (x : machine),
            calls x = calls m ->
            drop (length (calls m))
              (calls (set_state st (after_call c (set_screenTimer_ms SPI_TIMEOUT_MS
                                                    (after_calls cs x)))))
            = cs ++ [c]).
  { intros st cs c x Hx. autorewrite with frame. rewrite Hx, <- app_assoc.
    now rewrite drop_app_length. }
  destruct (is_HAL_OK (Transmit_DMA_status hal (nb_Transmit_DMA m)));
    cbn [snd]; rewrite Hdrop by reflexivity;
    (split; [|split; [reflexivity|split; [reflexivity|split; [|reflexivity]]]]).
  1, 3: cbn [nb_Transmit_DMA set_state after_call set_screenTimer_ms]; f_equal;
    rewrite !app_assoc, !after_calls_app;
    repeat match goal with
    | |- context [nb_Transmit_DMA (after_calls ?cs ?x)] =>
        destruct (after_blocking_calls cs x) as (_ & -> & _);
        [first [apply blocking_command_calls | reflexivity]|]
    end; reflexivity.
  all: intros Hin; rewrite !in_app_iff in Hin;
    destruct Hin as [[Hin|[Hin|Hin]]|Hin];
    [ apply In_command_calls in Hin; discriminate
    | apply In_command_calls in Hin; discriminate
    | cbn in Hin; intuition discriminate
    | cbn in Hin; intuition discriminate ].
Qed.

Lemma request_abandons_transfer_witness :
  let hal := hal_dma_stalled in
  let m := snd (SSD1306update hal (latch (F32.literal 123 10) 2 10 idle_machine)) in
  let requested := SSD1306_printAngle (F32.opp (F32.literal 45 10)) 0 0 m in
  let r := SSD1306update hal (snd requested) in
  fst requested = ERR_SUCCESS
  /\ nb_Transmit_DMA (snd r) = S (nb_Transmit_DMA m)
  /\ screenTimer_ms (snd r) = SPI_TIMEOUT_MS
  /\ nb_GetState (snd r) = nb_GetState m
  /\ ~ In SPI_DMAStop (drop (length (calls m)) (calls (snd r)))
  /\ _state (snd r)
     = (if is_HAL_OK (Transmit_DMA_status hal (nb_Transmit_DMA m))
        then StWaitingForTXdone else StIdle).
Proof.
  apply (request_abandons_transfer hal_dma_stalled (F32.opp (F32.literal 45 10)) 0 0
           (snd (SSD1306update hal_dma_stalled (latch (F32.literal 123 10) 2 10 idle_machine))));
    [vm_compute; reflexivity | reflexivity | reflexivity | reflexivity].
Defined.

(** X15. The two window bounds are computed in [uint8_t]: for any byte
    values of the latched page and column, the COLUMN_ADDRESS command
    carries [column, (column + 65) mod 256] and the PAGE_ADDRESS command
    [page, (page + 1) mod 256].  For a column above 190 the end of the
    window sent is therefore column - 191, below its start, and for page
    255 the end page is 0. *)
Theorem address_window_modulo (hal : hal_env) (a : spec_float) (page column : Z)
    (m0 : machine) :
  0 <= page <= 255 ->
  0 <= column <= 255 ->
  Transmit_status hal (nb_Transmit m0) = HAL_OK ->
  Transmit_status hal (S (nb_Transmit m0)) = HAL_OK ->
  Transmit_status hal (S (S (nb_Transmit m0))) = HAL_OK ->
  Transmit_status hal (S (S (S (nb_Transmit m0)))) = HAL_OK ->
  let m' := snd (SSD1306update hal (latch a page column m0)) in
  take 10 (drop (length (calls m0)) (calls m')) =
    command_transaction COLUMN_ADDRESS [column; (column + 65) mod 256]
    ++ command_transaction PAGE_ADDRESS [page; (page + 1) mod 256]
  /\ (190 < column -> (column + 65) mod 256 = column - 191)
  /\ (page = 255 -> (page + 1) mod 256 = 0).
Proof.
  intros Hpage Hcolumn H0 H1 H2 H3 m'. subst m'.
  split; [|split].
  - rewrite update_printing by reflexivity.
    rewrite (stPrintingAngle_column_success hal (latch a page column m0) H0 H1).
    change (nb_Transmit (latch a page column m0)) with (nb_Transmit m0).
    change (_nextColumn (latch a page column m0)) with column.
    change (_nextPage (latch a page column m0)) with page.
    rewrite H2, H3.
    replace (to_uint8 (column + VERDANA_CHAR_WIDTH * 6 - 1)) with ((column + 65) mod 256)
      by (unfold to_uint8, VERDANA_CHAR_WIDTH; f_equal; lia).
    change (to_uint8 (page + 1)) with ((page + 1) mod 256).
    destruct (is_HAL_OK (Transmit_DMA_status hal _));
      cbn [snd]; autorewrite with frame;
      change (calls (latch a page column m0)) with (calls m0);
      rewrite <- !app_assoc, drop_app_length; reflexivity.
  - intros Hc. replace (column + 65) with (column - 191 + 1 * 256) by lia.
    rewrite Z.mod_add by lia. apply Z.mod_small. lia.
  - intros ->. reflexivity.
Qed.

Lemma address_window_modulo_witness :
  let m' := snd (SSD1306update hal_all_ok (latch (S754_zero false) 255 200 idle_machine)) in
  take 10 (drop (length (calls idle_machine)) (calls m')) =
    command_transaction COLUMN_ADDRESS [200; (200 + 65) mod 256]
    ++ command_transaction PAGE_ADDRESS [255; (255 + 1) mod 256]
  /\ (190 < 200 -> (200 + 65) mod 256 = 200 - 191)
  /\ (255 = 255 -> (255 + 1) mod 256 = 0).
Proof.
  apply (address_window_modulo hal_all_ok (S754_zero false) 255 200 idle_machine);
    [lia | lia | reflexivity | reflexivity | reflexivity | reflexivity].
Defined.

(** * Invariants of the state machine *)





(** Two renders in a row, every transmission and both launches accepted. *)
Lemma idle_released_invariant_witness :
  idle_released
    (serve_all hal_all_ok
       [ PrintAngle (F32.literal 123 10) 2 10; Update; Tick; Update;
         PrintAngle (F32.opp (F32.literal 45 10)) 0 0; Update; Tick; Tick; Update ]
       idle_machine).
Proof.
  apply (idle_released_invariant hal_all_ok
           [ PrintAngle (F32.literal 123 10) 2 10; Update; Tick; Update;
             PrintAngle (F32.opp (F32.literal 45 10)) 0 0; Update; Tick; Tick; Update ]
           idle_machine);
    [intros n; reflexivity | intros _; reflexivity].
Defined.

(** * The digits and the font table *)

(** X18. For every binary32 angle that [SSD1306_printAngle] accepts, the
    three conversions of [stPrintingAngle] to [uint8_t] and [uint16_t] are
    applied to values whose integer part fits the type (at most 9, 90 and
    900), and the array [charIndexes] always has the shape sign, digit,
    digit, '.', digit, degree: the sign is '+' or '-' and the tens, the
    units and the tenths are glyph indices from 0 to 9. *)
Theorem charIndexes_format (a : spec_float) (page column : Z) (m : machine) :
  F32.valid a = true ->
  angle_in_range a = true ->
  let charIndexes := fst (angle_charIndexes (latch a page column m)) in
  let a' := _nextAngle (snd (angle_charIndexes (latch a page column m))) in
  0 <= F32.trunc (F32.div a' FLOAT_FACTOR_10) <= 9
  /\ 0 <= F32.trunc a' <= 90
  /\ 0 <= F32.trunc (F32.mul a' FLOAT_FACTOR_10) <= 900
  /\ exists sign tens units tenths,
       charIndexes = [sign; tens; units; INDEX_DOT; tenths; INDEX_DEG]
       /\ (sign = INDEX_PLUS \/ sign = INDEX_MINUS)
       /\ 0 <= tens <= 9 /\ 0 <= units <= 9 /\ 0 <= tenths <= 9.
Proof.
  intros Hvalid Hrange charIndexes a'. subst charIndexes a'.
  rewrite angle_charIndexes_eq. cbn [fst snd].
  change (_nextAngle (latch a page column m)) with a.
  change (_nextAngle (set_nextAngle (sign_normalized a) (latch a page column m)))
    with (sign_normalized a).
  destruct (charIndexes_range a Hvalid Hrange) as (Htens & Hunits & Htenths).
  split; [exact Htens|]. split; [exact Hunits|]. split; [exact Htenths|].
  unfold charIndexes_of. do 4 eexists. split; [reflexivity|].
  unfold float_to_uint8, float_to_uint16, to_uint8, to_uint16, INT_FACTOR_10.
  rewrite (Z.mod_small (F32.trunc (F32.div _ _)) 256) by lia.
  rewrite (Z.mod_small (F32.trunc (sign_normalized a)) 256) by lia.
  rewrite (Z.mod_small (F32.trunc (F32.mul _ _)) 65536) by lia.
  pose proof (Z.mod_pos_bound (F32.trunc (sign_normalized a)) 10).
  pose proof (Z.mod_pos_bound (F32.trunc (F32.mul (sign_normalized a) FLOAT_FACTOR_10)) 10).
  rewrite !(Z.mod_small (_ mod 10) 256) by lia.
  split; [destruct (F32.ltb a NEG_THRESHOLD); [right|left]; reflexivity|].
  lia.
Qed.

Lemma charIndexes_format_witness :
  let a := F32.opp (F32.literal 8996 100) in
  let charIndexes := fst (angle_charIndexes (latch a 0 0 idle_machine)) in
  let a' := _nextAngle (snd (angle_charIndexes (latch a 0 0 idle_machine))) in
  0 <= F32.trunc (F32.div a' FLOAT_FACTOR_10) <= 9
  /\ 0 <= F32.trunc a' <= 90
  /\ 0 <= F32.trunc (F32.mul a' FLOAT_FACTOR_10) <= 900
  /\ exists sign tens units tenths,
       charIndexes = [sign; tens; units; INDEX_DOT; tenths; INDEX_DEG]
       /\ (sign = INDEX_PLUS \/ sign = INDEX_MINUS)
       /\ 0 <= tens <= 9 /\ 0 <= units <= 9 /\ 0 <= tenths <= 9.
Proof.
  exact (charIndexes_format (F32.opp (F32.literal 8996 100)) 0 0 idle_machine
           eq_refl eq_refl).
Defined.




(** X20. An angle below the threshold is shown with the digits of its
    opposite: the array [charIndexes] built for it is the one built for
    the opposite angle with '-' in place of the sign. *)
Theorem negative_angle_digits (a : spec_float) (page column : Z) (m : machine) :
  F32.ltb a NEG_THRESHOLD = true ->
  fst (angle_charIndexes (latch a page column m))
  = <[INDEX_SIGN := INDEX_MINUS]>
      (fst (angle_charIndexes (latch (F32.opp a) page column m))).
Proof.
  intros Hlt. rewrite !angle_charIndexes_eq. cbn [fst].
  change (_nextAngle (latch a page column m)) with a.
  change (_nextAngle (latch (F32.opp a) page column m)) with (F32.opp a).
  assert (Hopp : F32.ltb (F32.opp a) NEG_THRESHOLD = false).
  { rewrite NEG_THRESHOLD_eq in *. unfold F32.ltb, F32.opp, SFltb in *.
    destruct a as [s|s| |s ma ea]; try discriminate; destruct s; try discriminate;
      reflexivity. }
  unfold charIndexes_of, sign_normalized. rewrite Hlt, Hopp. reflexivity.
Qed.

Lemma negative_angle_digits_witness :
  fst (angle_charIndexes (latch (F32.opp (F32.literal 123 10)) 2 10 idle_machine))
  = <[INDEX_SIGN := INDEX_MINUS]>
      (fst (angle_charIndexes (latch (F32.opp (F32.opp (F32.literal 123 10))) 2 10
                                 idle_machine))).
Proof.
  exact (negative_angle_digits (F32.opp (F32.literal 123 10)) 2 10 idle_machine eq_refl).
Defined.

(** X21. Every binary32 angle from the threshold -0.05 up to zero (zero of
    either sign included) is shown as "+00.0": the angle is not negated,
    and each of the three conversions of a value between -0.5 and 0
    gives 0. *)
Theorem small_negative_shows_zero (a : spec_float) (page column : Z) (m : machine) :
  F32.valid a = true ->
  F32.leb NEG_THRESHOLD a = true ->
  F32.leb a (S754_zero false) = true ->
  fst (angle_charIndexes (latch a page column m))
  = [INDEX_PLUS; 0; 0; INDEX_DOT; 0; INDEX_DEG].
Proof.
  intros Hvalid Hle Hzero. rewrite angle_charIndexes_eq. cbn [fst].
  change (_nextAngle (latch a page column m)) with a.
  assert (Hlt : F32.ltb a NEG_THRESHOLD = false) by (apply SFleb_not_SFltb; exact Hle).
  unfold charIndexes_of, sign_normalized. rewrite Hlt.
  destruct a as [s|s| |s ma ea].
  - destruct s; reflexivity.
  - destruct s; discriminate.
  - discriminate.
  - destruct s; [|discriminate].
    destruct (valid_finite_bounds true ma ea Hvalid) as [He Hm].
    rewrite NEG_THRESHOLD_eq in Hle. unfold F32.leb in Hle.
    destruct (magnitude_le ma ea 13421773 (-28) Hm He ltac:(lia) ltac:(lia)
                (negative_leb_magnitude _ _ _ _ Hle)) as [He28 Hmag].
    destruct (digits_of_small_negative ma ea ltac:(lia) Hmag) as (H1 & H2 & H3).
    unfold float_to_uint8, float_to_uint16. rewrite H1, H2, H3. reflexivity.
Qed.

Lemma small_negative_shows_zero_witness :
  fst (angle_charIndexes (latch (F32.opp (F32.literal 3 100)) 2 10 idle_machine))
  = [INDEX_PLUS; 0; 0; INDEX_DOT; 0; INDEX_DEG].
Proof.
  exact (small_negative_shows_zero (F32.opp (F32.literal 3 100)) 2 10 idle_machine
           eq_refl eq_refl eq_refl).
Defined.

(** * Requests in a row *)

(** X22. No request is queued: the driver holds one latched request.  Of
    two accepted requests made without a call to [SSD1306update] in
    between, the second replaces the first, which is never rendered (the
    machine is the one the second request alone would leave); a rejected
    request made after an accepted one leaves that one latched and
    pending. *)
Theorem last_request_wins (a1 a2 : spec_float) (page1 column1 page2 column2 : Z)
    (m : machine) :
  angle_in_range a1 = true ->
  a2 <> S754_nan ->
  let first := SSD1306_printAngle a1 page1 column1 m in
  let second := SSD1306_printAngle a2 page2 column2 (snd first) in
  fst first = ERR_SUCCESS
  /\ (angle_in_range a2 = true ->
      second = SSD1306_printAngle a2 page2 column2 m
      /\ (_nextAngle (snd second), _nextPage (snd second), _nextColumn (snd second))
         = (a2, page2, column2))
  /\ (angle_in_range a2 = false ->
      second = (AngleOutOfRange, latch a1 page1 column1 m)
      /\ _state (snd second) = StPrintingAngle).
Proof.
  intros H1 H2 first second. subst second first.
  rewrite (printAngle_cases a1 page1 column1 m (angle_in_range_not_nan a1 H1)), H1.
  cbn [fst snd]. rewrite !(printAngle_cases a2 page2 column2 _ H2).
  split; [reflexivity|]. split; intros ->; split; reflexivity.
Qed.

Lemma last_request_wins_witness :
  let m := idle_machine in
  let first := SSD1306_printAngle (F32.literal 123 10) 2 10 m in
  (let second := SSD1306_printAngle (F32.opp (F32.literal 45 10)) 0 0 (snd first) in
   second = SSD1306_printAngle (F32.opp (F32.literal 45 10)) 0 0 m
   /\ (_nextAngle (snd second), _nextPage (snd second), _nextColumn (snd second))
      = (F32.opp (F32.literal 45 10), 0, 0))
  /\ (let second := SSD1306_printAngle (F32.literal 9001 100) 0 0 (snd first) in
      second = (AngleOutOfRange, latch (F32.literal 123 10) 2 10 m)
      /\ _state (snd second) = StPrintingAngle).
Proof.
  split.
  - exact (proj1 (proj2 (last_request_wins (F32.literal 123 10) (F32.opp (F32.literal 45 10))
                           2 10 0 0 idle_machine eq_refl ltac:(discriminate))) eq_refl).
  - exact (proj2 (proj2 (last_request_wins (F32.literal 123 10) (F32.literal 9001 100)
                           2 10 0 0 idle_machine eq_refl ltac:(discriminate))) eq_refl).
Defined.

(** * The sign on the screen *)

Lemma nextAngle_after_calls (cs : list hal_call) (m : machine) :
  _nextAngle (after_calls cs m) = _nextAngle m.
Proof. revert m. induction cs as [|c cs IH]; intros m; simpl; [|rewrite IH]; reflexivity. Qed.

(** Whatever the HAL answers, the angle that [stPrintingAngle] leaves in
    [_nextAngle] is the sign-normalized one. *)
Lemma stPrintingAngle_nextAngle (hal : hal_env) (m : machine) :
  _nextAngle (snd (stPrintingAngle hal m)) = sign_normalized (_nextAngle m).
Proof.
  destruct (Transmit_status hal (nb_Transmit m)) eqn:H1;
    [destruct (Transmit_status hal (S (nb_Transmit m))) eqn:H2|..].
  1: { rewrite (stPrintingAngle_column_success hal m H1 H2).
       destruct (is_HAL_OK _); cbn [snd];
         change (_nextAngle (set_state ?st (after_call (SPI_Transmit_DMA ?d ?n ?s)
                   (set_screenTimer_ms ?t ?x)))) with (_nextAngle x);
         now rewrite nextAngle_after_calls. }
  all: rewrite stPrintingAngle_column_failure by (rewrite H1, ?H2; reflexivity);
    cbn [snd]; change (_nextAngle (set_state ?st ?x)) with (_nextAngle x);
    now rewrite nextAngle_after_calls.
Qed.

(** Where the glyph of the first slot lies in the payload: its upper page
    in the bytes 0..10, its lower page in the bytes 66..76. *)
Lemma payload_sign_rows (s t u d e g : Z) (rest : list Z) :
  take 11 (glyph_table_payload [s; t; u; d; e; g] ++ rest) = map (glyph_byte s) (seqZ 0 11)
  /\ take 11 (drop 66 (glyph_table_payload [s; t; u; d; e; g] ++ rest))
     = map (glyph_byte s) (seqZ 11 11).
Proof. split; reflexivity. Qed.

(** C4. For an angle a of [-90.0, +90.0], the rasterizing tick renders in
    the sign slot (the first of the six glyphs: bytes 0..10 and 66..76 of
    the frame buffer) the glyph '+' if a >= -0.05, the binary32 constant
    [NEG_THRESHOLD], and the glyph '-' otherwise; when the sign is '-' the
    angle left in [_nextAngle], from which the three digits rendered
    beside the sign are taken, is -a, and it is a otherwise.  In
    particular the glyph rendered is '+' for every a with |a| < 0.05.
    This holds whatever the HAL answers during the tick. *)
Theorem sign_slot_threshold (hal : hal_env) (a : spec_float) (page column : Z)
    (m0 : machine) :
  angle_in_range a = true ->
  (132 <= length (_screenBuffer m0))%nat ->
  let m' := snd (SSD1306update hal (latch a page column m0)) in
  let sign := if F32.leb NEG_THRESHOLD a then INDEX_PLUS else INDEX_MINUS in
  let a' := if F32.leb NEG_THRESHOLD a then a else F32.opp a in
  _nextAngle m' = a'
  /\ take 132 (_screenBuffer m')
     = glyph_table_payload
         [ sign;
           float_to_uint8 (F32.div a' FLOAT_FACTOR_10);
           to_uint8 (float_to_uint8 a' mod INT_FACTOR_10);
           INDEX_DOT;
           to_uint8 (float_to_uint16 (F32.mul a' FLOAT_FACTOR_10) mod INT_FACTOR_10);
           INDEX_DEG ]
  /\ take 11 (_screenBuffer m') = map (glyph_byte sign) (seqZ 0 11)
  /\ take 11 (drop 66 (_screenBuffer m')) = map (glyph_byte sign) (seqZ 11 11)
  /\ (F32.ltb (F32.abs a) (F32.literal 5 100) = true ->
      take 11 (_screenBuffer m') = map (glyph_byte INDEX_PLUS) (seqZ 0 11)
      /\ take 11 (drop 66 (_screenBuffer m')) = map (glyph_byte INDEX_PLUS) (seqZ 11 11)).
Proof.
  intros Hrange Hlen m' sign a'.
  destruct (sign_normalized_normalized a (angle_in_range_not_nan a Hrange)) as [Hn Hs].
  assert (Hangle : _nextAngle m' = a').
  { subst m'. rewrite update_printing by reflexivity.
    rewrite stPrintingAngle_nextAngle.
    change (_nextAngle (latch a page column m0)) with a. exact Hn. }
  assert (Hbuffer : _screenBuffer m'
            = glyph_table_payload
                [ sign;
                  float_to_uint8 (F32.div a' FLOAT_FACTOR_10);
                  to_uint8 (float_to_uint8 a' mod INT_FACTOR_10);
                  INDEX_DOT;
                  to_uint8 (float_to_uint16 (F32.mul a' FLOAT_FACTOR_10) mod INT_FACTOR_10);
                  INDEX_DEG ]
              ++ drop 132 (_screenBuffer m0)).
  { subst m'. rewrite update_printing by reflexivity.
    destruct (stPrintingAngle_frame hal (latch a page column m0)) as (_ & _ & ->).
    unfold rasterized, filled.
    cbn [_screenBuffer set_nextPage set_nextColumn set_screenBuffer set_nextAngle latch
         set_state _nextAngle].
    rewrite buffer_pages_payload.
    rewrite list_inserts_prefix by (rewrite length_glyph_table_payload; exact Hlen).
    rewrite length_glyph_table_payload.
    unfold charIndexes_of. rewrite Hs, Hn. reflexivity. }
  split; [exact Hangle|]. rewrite Hbuffer.
  split.
  { rewrite <- (length_glyph_table_payload
                  [ sign;
                    float_to_uint8 (F32.div a' FLOAT_FACTOR_10);
                    to_uint8 (float_to_uint8 a' mod INT_FACTOR_10);
                    INDEX_DOT;
                    to_uint8 (float_to_uint16 (F32.mul a' FLOAT_FACTOR_10) mod INT_FACTOR_10);
                    INDEX_DEG ]) at 1.
    apply take_app_length. }
  split; [apply payload_sign_rows|]. split; [apply payload_sign_rows|].
  intros Habs. subst sign. rewrite (abs_below_threshold a Habs).
  apply payload_sign_rows.
Qed.

(** Scenarios 2 and 3 of section 8: -0.1 is rendered with '-' and the
    digits of 0.1, -0.03 with '+'. *)
Lemma sign_slot_threshold_witness :
  (let a := F32.opp (F32.literal 1 10) in
   let m' := snd (SSD1306update hal_all_ok (latch a 2 10 idle_machine)) in
   let sign := if F32.leb NEG_THRESHOLD a then INDEX_PLUS else INDEX_MINUS in
   let a' := if F32.leb NEG_THRESHOLD a then a else F32.opp a in
   _nextAngle m' = a'
   /\ take 132 (_screenBuffer m')
      = glyph_table_payload
          [ sign;
            float_to_uint8 (F32.div a' FLOAT_FACTOR_10);
            to_uint8 (float_to_uint8 a' mod INT_FACTOR_10);
            INDEX_DOT;
            to_uint8 (float_to_uint16 (F32.mul a' FLOAT_FACTOR_10) mod INT_FACTOR_10);
            INDEX_DEG ]
   /\ take 11 (_screenBuffer m') = map (glyph_byte sign) (seqZ 0 11)
   /\ take 11 (drop 66 (_screenBuffer m')) = map (glyph_byte sign) (seqZ 11 11)
   /\ (F32.ltb (F32.abs a) (F32.literal 5 100) = true ->
       take 11 (_screenBuffer m') = map (glyph_byte INDEX_PLUS) (seqZ 0 11)
       /\ take 11 (drop 66 (_screenBuffer m')) = map (glyph_byte INDEX_PLUS) (seqZ 11 11)))
  /\ (let a := F32.opp (F32.literal 3 100) in
      let m' := snd (SSD1306update hal_all_ok (latch a 2 10 idle_machine)) in
      take 11 (_screenBuffer m') = map (glyph_byte INDEX_PLUS) (seqZ 0 11)
      /\ take 11 (drop 66 (_screenBuffer m')) = map (glyph_byte INDEX_PLUS) (seqZ 11 11)).
Proof.
  split.
  - apply (sign_slot_threshold hal_all_ok (F32.opp (F32.literal 1 10)) 2 10 idle_machine);
      [reflexivity | vm_compute; lia].
  - apply (sign_slot_threshold hal_all_ok (F32.opp (F32.literal 3 100)) 2 10 idle_machine);
      [reflexivity | vm_compute; lia | reflexivity].
Defined.

(** In scenario 2 the sign rendered is '-' and the digits are those of 0.1;
    in scenario 3 the sign is '+'.  The two sign glyphs differ on both
    pages. *)
Example scenario_2_3_signs :
  (if F32.leb NEG_THRESHOLD (F32.opp (F32.literal 1 10)) then INDEX_PLUS else INDEX_MINUS)
    = INDEX_MINUS
  /\ _nextAngle (snd (SSD1306update hal_all_ok
                        (latch (F32.opp (F32.literal 1 10)) 2 10 idle_machine)))
     = F32.literal 1 10
  /\ (if F32.leb NEG_THRESHOLD (F32.opp (F32.literal 3 100)) then INDEX_PLUS else INDEX_MINUS)
     = INDEX_PLUS
  /\ map (glyph_byte INDEX_PLUS) (seqZ 0 11) <> map (glyph_byte INDEX_MINUS) (seqZ 0 11)
  /\ map (glyph_byte INDEX_PLUS) (seqZ 11 11) <> map (glyph_byte INDEX_MINUS) (seqZ 11 11).
Proof. vm_compute. repeat split; discriminate. Qed.
